(** * rss-rest-api: the feed store of [rss-rest-api.py], embedded and verified

    The development follows the Python module top to bottom:
    - the Python values the program handles (exceptions, [datetime],
      slices, insertion-ordered [dict]s, JSON-like documents);
    - the process state (the [FeedStorage] singleton, the wall clock, the
      random source behind [uuid.uuid4], the storage file);
    - [FeedEntry], [RssFeed], [FeedStorage] and the endpoints that build
      aggregate feeds;
    - the theorems, one group per property of the specification. *)

From Stdlib Require Import ZArith NArith List String Ascii Bool Lia Arith.
From Stdlib Require Import Permutation Sorted.
Import ListNotations.

Set Implicit Arguments.
Set Warnings "-register-all".
Local Open Scope string_scope.
Local Open Scope list_scope.
Local Open Scope Z_scope.

(* ================================================================== *)
(** * Python values *)
(* ================================================================== *)

(** The built-in exceptions this program can meet. *)
Inductive exn : Type :=
| KeyError
| ValueError
| TypeError
| AttributeError
| OverflowError.

(** The outcome of evaluating an expression.  [IllTyped] is not a Python
    exception and no [except] clause catches it: it marks a value whose
    dynamic type is not the one the class annotations give its field
    (the records below are typed by those annotations).  Python goes on
    with such a value; the model stops there, so a run that ends in
    [IllTyped] says nothing of the program. *)
Inductive res (A : Type) : Type :=
| Ok (a : A)
| Raise (e : exn)
| IllTyped.
Arguments Ok {A} a.
Arguments Raise {A} e.
Arguments IllTyped {A}.

(** [l[:n]] for any integer [n]: a negative bound counts from the end. *)
Definition slice_to {A : Type} (l : list A) (n : Z) : list A :=
  if n <? 0
  then firstn (Z.to_nat (Z.of_nat (List.length l) + n)) l
  else firstn (Z.to_nat n) l.

(** [sub in s] on [str]. *)
Fixpoint str_contains (sub s : string) : bool :=
  if String.prefix sub s then true
  else match s with
       | EmptyString => false
       | String _ s' => str_contains sub s'
       end.

(** ** [dict]: insertion-ordered, one binding per key *)

Definition dict (V : Type) : Type := list (string * V).

Fixpoint dict_get {V : Type} (k : string) (d : dict V) : option V :=
  match d with
  | [] => None
  | (k', v) :: d' => if String.eqb k k' then Some v else dict_get k d'
  end.

Definition dict_mem {V : Type} (k : string) (d : dict V) : bool :=
  match dict_get k d with Some _ => true | None => false end.

(** [d[k] = v]: an existing key keeps its place, a new one goes last. *)
Fixpoint dict_set {V : Type} (k : string) (v : V) (d : dict V) : dict V :=
  match d with
  | [] => [(k, v)]
  | (k', v') :: d' =>
      if String.eqb k k' then (k', v) :: d' else (k', v') :: dict_set k v d'
  end.

(** [del d[k]]. *)
Fixpoint dict_del {V : Type} (k : string) (d : dict V) : dict V :=
  match d with
  | [] => []
  | (k', v') :: d' =>
      if String.eqb k k' then d' else (k', v') :: dict_del k d'
  end.

Definition dict_keys {V : Type} (d : dict V) : list string := map fst d.
Definition dict_values {V : Type} (d : dict V) : list V := map snd d.

(** ** Documents: what [json.load] returns and [json.dump] accepts

    Numbers and booleans are left out: no field of this program holds
    one. *)
Inductive pyval : Type :=
| PNone
| PStr (s : string)
| PList (l : list pyval)
| PDict (d : list (string * pyval)).

(** ** [datetime.datetime]

    [wall] is the number of microseconds the calendar fields (year, month,
    day, hour, minute, second, microsecond) stand for, counted from
    0001-01-01T00:00:00; the count orders datetimes as the tuples of
    their fields do.  [utcoffset] is [None] for a naive datetime and the
    offset of its [tzinfo], in microseconds, for an aware one. *)
Record datetime : Type := mkDatetime {
  wall : Z;
  utcoffset : option Z
}.

Definition MICROS_PER_DAY : Z := 86400 * 1000000.

(** Days from 0001-01-01 to 9999-12-31, both included. *)
Definition MAX_ORDINAL : Z := 3652059.

(** The three-way comparison behind [<], [<=], [>], [>=]: two naive
    datetimes compare by their fields, two aware ones by their UTC
    instants, one of each raises [TypeError]. *)
Definition dt_cmp (a b : datetime) : res comparison :=
  match utcoffset a, utcoffset b with
  | None, None => Ok (wall a ?= wall b)
  | Some oa, Some ob => Ok ((wall a - oa) ?= (wall b - ob))
  | _, _ => Raise TypeError
  end.

Definition is_gt (c : comparison) : bool :=
  match c with Gt => true | _ => false end.
Definition is_ge (c : comparison) : bool :=
  match c with Lt => false | _ => true end.
Definition is_le (c : comparison) : bool :=
  match c with Gt => false | _ => true end.
Definition is_lt (c : comparison) : bool :=
  match c with Lt => true | _ => false end.

Definition res_map {A B : Type} (f : A -> B) (r : res A) : res B :=
  match r with
  | Ok a => Ok (f a)
  | Raise e => Raise e
  | IllTyped => IllTyped
  end.

Definition dt_gt (a b : datetime) : res bool := res_map is_gt (dt_cmp a b).
Definition dt_ge (a b : datetime) : res bool := res_map is_ge (dt_cmp a b).
Definition dt_le (a b : datetime) : res bool := res_map is_le (dt_cmp a b).
Definition dt_lt (a b : datetime) : res bool := res_map is_lt (dt_cmp a b).

(** [d - datetime.timedelta(days=n)]: a [timedelta] holds at most
    999999999 days, and the difference must fall in years 1 to 9999. *)
Definition dt_sub_days (d : datetime) (n : Z) : res datetime :=
  let w := wall d - n * MICROS_PER_DAY in
  if (Z.abs n <=? 999999999) && (0 <=? w) && (w <? MAX_ORDINAL * MICROS_PER_DAY)
  then Ok (mkDatetime w (utcoffset d))
  else Raise OverflowError.

(** ** The library functions the program calls

    [strptime s fmt] is [datetime.datetime.strptime], [fromisoformat] is
    [datetime.datetime.fromisoformat] and [int_of_str] is [int] on a
    [str]: each raises [ValueError], here [None], on text it does not
    accept.  [str_lower] is [str.lower] and [str_of_dict] is [str] on a
    [dict] of strings. *)
Class PyLib : Type := {
  strptime : string -> string -> option datetime;
  fromisoformat : string -> option datetime;
  int_of_str : string -> option Z;
  str_lower : string -> string;
  str_of_dict : list (string * string) -> string
}.

(* ================================================================== *)
(** * The data model *)
(* ================================================================== *)

(** [class FeedEntry]: the attributes [__init__] sets, at their
    annotated types. *)
Record FeedEntry : Type := mkFeedEntry {
  title : string;
  link : string;
  description : string;
  pub_date : string;
  guid : string;
  image_url : option string
}.

(** [class RssFeed]. *)
Record RssFeed : Type := mkRssFeed {
  feed_title : string;
  feed_link : string;
  feed_description : string;
  language : string;
  feed_id : string;
  entries : list FeedEntry;
  feed_image_url : option string
}.

(** [feed.entries = l]. *)
Definition set_entries (feed : RssFeed) (l : list FeedEntry) : RssFeed :=
  mkRssFeed (feed_title feed) (feed_link feed) (feed_description feed)
            (language feed) (feed_id feed) l (feed_image_url feed).

(** The module-level settings read from the environment at import. *)
Class Config : Type := {
  HISTORY_DAYS : Z;
  MAX_ENTRIES_PER_FEED : Z;
  GENERAL_FEED_TITLE : string
}.

(* ================================================================== *)
(** * The process state *)
(* ================================================================== *)

(** The file at [STORAGE_FILE]: absent, not JSON, or a JSON document. *)
Inductive File : Type :=
| NoFile
| NotJson
| Json (doc : pyval).

(** ** Text that a UTF-8 file takes

    A [str] is held as the bytes of its UTF-8 form.  A [str] may hold a
    lone surrogate (the JSON escapes [\ud800] to [\udfff] make one);
    it is held as the three bytes that [surrogatepass] gives it, [ED],
    then [A0] to [BF], then a trailing byte.  A file opened with
    [encoding='utf-8'] refuses to write such a character with
    [UnicodeEncodeError]: [utf8_strict s] says that [s] is well-formed
    UTF-8, so that [s.encode('utf-8')] succeeds. *)
Definition trail (c : ascii) : bool :=
  ((128 <=? N_of_ascii c) && (N_of_ascii c <=? 191))%N.

Fixpoint utf8_strict (s : string) : bool :=
  match s with
  | EmptyString => true
  | String a s1 =>
      let x := N_of_ascii a in
      if (x <? 128)%N then utf8_strict s1
      else if (x <? 194)%N then false
      else if (x <? 224)%N then
        match s1 with
        | String b s2 => trail b && utf8_strict s2
        | _ => false
        end
      else if (x <? 240)%N then
        match s1 with
        | String b (String c s3) =>
            trail b && trail c
            && (if (x =? 224)%N then (160 <=? N_of_ascii b)%N else true)
            && (if (x =? 237)%N then (N_of_ascii b <? 160)%N else true)
            && utf8_strict s3
        | _ => false
        end
      else if (x <? 245)%N then
        match s1 with
        | String b (String c (String d s4)) =>
            trail b && trail c && trail d
            && (if (x =? 240)%N then (144 <=? N_of_ascii b)%N else true)
            && (if (x =? 244)%N then (N_of_ascii b <? 144)%N else true)
            && utf8_strict s4
        | _ => false
        end
      else false
  end.

(** Every string of a document, keys included, can be written. *)
Fixpoint encodable (v : pyval) : bool :=
  match v with
  | PNone => true
  | PStr s => utf8_strict s
  | PList l => forallb encodable l
  | PDict d =>
      forallb (fun kv : string * pyval =>
                 let (k, x) := kv in utf8_strict k && encodable x) d
  end.

(** What becomes of [open(STORAGE_FILE, 'w')] followed by [json.dump]:
    the document is written; or [open] raises ([OSError]) and the file
    is as it was; or the file was opened, which empties it, and an
    exception stops the writing before its end ([OSError], or
    [UnicodeEncodeError] at a string the file refuses), which leaves a
    proper prefix of the document's text. *)
Inductive write_outcome : Type :=
| Written
| Unopened
| Truncated.

(** What the program reads and writes besides its arguments:
    [storage.feeds]; the storage file and the number of [save] calls so
    far; the wall clock, as the sequence of values [datetime.now()] is
    going to return, with the number of readings taken; the bytes behind
    [uuid.uuid4()], likewise; and what the operating system is going to
    do at each [save], by the number of the call. *)
Record State : Type := mkState {
  feeds : dict RssFeed;
  storage_file : File;
  saves : nat;
  wall_clock : nat -> Z;
  clock_reads : nat;
  urandom : nat -> N;
  uuid_draws : nat;
  disk : nat -> write_outcome
}.

Definition set_feeds (d : dict RssFeed) (st : State) : State :=
  mkState d (storage_file st) (saves st) (wall_clock st) (clock_reads st)
          (urandom st) (uuid_draws st) (disk st).

(** A computation: it ends with a value or an exception, and leaves a
    state either way (nothing is rolled back when an exception is
    raised). *)
Definition M (A : Type) : Type := State -> res A * State.

Definition ret {A : Type} (a : A) : M A := fun st => (Ok a, st).

Definition bind {A B : Type} (m : M A) (k : A -> M B) : M B :=
  fun st =>
    match m st with
    | (Ok a, st') => k a st'
    | (Raise e, st') => (Raise e, st')
    | (IllTyped, st') => (IllTyped, st')
    end.

Definition lift {A : Type} (r : res A) : M A := fun st => (r, st).

Definition raise {A : Type} (e : exn) : M A := lift (Raise e).

Declare Scope py_scope.
Delimit Scope py_scope with py.
Notation "x <- m ;; k" := (bind m (fun x => k))
  (at level 61, m at next level, right associativity) : py_scope.
Notation "m ;;; k" := (bind m (fun _ => k))
  (at level 61, right associativity) : py_scope.
Local Open Scope py_scope.

(** [try: m  except Exception: h]. *)
Definition try_except {A : Type} (m : M A) (h : exn -> M A) : M A :=
  fun st =>
    match m st with
    | (Raise e, st') => h e st'
    | r => r
    end.

(** [try: m  except ValueError: h]. *)
Definition try_except_ValueError {A : Type} (m : M A) (h : M A) : M A :=
  fun st =>
    match m st with
    | (Raise ValueError, st') => h st'
    | r => r
    end.

Definition get_state : M State := fun st => (Ok st, st).
Definition modify (f : State -> State) : M unit := fun st => (Ok tt, f st).

(** [[x for x in l if p(x)]], with a test that may read the clock or
    raise. *)
Fixpoint filterM {A : Type} (p : A -> M bool) (l : list A) : M (list A) :=
  match l with
  | [] => ret []
  | x :: l' =>
      b <- p x ;;
      r <- filterM p l' ;;
      ret (if b then x :: r else r)
  end.

(** [[f(x) for x in l]]. *)
Fixpoint mapM {A B : Type} (f : A -> M B) (items : list A) {struct items}
  : M (list B) :=
  match items with
  | nil => ret nil
  | cons x items' =>
      y <- f x ;;
      ys <- mapM f items' ;;
      ret (cons y ys)
  end.

(** [datetime.datetime.now()]: naive local time. *)
Definition datetime_now : M datetime :=
  fun st =>
    (Ok (mkDatetime (wall_clock st (clock_reads st)) None),
     mkState (feeds st) (storage_file st) (saves st) (wall_clock st)
             (S (clock_reads st)) (urandom st) (uuid_draws st) (disk st)).

(** ** [str(uuid.uuid4())] *)

(** [UUID(bytes=os.urandom(16), version=4).int]: the variant and version
    bits are forced. *)
Definition uuid4_int (r : N) : N :=
  let i := (r mod 2 ^ 128)%N in
  let i := N.ldiff i (N.shiftl 49152 48) in
  let i := N.lor i (N.shiftl 32768 48) in
  let i := N.ldiff i (N.shiftl 61440 64) in
  N.lor i (N.shiftl 4 76).

Definition hex_digit (n : N) : ascii :=
  match n with
  | 0%N => "0" | 1%N => "1" | 2%N => "2" | 3%N => "3"
  | 4%N => "4" | 5%N => "5" | 6%N => "6" | 7%N => "7"
  | 8%N => "8" | 9%N => "9" | 10%N => "a" | 11%N => "b"
  | 12%N => "c" | 13%N => "d" | 14%N => "e" | _ => "f"
  end%char.

(** ['%0kx' % n] for [n < 16 ^ k]. *)
Fixpoint hex (k : nat) (n : N) : string :=
  match k with
  | O => EmptyString
  | S k' => hex k' (n / 16)%N ++ String (hex_digit (n mod 16)%N) EmptyString
  end%string.

(** [str(UUID)]: the 32 hexadecimal digits in groups of 8, 4, 4, 4, 12. *)
Definition uuid_str (i : N) : string :=
  let h := hex 32 i in
  (substring 0 8 h ++ "-" ++ substring 8 4 h ++ "-" ++ substring 12 4 h
   ++ "-" ++ substring 16 4 h ++ "-" ++ substring 20 12 h)%string.

Definition uuid4_str : M string :=
  fun st =>
    (Ok (uuid_str (uuid4_int (urandom st (uuid_draws st)))),
     mkState (feeds st) (storage_file st) (saves st) (wall_clock st)
             (clock_reads st) (urandom st) (S (uuid_draws st)) (disk st)).

(** [s or str(uuid.uuid4())] for [s : Optional[str]]: [None] and the
    empty string are falsy. *)
Definition or_uuid4 (s : option string) : M string :=
  match s with
  | Some (String c s') => ret (String c s')
  | _ => uuid4_str
  end.

(** ** Reading a document *)

(** [data[key]]: only a [dict] takes a [str] subscript. *)
Definition subscript (data : pyval) (key : string) : res pyval :=
  match data with
  | PDict d =>
      match dict_get key d with
      | Some v => Ok v
      | None => Raise KeyError
      end
  | _ => Raise TypeError
  end.

(** [data.get(key, default)]: the other values have no [get]. *)
Definition py_get (data : pyval) (key : string) (default : pyval) : res pyval :=
  match data with
  | PDict d =>
      match dict_get key d with
      | Some v => Ok v
      | None => Ok default
      end
  | _ => Raise AttributeError
  end.

(** [key in data]: a key of a [dict], an element of a [list], a
    substring of a [str]; [None] is not a container. *)
Definition py_in (key : string) (data : pyval) : res bool :=
  match data with
  | PDict d => Ok (dict_mem key d)
  | PList l =>
      Ok (existsb (fun v => match v with
                            | PStr s => String.eqb s key
                            | _ => false
                            end) l)
  | PStr s => Ok (str_contains key s)
  | PNone => Raise TypeError
  end.

(** [for x in data]: the elements of a [list], the keys of a [dict], the
    characters of a [str] (here one item per byte of the text; the
    callers skip or refuse every such item alike, whatever it is). *)
Definition py_iter (data : pyval) : res (list pyval) :=
  match data with
  | PList l => Ok l
  | PDict d => Ok (map (fun kv => PStr (fst kv)) d)
  | PStr s => Ok (map (fun c => PStr (String c EmptyString)) (list_ascii_of_string s))
  | PNone => Raise TypeError
  end.

(** A value read at the annotation [str].  The source checks no type:
    it stores whatever the document holds and goes on.  The records
    below are typed by the annotations, so a value of another type has
    no place in them: [IllTyped] marks that the run has left what the
    records model, and the theorems about [from_dict] and the endpoints
    state as a hypothesis that the fields hold what is annotated. *)
Definition as_str (v : pyval) : res string :=
  match v with
  | PStr s => Ok s
  | _ => IllTyped
  end.

(** A value read at the annotation [Optional[str]], with the same
    proviso. *)
Definition as_opt_str (v : pyval) : res (option string) :=
  match v with
  | PNone => Ok None
  | PStr s => Ok (Some s)
  | _ => IllTyped
  end.

Definition of_opt_str (o : option string) : pyval :=
  match o with
  | None => PNone
  | Some s => PStr s
  end.

(* ================================================================== *)
(** * [class FeedEntry] *)
(* ================================================================== *)

Definition FeedEntry_init (title link description pub_date : string)
    (guid image_url : option string) : M FeedEntry :=
  g <- or_uuid4 guid ;;
  ret (mkFeedEntry title link description pub_date g image_url).

Definition FeedEntry_to_dict (self : FeedEntry) : pyval :=
  PDict [("title", PStr (title self));
         ("link", PStr (link self));
         ("description", PStr (description self));
         ("pubDate", PStr (pub_date self));
         ("guid", PStr (guid self));
         ("imageUrl", of_opt_str (image_url self))].

(** The six arguments are evaluated left to right, then [__init__]
    runs. *)
Definition FeedEntry_from_dict (data : pyval) : M FeedEntry :=
  t <- lift (subscript data "title") ;;
  l <- lift (subscript data "link") ;;
  d <- lift (subscript data "description") ;;
  p <- lift (subscript data "pubDate") ;;
  g <- lift (py_get data "guid" PNone) ;;
  i <- lift (py_get data "imageUrl" PNone) ;;
  t <- lift (as_str t) ;;
  l <- lift (as_str l) ;;
  d <- lift (as_str d) ;;
  p <- lift (as_str p) ;;
  g <- lift (as_opt_str g) ;;
  i <- lift (as_opt_str i) ;;
  FeedEntry_init t l d p g i.

(* ================================================================== *)
(** * [class RssFeed] *)
(* ================================================================== *)

(** No caller passes [entries], so [self.entries] starts as a new empty
    list. *)
Definition RssFeed_init (title link description language : string)
    (feed_id image_url : option string) : M RssFeed :=
  fid <- or_uuid4 feed_id ;;
  ret (mkRssFeed title link description language fid [] image_url).

Section WithConfig.
Context {cfg : Config}.

Definition add_entry (self : RssFeed) (entry : FeedEntry) : RssFeed :=
  let inserted := entry :: entries self in
  if Z.of_nat (List.length inserted) >? MAX_ENTRIES_PER_FEED
  then set_entries self (slice_to inserted MAX_ENTRIES_PER_FEED)
  else set_entries self inserted.

End WithConfig.

Definition RssFeed_to_dict (self : RssFeed) : pyval :=
  PDict [("feedId", PStr (feed_id self));
         ("title", PStr (feed_title self));
         ("link", PStr (feed_link self));
         ("description", PStr (feed_description self));
         ("language", PStr (language self));
         ("imageUrl", of_opt_str (feed_image_url self));
         ("entries", PList (map FeedEntry_to_dict (entries self)))].

Definition RssFeed_from_dict (data : pyval) : M RssFeed :=
  t <- lift (subscript data "title") ;;
  l <- lift (subscript data "link") ;;
  d <- lift (subscript data "description") ;;
  g <- lift (py_get data "language" (PStr "en-US")) ;;
  f <- lift (py_get data "feedId" PNone) ;;
  i <- lift (py_get data "imageUrl" PNone) ;;
  t <- lift (as_str t) ;;
  l <- lift (as_str l) ;;
  d <- lift (as_str d) ;;
  g <- lift (as_str g) ;;
  f <- lift (as_opt_str f) ;;
  i <- lift (as_opt_str i) ;;
  feed <- RssFeed_init t l d g f i ;;
  es <- lift (py_get data "entries" (PList [])) ;;
  es <- lift (py_iter es) ;;
  es <- mapM FeedEntry_from_dict es ;;
  ret (set_entries feed es).

(** ** [to_xml]: the element tree

    [to_xml] builds an [ElementTree] and hands it to [ET.tostring] and
    [minidom]; the tree is modelled, its serialisation to text is not. *)
Inductive element : Type :=
| Element (tag : string) (attrib : list (string * string))
          (text : option string) (children : list element).

Definition text_element (tag text : string) : element :=
  Element tag [] (Some text) [].

Definition item_element (entry : FeedEntry) : element :=
  Element "item" [] None
    ([text_element "title" (title entry);
      text_element "link" (link entry);
      text_element "description" (description entry);
      text_element "pubDate" (pub_date entry);
      Element "guid" [("isPermaLink", "false")] (Some (guid entry)) []]
     ++ match image_url entry with
        | Some (String c u) =>
            [Element "enclosure"
               [("url", String c u); ("type", "image/jpeg")] None []]
        | _ => []
        end).

Definition to_xml (self : RssFeed) : element :=
  Element "rss" [("version", "2.0")] None
    [Element "channel" [] None
       ([text_element "title" (feed_title self);
         text_element "link" (feed_link self);
         text_element "description" (feed_description self);
         text_element "language" (language self)]
        ++ match feed_image_url self with
           | Some (String c u) =>
               [Element "image" [] None
                  [text_element "url" (String c u);
                   text_element "title" (feed_title self);
                   text_element "link" (feed_link self)]]
           | _ => []
           end
        ++ map item_element (entries self))].

(* ================================================================== *)
(** * [class FeedStorage] *)
(* ================================================================== *)

Section WithEnvironment.
Context {cfg : Config} {lib : PyLib}.

(** [data.items()]. *)
Definition py_items (data : pyval) : res (list (string * pyval)) :=
  match data with
  | PDict d => Ok d
  | _ => Raise AttributeError
  end.

(** [{feed_id: RssFeed.from_dict(feed_data) for feed_id, feed_data in
    items}], the dictionary growing from [acc]. *)
Fixpoint load_items (items : list (string * pyval)) (acc : dict RssFeed)
  : M (dict RssFeed) :=
  match items with
  | [] => ret acc
  | (fid, feed_data) :: items' =>
      feed <- RssFeed_from_dict feed_data ;;
      load_items items' (dict_set fid feed acc)
  end.

(** [json.load] raises [json.JSONDecodeError], a [ValueError], on a
    file that is not JSON. *)
Definition load : M unit :=
  try_except
    (st <- get_state ;;
     match storage_file st with
     | NoFile => modify (set_feeds [])
     | NotJson => raise ValueError
     | Json data =>
         items <- lift (py_items data) ;;
         fs <- load_items items [] ;;
         modify (set_feeds fs)
     end)
    (fun _ => modify (set_feeds [])).

(** The document [save] writes. *)
Definition feeds_to_dict (fs : dict RssFeed) : pyval :=
  PDict (map (fun kv => (fst kv, RssFeed_to_dict (snd kv))) fs).

(** What the write of [doc] meets in [st]: the operating system may
    refuse to open the file or stop the writing; when it does neither,
    the writing still stops at the first string the file refuses. *)
Definition write_outcome_of (st : State) (doc : pyval) : write_outcome :=
  match disk st (saves st) with
  | Written => if encodable doc then Written else Truncated
  | Unopened => Unopened
  | Truncated => Truncated
  end.

(** What the file holds after the write of [doc] in [st].  A proper
    prefix of the text of a JSON object is not JSON. *)
Definition file_after_write (st : State) (doc : pyval) : File :=
  match write_outcome_of st doc with
  | Written => Json doc
  | Unopened => storage_file st
  | Truncated => NotJson
  end.

(** [save]: the file is opened for writing and the document of all
    feeds is dumped into it, inside [try: ... except Exception as e:
    print(...)]; so [save] returns whatever happens, and a write that
    fails leaves the memory ahead of the file. *)
Definition save : M unit :=
  modify (fun st =>
    mkState (feeds st) (file_after_write st (feeds_to_dict (feeds st)))
            (S (saves st)) (wall_clock st) (clock_reads st) (urandom st)
            (uuid_draws st) (disk st)).

Definition add_feed (feed : RssFeed) : M string :=
  modify (fun st => set_feeds (dict_set (feed_id feed) feed (feeds st)) st) ;;;
  save ;;;
  ret (feed_id feed).

Definition get_feed (fid : string) : M (option RssFeed) :=
  st <- get_state ;;
  ret (dict_get fid (feeds st)).

Definition get_all_feeds : M (list RssFeed) :=
  st <- get_state ;;
  ret (dict_values (feeds st)).

Definition delete_feed (fid : string) : M bool :=
  st <- get_state ;;
  if dict_mem fid (feeds st)
  then modify (fun st => set_feeds (dict_del fid (feeds st)) st) ;;;
       save ;;;
       ret true
  else ret false.

(** [feed.add_entry(entry)] changes the feed object the dictionary
    holds under [fid]. *)
Definition add_entry_to_feed (fid : string) (entry : FeedEntry) : M bool :=
  feed <- get_feed fid ;;
  match feed with
  | Some feed =>
      modify (fun st =>
        set_feeds (dict_set fid (add_entry feed entry) (feeds st)) st) ;;;
      save ;;;
      ret true
  | None => ret false
  end.

(** ** [_parse_date] *)

Definition formats : list string :=
  ["%a, %d %b %Y %H:%M:%S %Z";
   "%a, %d %b %Y %H:%M:%S GMT";
   "%a, %d %b %Y %H:%M:%S +0000";
   "%Y-%m-%dT%H:%M:%S%z";
   "%Y-%m-%dT%H:%M:%SZ"].

(** The [for fmt in formats] loop: [return] at the first format
    [strptime] accepts, [continue] on [ValueError]. *)
Fixpoint try_formats (date_str : string) (fmts : list string)
  : option datetime :=
  match fmts with
  | [] => None
  | fmt :: fmts' =>
      match strptime date_str fmt with
      | Some d => Some d
      | None => try_formats date_str fmts'
      end
  end.

Definition _parse_date (date_str : string) : M datetime :=
  try_except
    (match try_formats date_str formats with
     | Some d => ret d
     | None => datetime_now
     end)
    (fun _ => datetime_now).

(** ** [_cleanup_old_entries] *)

(** The [for feed in self.feeds.values()] loop, over the items still to
    visit; [feeds_modified] is the flag so far. *)
Fixpoint cleanup_feeds (cutoff_date : datetime) (todo : dict RssFeed)
    (feeds_modified : bool) : M bool :=
  match todo with
  | [] => ret feeds_modified
  | (fid, feed) :: todo' =>
      let old_count := List.length (entries feed) in
      kept <- filterM (fun entry =>
                d <- _parse_date (pub_date entry) ;;
                lift (dt_gt d cutoff_date))
              (entries feed) ;;
      modify (fun st =>
        set_feeds (dict_set fid (set_entries feed kept) (feeds st)) st) ;;;
      cleanup_feeds cutoff_date todo'
        (if (List.length kept <? old_count)%nat then true else feeds_modified)
  end.

(** One turn of the [while True] loop, the two [time.sleep] calls left
    out.  ([cutoff_str] is computed by the source and never used.) *)
Definition cleanup_iteration : M unit :=
  try_except
    (now <- datetime_now ;;
     cutoff_date <- lift (dt_sub_days now HISTORY_DAYS) ;;
     st <- get_state ;;
     feeds_modified <- cleanup_feeds cutoff_date (feeds st) false ;;
     if feeds_modified then save else ret tt)
    (fun _ => ret tt).

(** The thread, run for [n] turns. *)
Fixpoint _cleanup_old_entries (n : nat) : M unit :=
  match n with
  | O => ret tt
  | S n' => cleanup_iteration ;;; _cleanup_old_entries n'
  end.

(** ** [filter_feeds] *)

(** The criteria of the loop body, applied to one feed's entries. *)
Definition filter_entries (query_params : dict string)
    (feed_entries : list FeedEntry) : M (list FeedEntry) :=
  let filtered_entries := feed_entries in
  (* title *)
  let filtered_entries :=
    match dict_get "title" query_params with
    | Some q =>
        let title_query := str_lower q in
        filter (fun e => str_contains title_query (str_lower (title e)))
               filtered_entries
    | None => filtered_entries
    end in
  (* description *)
  let filtered_entries :=
    match dict_get "description" query_params with
    | Some q =>
        let desc_query := str_lower q in
        filter (fun e => str_contains desc_query (str_lower (description e)))
               filtered_entries
    | None => filtered_entries
    end in
  (* date (from) *)
  filtered_entries <-
    match dict_get "from_date" query_params with
    | Some q =>
        try_except_ValueError
          (match fromisoformat q with
           | Some from_date =>
               filterM (fun e =>
                          d <- _parse_date (pub_date e) ;;
                          lift (dt_ge d from_date))
                       filtered_entries
           | None => raise ValueError
           end)
          (ret filtered_entries)
    | None => ret filtered_entries
    end ;;
  (* date (to) *)
  filtered_entries <-
    match dict_get "to_date" query_params with
    | Some q =>
        try_except_ValueError
          (match fromisoformat q with
           | Some to_date =>
               filterM (fun e =>
                          d <- _parse_date (pub_date e) ;;
                          lift (dt_le d to_date))
                       filtered_entries
           | None => raise ValueError
           end)
          (ret filtered_entries)
    | None => ret filtered_entries
    end ;;
  (* limit feeds *)
  match dict_get "limit" query_params with
  | Some q =>
      match int_of_str q with
      | Some limit => ret (slice_to filtered_entries limit)
      | None => ret filtered_entries
      end
  | None => ret filtered_entries
  end.

(** [query_params.get('include_empty', 'false').lower() == 'true']. *)
Definition include_empty (query_params : dict string) : bool :=
  String.eqb
    (str_lower (match dict_get "include_empty" query_params with
                | Some v => v
                | None => "false"
                end))
    "true".

(** The [for feed in self.feeds.values()] loop over the feeds still to
    visit, with the list built so far. *)
Fixpoint filter_feeds_loop (query_params : dict string) (todo : list RssFeed)
    (filtered_feeds : list RssFeed) : M (list RssFeed) :=
  match todo with
  | [] => ret filtered_feeds
  | feed :: todo' =>
      feed_copy <- RssFeed_init (feed_title feed) (feed_link feed)
                     (feed_description feed) (language feed)
                     (Some (feed_id feed)) (feed_image_url feed) ;;
      filtered_entries <- filter_entries query_params (entries feed) ;;
      let feed_copy := set_entries feed_copy filtered_entries in
      filter_feeds_loop query_params todo'
        (match filtered_entries with
         | _ :: _ => filtered_feeds ++ [feed_copy]
         | [] => if include_empty query_params
                 then filtered_feeds ++ [feed_copy]
                 else filtered_feeds
         end)
  end.

Definition filter_feeds (query_params : dict string) : M (list RssFeed) :=
  st <- get_state ;;
  filter_feeds_loop query_params (dict_values (feeds st)) [].

(* ================================================================== *)
(** * The endpoints *)
(* ================================================================== *)

(** ** [list.sort(key=..., reverse=True)]

    The keys come paired with their elements.  The sort is stable, so
    with [reverse=True] the elements come out by descending key, equal
    keys in the order they had in the list; comparing a naive key with
    an aware one raises [TypeError]. *)
Fixpoint insert_desc {A : Type} (x : datetime * A) (sorted : list (datetime * A))
  : res (list (datetime * A)) :=
  match sorted with
  | [] => Ok [x]
  | y :: sorted' =>
      match dt_cmp (fst y) (fst x) with
      | Ok Gt =>
          match insert_desc x sorted' with
          | Ok r => Ok (y :: r)
          | e => e
          end
      | Ok _ => Ok (x :: y :: sorted')
      | Raise e => Raise e
      | IllTyped => IllTyped
      end
  end.

Fixpoint sort_desc {A : Type} (l : list (datetime * A))
  : res (list (datetime * A)) :=
  match l with
  | [] => Ok []
  | x :: l' =>
      match sort_desc l' with
      | Ok s => insert_desc x s
      | e => e
      end
  end.

(** [l.sort(key=lambda e: storage._parse_date(e.pub_date), reverse=True)]:
    the key of every element is computed first, in list order. *)
Definition sort_entries_by_date (l : list FeedEntry) : M (list FeedEntry) :=
  keyed <- mapM (fun e => d <- _parse_date (pub_date e) ;; ret (d, e)) l ;;
  sorted <- lift (sort_desc keyed) ;;
  ret (map snd sorted).

(** [f"[{feed.title}] {entry.title}"]. *)
Definition bracket_title (feed : RssFeed) (entry : FeedEntry) : string :=
  ("[" ++ feed_title feed ++ "] " ++ title entry)%string.

(** The inner loop both aggregate endpoints share: every entry of
    [feed] is copied under the bracketed title and added to
    [combined_feed]. *)
Fixpoint combine_entries (feed : RssFeed) (todo : list FeedEntry)
    (combined_feed : RssFeed) : M RssFeed :=
  match todo with
  | [] => ret combined_feed
  | entry :: todo' =>
      entry_copy <- FeedEntry_init (bracket_title feed entry) (link entry)
                      (description entry) (pub_date entry)
                      (Some (guid entry)) (image_url entry) ;;
      combine_entries feed todo' (add_entry combined_feed entry_copy)
  end.

(** The outer loop, [for feed in ...]. *)
Fixpoint combine_feeds (todo : list RssFeed) (combined_feed : RssFeed)
  : M RssFeed :=
  match todo with
  | [] => ret combined_feed
  | feed :: todo' =>
      combined_feed <- combine_entries feed (entries feed) combined_feed ;;
      combine_feeds todo' combined_feed
  end.

(** [GET /feeds/xml], up to the end of its loops: the aggregate feed
    before it is sorted. *)
Definition merge_all_feeds (host_url : string) : M RssFeed :=
  combined_feed <- RssFeed_init GENERAL_FEED_TITLE host_url
                     "Combination of all available feeds" "en-US" None None ;;
  all <- get_all_feeds ;;
  combine_feeds all combined_feed.

(** [GET /feeds/xml], up to the sorted aggregate feed. *)
Definition all_feeds_combined (host_url : string) : M RssFeed :=
  combined_feed <- merge_all_feeds host_url ;;
  sorted <- sort_entries_by_date (entries combined_feed) ;;
  ret (set_entries combined_feed sorted).

Definition get_all_feeds_xml (host_url : string) : M element :=
  combined_feed <- all_feeds_combined host_url ;;
  ret (to_xml combined_feed).

(** [GET /feeds/search] with [format=xml], up to the aggregate feed. *)
Definition search_combined (query_params : dict string) (url : string)
    (filtered_feeds : list RssFeed) : M RssFeed :=
  combined_feed <- RssFeed_init "Search Results" url
                     ("Feeds filtered by parameters: "
                      ++ str_of_dict query_params)%string
                     "en-US" None None ;;
  combine_feeds filtered_feeds combined_feed.

(** What [search_feeds] answers: a document, or the JSON object with
    its [count], [query] and [feeds]. *)
Inductive search_response : Type :=
| SearchXml (doc : element)
| SearchJson (count : nat) (query : dict string) (feed_dicts : list pyval).

Definition search_feeds (query_params : dict string) (url : string)
  : M search_response :=
  filtered_feeds <- filter_feeds query_params ;;
  let output_format :=
    str_lower (match dict_get "format" query_params with
               | Some v => v
               | None => "json"
               end) in
  if String.eqb output_format "xml"
  then combined_feed <- search_combined query_params url filtered_feeds ;;
       ret (SearchXml (to_xml combined_feed))
  else ret (SearchJson (List.length filtered_feeds) query_params
                       (map RssFeed_to_dict filtered_feeds)).

(** ** [POST /feeds] and [POST /feeds/<feed_id>/entries] *)

Inductive response : Type :=
| Created (new_feed_id : string)
| EntryAdded (entryId : string)
| MissingField (field : string)
| NotFound
| ServerError (e : exn).

(** The validation loop: the first of [fields] that is not [in data]. *)
Fixpoint first_missing (fields : list string) (data : pyval)
  : res (option string) :=
  match fields with
  | [] => Ok None
  | field :: fields' =>
      match py_in field data with
      | Ok true => first_missing fields' data
      | Ok false => Ok (Some field)
      | Raise e => Raise e
      | IllTyped => IllTyped
      end
  end.

(** [FeedEntry(title=data['title'], ..., guid=data.get('guid'),
    image_url=data.get('imageUrl'))]. *)
Definition entry_of_request (data : pyval) : M FeedEntry :=
  FeedEntry_from_dict data.

(** The loop over [data.get('entries', [])]: an item lacking one of the
    four keys is skipped. *)
Fixpoint add_initial_entries (todo : list pyval) (feed : RssFeed) : M RssFeed :=
  match todo with
  | [] => ret feed
  | entry_data :: todo' =>
      missing <- lift (first_missing ["title"; "link"; "description"; "pubDate"]
                                     entry_data) ;;
      match missing with
      | None =>
          entry <- entry_of_request entry_data ;;
          add_initial_entries todo' (add_entry feed entry)
      | Some _ => add_initial_entries todo' feed
      end
  end.

Definition create_feed (data : pyval) : M response :=
  try_except
    (missing <- lift (first_missing ["title"; "link"; "description"] data) ;;
     match missing with
     | Some field => ret (MissingField field)
     | None =>
         t <- lift (subscript data "title") ;;
         l <- lift (subscript data "link") ;;
         d <- lift (subscript data "description") ;;
         g <- lift (py_get data "language" (PStr "en-US")) ;;
         i <- lift (py_get data "imageUrl" PNone) ;;
         t <- lift (as_str t) ;;
         l <- lift (as_str l) ;;
         d <- lift (as_str d) ;;
         g <- lift (as_str g) ;;
         i <- lift (as_opt_str i) ;;
         feed <- RssFeed_init t l d g None i ;;
         es <- lift (py_get data "entries" (PList [])) ;;
         es <- lift (py_iter es) ;;
         feed <- add_initial_entries es feed ;;
         fid <- add_feed feed ;;
         ret (Created fid)
     end)
    (fun e => ret (ServerError e)).

Definition add_feed_entry (fid : string) (data : pyval) : M response :=
  try_except
    (feed <- get_feed fid ;;
     match feed with
     | None => ret NotFound
     | Some _ =>
         missing <- lift (first_missing
                            ["title"; "link"; "description"; "pubDate"] data) ;;
         match missing with
         | Some field => ret (MissingField field)
         | None =>
             entry <- entry_of_request data ;;
             add_entry_to_feed fid entry ;;;
             ret (EntryAdded (guid entry))
         end
     end)
    (fun e => ret (ServerError e)).

End WithEnvironment.

(* ================================================================== *)
(** * A model of the library functions *)
(* ================================================================== *)

(** An executable instance of [PyLib], after CPython 3.11 in the C locale
    with [time.tzname = ('UTC', 'UTC')], on ASCII text.  The examples
    run on it; the general theorems hold for any instance. *)
Module CPython.

(** ** The regular expressions of [_strptime.TimeRE] *)

Inductive re : Type :=
| Eps
| Chr (p : ascii -> bool)
| Cat (a b : re)
| Alt (a b : re)
| Plus (p : ascii -> bool)
| Grp (name : ascii) (a : re).

(** [p+], greedy, giving characters back one at a time. *)
Fixpoint plus_match {R : Type} (p : ascii -> bool) (s : string)
    (k : string -> option R) : option R :=
  match s with
  | String c s' =>
      if p c
      then match plus_match p s' k with
           | Some r => Some r
           | None => k s'
           end
      else None
  | EmptyString => None
  end.

(** Backtracking match of [r] at the start of [s]: alternatives are
    tried left to right, and [k] receives the text left over and the
    groups bound so far. *)
Fixpoint re_match {R : Type} (r : re) (s : string)
    (groups : list (ascii * string))
    (k : string -> list (ascii * string) -> option R) : option R :=
  match r with
  | Eps => k s groups
  | Chr p =>
      match s with
      | String c s' => if p c then k s' groups else None
      | EmptyString => None
      end
  | Cat a b => re_match a s groups (fun s' g' => re_match b s' g' k)
  | Alt a b =>
      match re_match a s groups k with
      | Some x => Some x
      | None => re_match b s groups k
      end
  | Plus p => plus_match p s (fun s' => k s' groups)
  | Grp name a =>
      re_match a s groups
        (fun s' g' =>
           k s' ((name, substring 0 (String.length s - String.length s') s)
                 :: g'))
  end.

Definition lower_ascii (c : ascii) : ascii :=
  let n := nat_of_ascii c in
  if ((65 <=? n) && (n <=? 90))%nat then ascii_of_nat (n + 32) else c.

Definition lower (s : string) : string :=
  string_of_list_ascii (map lower_ascii (list_ascii_of_string s)).

Definition is_digit (c : ascii) : bool :=
  let n := nat_of_ascii c in ((48 <=? n) && (n <=? 57))%nat.

Definition between (lo hi : ascii) (c : ascii) : bool :=
  let n := nat_of_ascii c in
  ((nat_of_ascii lo <=? n) && (n <=? nat_of_ascii hi))%nat.

Definition is_space (c : ascii) : bool :=
  let n := nat_of_ascii c in
  (((9 <=? n) && (n <=? 13)) || ((28 <=? n) && (n <=? 32)))%nat.

(** One character, case ignored ([re.IGNORECASE]). *)
Definition chr_i (c : ascii) : re :=
  Chr (fun x => Ascii.eqb (lower_ascii x) (lower_ascii c)).

(** One character, case kept ([(?-i:...)]). *)
Definition chr_s (c : ascii) : re := Chr (Ascii.eqb c).

Fixpoint lit_i (s : string) : re :=
  match s with
  | EmptyString => Eps
  | String c s' => Cat (chr_i c) (lit_i s')
  end.

Fixpoint alts (l : list re) : re :=
  match l with
  | [] => Chr (fun _ => false)
  | [r] => r
  | r :: l' => Alt r (alts l')
  end.

Definition opt (r : re) : re := Alt r Eps.
Definition digit : re := Chr is_digit.
Definition rng (lo hi : ascii) : re := Chr (between lo hi).

Definition a_weekday : list string :=
  ["mon"; "tue"; "wed"; "thu"; "fri"; "sat"; "sun"].
Definition a_month : list string :=
  ["jan"; "feb"; "mar"; "apr"; "may"; "jun";
   "jul"; "aug"; "sep"; "oct"; "nov"; "dec"].
Definition timezone_names : list string := ["utc"; "gmt"].

(** The pattern of a directive. *)
Definition directive (c : ascii) : option re :=
  let two a b := Cat a b in
  (if Ascii.eqb c "d" then
     Some (Grp "d" (alts [two (chr_s "3") (rng "0" "1");
                          two (rng "1" "2") digit;
                          two (chr_s "0") (rng "1" "9");
                          rng "1" "9";
                          two (chr_s " ") (rng "1" "9")]))
   else if Ascii.eqb c "H" then
     Some (Grp "H" (alts [two (chr_s "2") (rng "0" "3");
                          two (rng "0" "1") digit;
                          digit]))
   else if Ascii.eqb c "M" then
     Some (Grp "M" (alts [two (rng "0" "5") digit; digit]))
   else if Ascii.eqb c "S" then
     Some (Grp "S" (alts [two (chr_s "6") (rng "0" "1");
                          two (rng "0" "5") digit;
                          digit]))
   else if Ascii.eqb c "Y" then
     Some (Grp "Y" (two digit (two digit (two digit digit))))
   else if Ascii.eqb c "m" then
     Some (Grp "m" (alts [two (chr_s "1") (rng "0" "2");
                          two (chr_s "0") (rng "1" "9");
                          rng "1" "9"]))
   else if Ascii.eqb c "a" then Some (Grp "a" (alts (map lit_i a_weekday)))
   else if Ascii.eqb c "b" then Some (Grp "b" (alts (map lit_i a_month)))
   else if Ascii.eqb c "Z" then Some (Grp "Z" (alts (map lit_i timezone_names)))
   else if Ascii.eqb c "z" then
     let frac :=
       two (chr_s ".")
           (two digit (opt (two digit (opt (two digit (opt (two digit
              (opt (two digit (opt digit)))))))))) in
     let secs :=
       two (opt (chr_s ":")) (two (rng "0" "5") (two digit (opt frac))) in
     Some (Grp "z"
             (Alt (two (Chr (fun x => Ascii.eqb x "+" || Ascii.eqb x "-"))
                       (two digit (two digit
                          (two (opt (chr_s ":"))
                               (two (rng "0" "5") (two digit (opt secs)))))))
                  (chr_s "Z")))
   else None)%char.

(** [TimeRE.pattern]: a run of white space in the format stands for
    [\s+], [%x] for the pattern of [x], any other character for itself.
    [in_space] tells that the previous character was white space. *)
Fixpoint pattern (format : string) (in_space : bool) : option re :=
  match format with
  | EmptyString => Some Eps
  | String c rest =>
      if is_space c then
        if in_space then pattern rest true
        else option_map (Cat (Plus is_space)) (pattern rest true)
      else if Ascii.eqb c "%" then
        match rest with
        | String x rest' =>
            match directive x, pattern rest' false with
            | Some r, Some r' => Some (Cat r r')
            | _, _ => None
            end
        | EmptyString => None
        end
      else option_map (Cat (chr_i c)) (pattern rest false)
  end.

(** ** From the groups to a [datetime] *)

Fixpoint decimal (s : string) (acc : Z) : Z :=
  match s with
  | EmptyString => acc
  | String c s' => decimal s' (10 * acc + Z.of_nat (nat_of_ascii c - 48))
  end.

Fixpoint group (name : ascii) (groups : list (ascii * string)) : option string :=
  match groups with
  | [] => None
  | (n, v) :: g' => if Ascii.eqb n name then Some v else group name g'
  end.

Fixpoint index_of (x : string) (l : list string) (i : Z) : option Z :=
  match l with
  | [] => None
  | y :: l' => if String.eqb x y then Some i else index_of x l' (i + 1)
  end.

Definition is_leap (year : Z) : bool :=
  (year mod 4 =? 0) && (negb (year mod 100 =? 0) || (year mod 400 =? 0)).

Definition days_before_year (year : Z) : Z :=
  let y := year - 1 in y * 365 + y / 4 - y / 100 + y / 400.

Definition days_in_month (year month : Z) : Z :=
  if month =? 2 then (if is_leap year then 29 else 28)
  else if (month =? 4) || (month =? 6) || (month =? 9) || (month =? 11)
       then 30 else 31.

Definition days_before_month (year month : Z) : Z :=
  nth (Z.to_nat month)
      [0; 0; 31; 59; 90; 120; 151; 181; 212; 243; 273; 304; 334] 0
  + (if (2 <? month) && is_leap year then 1 else 0).

(** [datetime(year, month, day, hour, minute, second)], [ValueError]
    when a field is out of range. *)
Definition make_datetime (year month day hour minute second : Z)
    (tz : option Z) : option datetime :=
  if (1 <=? year) && (year <=? 9999) && (1 <=? month) && (month <=? 12)
     && (1 <=? day) && (day <=? days_in_month year month)
     && (0 <=? hour) && (hour <=? 23) && (0 <=? minute) && (minute <=? 59)
     && (0 <=? second) && (second <=? 59)
  then
    let ordinal := days_before_year year + days_before_month year month + day in
    Some (mkDatetime
            ((ordinal - 1) * MICROS_PER_DAY
             + ((hour * 60 + minute) * 60 + second) * 1000000)
            tz)
  else None.

Definition drop (n : nat) (s : string) : string :=
  substring n (String.length s - n) s.

(** [int(s)] on text made of digits, colons and dots: [ValueError]
    unless it is all digits, and not empty. *)
Definition int_digits (s : string) : option Z :=
  match s with
  | EmptyString => None
  | _ => if forallb is_digit (list_ascii_of_string s)
         then Some (decimal s 0) else None
  end.

(** The offset a [%z] group stands for, in microseconds; [None] is a
    [ValueError]: an inconsistent use of colons, a slice that is not a
    number, or an offset of a day or more, which [timezone] refuses. *)
Definition gmtoff (z : string) : option Z :=
  if String.eqb z "Z" then Some 0
  else
    let z' :=
      if String.eqb (substring 3 1 z) ":"
      then
        let z1 := (substring 0 3 z ++ drop 4 z)%string in
        if (5 <? String.length z1)%nat
        then if String.eqb (substring 5 1 z1) ":"
             then Some (substring 0 5 z1 ++ drop 6 z1)%string
             else None
        else Some z1
      else Some z in
    match z' with
    | None => None
    | Some z =>
        let remainder := drop 8 z in
        match int_digits (substring 1 2 z), int_digits (substring 3 2 z),
              (if String.eqb (substring 5 2 z) "" then Some 0
               else int_digits (substring 5 2 z)),
              int_digits (remainder
                          ++ substring 0 (6 - String.length remainder) "000000")
        with
        | Some hours, Some minutes, Some seconds, Some fraction =>
            let off :=
              ((hours * 60 + minutes) * 60 + seconds) * 1000000 + fraction in
            let off := if String.prefix "-" z then - off else off in
            if (- MICROS_PER_DAY <? off) && (off <? MICROS_PER_DAY)
            then Some off else None
        | _, _, _, _ => None
        end
    end.

Definition of_groups (g : list (ascii * string)) : option datetime :=
  let num name default :=
    match group name g with
    | Some v => decimal (if String.prefix " " v then drop 1 v else v) 0
    | None => default
    end in
  let month :=
    match group "b" g with
    | Some v => match index_of (lower v) a_month 1 with
                | Some i => i
                | None => 0
                end
    | None => num "m"%char 1
    end in
  let tz :=
    match group "z" g with
    | Some z => option_map Some (gmtoff z)
    | None => Some None
    end in
  match tz with
  | Some tz =>
      make_datetime (num "Y" 1900) month (num "d" 1) (num "H" 0)
                    (num "M" 0) (num "S" 0) tz
  | None => None
  end%char.

(** [datetime.strptime(data_string, format)]: the pattern must match at
    the start, and the first match must reach the end of the text. *)
Definition strptime (data_string format : string) : option datetime :=
  match pattern format false with
  | None => None
  | Some r =>
      match re_match r data_string [] (fun rest g => Some (rest, g)) with
      | Some (EmptyString, g) => of_groups g
      | _ => None
      end
  end.

(** ** [datetime.fromisoformat], [int], [str.lower], [str(dict)] *)

(** [fromisoformat] on [YYYY-MM-DD], on [YYYY-MM-DD?HH:MM:SS] ([?] any
    one character) and on the latter followed by [+HH:MM] or [-HH:MM].
    On these forms it is CPython's; other text it refuses, which CPython
    does not always do. *)
Definition fromisoformat (date_string : string) : option datetime :=
  let n := String.length date_string in
  let at_ i c := String.eqb (substring i 1 date_string) c in
  let num i k := int_digits (substring i k date_string) in
  if negb ((n =? 10) || (n =? 19) || (n =? 25))%nat then None
  else if negb (at_ 4%nat "-" && at_ 7%nat "-") then None
  else
    match num 0%nat 4%nat, num 5%nat 2%nat, num 8%nat 2%nat with
    | Some year, Some month, Some day =>
        if (n =? 10)%nat then make_datetime year month day 0 0 0 None
        else if negb (at_ 13%nat ":" && at_ 16%nat ":") then None
        else
          match num 11%nat 2%nat, num 14%nat 2%nat, num 17%nat 2%nat with
          | Some hour, Some minute, Some second =>
              if (n =? 19)%nat
              then make_datetime year month day hour minute second None
              else if negb ((at_ 19%nat "+" || at_ 19%nat "-") && at_ 22%nat ":")
                   then None
              else
                match num 20%nat 2%nat, num 23%nat 2%nat with
                | Some oh, Some om =>
                    if (oh <=? 23) && (om <=? 59)
                    then
                      let off := (oh * 60 + om) * 60 * 1000000 in
                      make_datetime year month day hour minute second
                        (Some (if at_ 19%nat "-" then - off else off))
                    else None
                | _, _ => None
                end
          | _, _, _ => None
          end
    | _, _, _ => None
    end.

Fixpoint strip_left (s : string) : string :=
  match s with
  | String c s' => if is_space c then strip_left s' else s
  | EmptyString => s
  end.

Definition rev_string (s : string) : string :=
  string_of_list_ascii (rev (list_ascii_of_string s)).

Definition strip (s : string) : string :=
  rev_string (strip_left (rev_string (strip_left s))).

(** Decimal digits, single underscores allowed between them. *)
Fixpoint digits_us (s : string) (after_digit : bool) (acc : Z) : option Z :=
  match s with
  | EmptyString => if after_digit then Some acc else None
  | String c s' =>
      if is_digit c
      then digits_us s' true (10 * acc + Z.of_nat (nat_of_ascii c - 48))
      else if Ascii.eqb c "_" && after_digit
           then match s' with
                | String c' _ => if is_digit c' then digits_us s' false acc
                                 else None
                | EmptyString => None
                end
           else None
  end.

(** [int(s)] in base ten: white space around, a sign, digits. *)
Definition int_of_str (s : string) : option Z :=
  match strip s with
  | String "+" s' => digits_us s' false 0
  | String "-" s' => option_map Z.opp (digits_us s' false 0)
  | s' => digits_us s' false 0
  end.

(** [str(d)] for a [dict] of strings free of quotes, backslashes and
    control characters (others [repr] would escape). *)
Definition str_of_dict (d : list (string * string)) : string :=
  let item kv := ("'" ++ fst kv ++ "': '" ++ snd kv ++ "'")%string in
  ("{" ++ String.concat ", " (map item d) ++ "}")%string.

End CPython.

#[global] Instance cpython : PyLib := {
  strptime := CPython.strptime;
  fromisoformat := CPython.fromisoformat;
  int_of_str := CPython.int_of_str;
  str_lower := CPython.lower;
  str_of_dict := CPython.str_of_dict
}.

(* ================================================================== *)
(** * The properties, as predicates *)
(* ================================================================== *)

Section Properties.
Context {cfg : Config} {lib : PyLib}.

(** The feed after the entries of [appended] went through [add_entry]
    one after the other. *)
Definition append_all (feed : RssFeed) (appended : list FeedEntry) : RssFeed :=
  fold_left add_entry appended feed.

(** What the bound on a feed promises once [last] has been appended
    after [earlier]: at most [MAX_ENTRIES_PER_FEED] entries, [last] in
    front, and the most recent appends kept, newest first, ahead of what
    the feed held before. *)
Definition newest_kept (feed : RssFeed) (earlier : list FeedEntry)
    (last : FeedEntry) : Prop :=
  let feed' := append_all feed (earlier ++ [last]) in
  Z.of_nat (List.length (entries feed')) <= MAX_ENTRIES_PER_FEED
  /\ nth_error (entries feed') 0 = Some last
  /\ entries feed'
     = firstn (Z.to_nat MAX_ENTRIES_PER_FEED)
              (last :: rev earlier ++ entries feed).

(** ** What every object the constructors build satisfies *)

(** A [str] that is not empty is truthy. *)
Definition truthy (s : string) : bool :=
  match s with
  | EmptyString => false
  | String _ _ => true
  end.

(** [FeedEntry.__init__] leaves a truthy [guid]. *)
Definition entry_ok (e : FeedEntry) : bool := truthy (guid e).

(** [RssFeed.__init__] leaves a truthy [feed_id], and every entry of a
    feed was built by [FeedEntry.__init__]. *)
Definition feed_ok (f : RssFeed) : bool :=
  truthy (feed_id f) && forallb entry_ok (entries f).

Fixpoint keys_distinct (keys : list string) : bool :=
  match keys with
  | [] => true
  | k :: keys' => negb (existsb (String.eqb k) keys') && keys_distinct keys'
  end.

(** A [dict] has one binding per key, and the store holds feeds the
    constructors built. *)
Definition store_ok (fs : dict RssFeed) : bool :=
  keys_distinct (dict_keys fs) && forallb (fun kv => feed_ok (snd kv)) fs.

(** ** Documents within the annotations *)

Definition is_str (v : pyval) : bool :=
  match v with PStr _ => true | _ => false end.

Definition is_opt_str (v : pyval) : bool :=
  match v with PStr _ | PNone => true | _ => false end.

(** The value under [key], when there is one, passes [check]. *)
Definition field_has (check : pyval -> bool) (key : string)
    (d : list (string * pyval)) : bool :=
  match dict_get key d with
  | Some v => check v
  | None => true
  end.

(** An entry record whose fields, where present, hold what
    [FeedEntry.__init__] annotates. *)
Definition typed_entry_doc (v : pyval) : bool :=
  match v with
  | PDict d =>
      field_has is_str "title" d && field_has is_str "link" d
      && field_has is_str "description" d && field_has is_str "pubDate" d
      && field_has is_opt_str "guid" d && field_has is_opt_str "imageUrl" d
  | _ => true
  end.

(** Likewise for a feed record and [RssFeed.__init__]. *)
Definition typed_feed_doc (v : pyval) : bool :=
  match v with
  | PDict d =>
      field_has is_str "title" d && field_has is_str "link" d
      && field_has is_str "description" d && field_has is_str "language" d
      && field_has is_opt_str "feedId" d && field_has is_opt_str "imageUrl" d
      && field_has (fun es => match es with
                              | PList l => forallb typed_entry_doc l
                              | _ => true
                              end) "entries" d
  | _ => true
  end.

(** An entry record without one of its four required keys. *)
Definition entry_lacks_key (v : pyval) : bool :=
  match v with
  | PDict d =>
      negb (dict_mem "title" d && dict_mem "link" d
            && dict_mem "description" d && dict_mem "pubDate" d)
  | _ => false
  end.

(** A feed record without [title], [link] or [description], or with an
    entry that lacks a required key. *)
Definition feed_lacks_key (v : pyval) : bool :=
  match v with
  | PDict d =>
      negb (dict_mem "title" d && dict_mem "link" d
            && dict_mem "description" d)
      || match dict_get "entries" d with
         | Some (PList l) => existsb entry_lacks_key l
         | _ => false
         end
  | _ => false
  end.

(** ** The query filter, feed by feed *)

(** [filter(feed, criteria)]: a new feed with the metadata of [feed] and
    the entries the criteria leave. *)
Definition filter_feed (query_params : dict string) (feed : RssFeed)
  : M RssFeed :=
  feed_copy <- RssFeed_init (feed_title feed) (feed_link feed)
                 (feed_description feed) (language feed)
                 (Some (feed_id feed)) (feed_image_url feed) ;;
  filtered_entries <- filter_entries query_params (entries feed) ;;
  ret (set_entries feed_copy filtered_entries).

(** A filtered feed is part of the result when an entry survived or
    [include_empty] is set. *)
Definition included (query_params : dict string) (filtered : RssFeed) : bool :=
  match entries filtered with
  | _ :: _ => true
  | [] => include_empty query_params
  end.

(** ** Aggregate feeds *)

(** The copy an aggregate endpoint makes of [entry] of [feed]. *)
Definition entry_copy (feed : RssFeed) (entry : FeedEntry) : FeedEntry :=
  mkFeedEntry (bracket_title feed entry) (link entry) (description entry)
              (pub_date entry) (guid entry) (image_url entry).

(** The copies of all entries of all feeds, in the order the loops meet
    them. *)
Definition all_copies (fs : list RssFeed) : list FeedEntry :=
  flat_map (fun feed => map (entry_copy feed) (entries feed)) fs.

(** The aggregate feed of [GET /feeds/xml] holds, before the sort, one
    copy of every entry of every stored feed. *)
Definition every_entry_copied (host_url : string) (st : State) : Prop :=
  exists combined st',
    merge_all_feeds host_url st = (Ok combined, st')
    /\ Permutation (entries combined) (all_copies (dict_values (feeds st))).

(** ** Guids *)



End Properties.

(** Sample values for the examples. *)
Definition sample_entry (t pub g : string) : FeedEntry :=
  mkFeedEntry t "http://example.org/item" "text" pub g None.

Definition sample_feed (fid t : string) (es : list FeedEntry) : RssFeed :=
  mkRssFeed t "http://example.org/" "a feed" "en-US" fid es None.

Definition config (history_days max_entries : Z) : Config :=
  {| HISTORY_DAYS := history_days;
     MAX_ENTRIES_PER_FEED := max_entries;
     GENERAL_FEED_TITLE := "All Feeds" |}.

(* ================================================================== *)
(** * Sample values and observations *)
(* ================================================================== *)

(** The reading [datetime.now()] is about to return. *)
Definition clock_now (st : State) : datetime :=
  mkDatetime (wall_clock st (clock_reads st)) None.

(** A state for the examples: the clock reads [now], then one
    microsecond more at each reading; the operating system lets every
    write through. *)
Definition sample_state (fs : dict RssFeed) (now : Z) : State :=
  mkState fs NoFile 0 (fun n => now + Z.of_nat n) 0 (fun n => N.of_nat n) 0
          (fun _ => Written).

(** 2024-03-01T12:00:00, in microseconds since 0001-01-01. *)
Definition noon_2024_03_01 : Z := 63844891200000000.

(** A store of two feeds for the examples. *)
Definition two_feeds : dict RssFeed :=
  [("a", sample_feed "a" "Feed A"
           [sample_entry "Jan" "Mon, 01 Jan 2024 00:00:00 GMT" "g1"]);
   ("b", sample_feed "b" "Feed B"
           [sample_entry "Jun" "Sat, 01 Jun 2024 00:00:00 GMT" "g2";
            sample_entry "May" "Wed, 01 May 2024 00:00:00 GMT" "g3"])].

(** An outcome that is an exception. *)
Definition raises {A : Type} (r : res A) : Prop := exists e, r = Raise e.

(** An outcome inside the model. *)
Definition modelled {A : Type} (r : res A) : Prop := r <> IllTyped.

(** A document of two records: the first complete, the second with an
    entry that has no [pubDate]. *)
Definition document_with_bad_record : list (string * pyval) :=
  [("a", RssFeed_to_dict (sample_feed "a" "Feed A"
            [sample_entry "Jan" "Mon, 01 Jan 2024 00:00:00 GMT" "g1"]));
   ("b", PDict [("title", PStr "Feed B"); ("link", PStr "http://b/");
                ("description", PStr "b");
                ("entries", PList [PDict [("title", PStr "x");
                                          ("link", PStr "http://b/x");
                                          ("description", PStr "x")]])])].

(** The requests of the examples. *)
Definition feed_request (t : string) : pyval :=
  PDict [("title", PStr t); ("link", PStr "http://example.org/");
         ("description", PStr "a feed")].

Definition entry_request (t pub : string) (g : option string) : pyval :=
  PDict ([("title", PStr t); ("link", PStr "http://example.org/item");
          ("description", PStr "text"); ("pubDate", PStr pub)]
         ++ match g with
            | Some g => [("guid", PStr g)]
            | None => []
            end).

(** The id [uuid4] gives the first feed created in [sample_state]. *)
Definition first_id : string := "00000000-0000-4000-8000-000000000000".

(** The state after [POST /feeds] and one [POST /feeds/<id>/entries]
    carrying the guid ["dup"], from an empty store. *)
Definition state_with_dup : State :=
  let cfg := config 30 100 in
  let st0 := sample_state [] noon_2024_03_01 in
  let st1 := snd (create_feed (feed_request "Feed A") st0) in
  snd (add_feed_entry first_id
         (entry_request "one" "Mon, 01 Jan 2024 00:00:00 GMT" (Some "dup")) st1).

(** The titles of the feeds of a result, each with the titles of its
    entries. *)
Definition titles (fs : list RssFeed) : list (string * list string) :=
  map (fun f => (feed_title f, map title (entries f))) fs.

Definition children (e : element) : list element :=
  match e with Element _ _ _ c => c end.

Definition tag (e : element) : string :=
  match e with Element t _ _ _ => t end.

Definition text (e : element) : string :=
  match e with
  | Element _ _ (Some t) _ => t
  | Element _ _ None _ => ""
  end.

(** The child elements of [e] with the given tag. *)
Definition findall (name : string) (e : element) : list element :=
  filter (fun c => String.eqb (tag c) name) (children e).

(** The titles of the items of a document, in document order. *)
Definition item_titles (doc : element) : list string :=
  flat_map (fun channel =>
              flat_map (fun item => map text (findall "title" item))
                       (findall "item" channel))
           (findall "channel" doc).

Definition search_item_titles (r : search_response) : list string :=
  match r with
  | SearchXml doc => item_titles doc
  | SearchJson _ _ _ => []
  end.

(** Feed A holds an entry dated 40 days before [noon_2024_03_01] and one
    dated 10 days before it, both in the RFC 822 form. *)
Definition rfc822_feeds : dict RssFeed :=
  [("a", sample_feed "a" "Feed A"
           [sample_entry "recent" "Tue, 20 Feb 2024 12:00:00 GMT" "g1";
            sample_entry "old" "Sun, 21 Jan 2024 12:00:00 GMT" "g2"])].

(** Feed A as above; Feed B holds one entry of 40 days ago, its date in
    the ISO 8601 form with an offset, which [_parse_date] accepts too. *)
Definition mixed_feeds : dict RssFeed :=
  rfc822_feeds
  ++ [("b", sample_feed "b" "Feed B"
              [sample_entry "old iso" "2024-01-21T12:00:00+0000" "g3"])].

(* ================================================================== *)
(** * Further predicates on states and lists *)
(* ================================================================== *)

(** The storage file holds the document of the feeds in memory. *)
Definition mirrored (st : State) : Prop :=
  storage_file st = Json (feeds_to_dict (feeds st)).

(** [st'] is [st] after one call of [save] (and any changes to the
    feeds before it): one more call is counted, and the file holds the
    document of the feeds in memory if the write went through, is
    what it was if the file could not be opened, and is no JSON if the
    writing stopped before its end. *)
Definition saved_once (st st' : State) : Prop :=
  saves st' = S (saves st)
  /\ match write_outcome_of st (feeds_to_dict (feeds st')) with
     | Written => mirrored st'
     | Unopened => storage_file st' = storage_file st
     | Truncated => storage_file st' = NotJson
     end.

(** The process starts again on the file of [st]: the memory is empty
    until [load] fills it. *)
Definition restarted (st : State) : State := set_feeds [] st.

(** U+D800, a lone surrogate, as [surrogatepass] writes it. *)
Definition lone_surrogate : string :=
  String (ascii_of_N 237) (String (ascii_of_N 160)
    (String (ascii_of_N 128) EmptyString)).

(** A store of one feed whose title is a lone surrogate, as
    [POST /feeds] with the JSON body [{"title": "\ud800", ...}] makes
    it. *)
Definition surrogate_feeds : dict RssFeed :=
  [("a", sample_feed "a" lone_surrogate
           [sample_entry "Jan" "Mon, 01 Jan 2024 00:00:00 GMT" "g1"])].

(** [st'] differs from [st] at most by its clock and its random
    source: same feeds, same file, same number of saves, and the same
    writes ahead. *)
Definition same_store (st st' : State) : Prop :=
  feeds st' = feeds st
  /\ storage_file st' = storage_file st
  /\ saves st' = saves st
  /\ disk st' = disk st.

(** [l] is [l'] with some elements left out, the order kept. *)
Inductive subseq {A : Type} : list A -> list A -> Prop :=
| subseq_nil : subseq [] []
| subseq_keep (x : A) (l l' : list A) : subseq l l' -> subseq (x :: l) (x :: l')
| subseq_drop (x : A) (l l' : list A) : subseq l l' -> subseq l (x :: l').

(** [feed'] is [feed] with some entries left out. *)
Definition shrunk (feed feed' : RssFeed) : Prop :=
  feed' = set_entries feed (entries feed')
  /\ subseq (entries feed') (entries feed).

(** The first of [fields] that is not a key of [d]. *)
Definition first_absent (fields : list string) (d : list (string * pyval))
  : option string :=
  find (fun field => negb (dict_mem field d)) fields.

(** The four keys an entry request must carry. *)
Definition entry_fields : list string :=
  ["title"; "link"; "description"; "pubDate"].

(** ** The criteria of [filter_entries], one by one *)

Section Stages.
Context {lib : PyLib}.

Definition title_stage (query_params : dict string) (l : list FeedEntry)
  : list FeedEntry :=
  match dict_get "title" query_params with
  | Some q =>
      filter (fun e => str_contains (str_lower q) (str_lower (title e))) l
  | None => l
  end.

Definition description_stage (query_params : dict string) (l : list FeedEntry)
  : list FeedEntry :=
  match dict_get "description" query_params with
  | Some q =>
      filter (fun e => str_contains (str_lower q) (str_lower (description e))) l
  | None => l
  end.

(** A date bound: [criterion] is the text of the bound when the query
    has one, [test] tells which outcomes of the comparison keep an
    entry. *)
Definition date_stage (criterion : option string) (test : comparison -> bool)
    (l : list FeedEntry) : M (list FeedEntry) :=
  match criterion with
  | Some q =>
      try_except_ValueError
        (match fromisoformat q with
         | Some bound =>
             filterM (fun e =>
                        d <- _parse_date (pub_date e) ;;
                        lift (res_map test (dt_cmp d bound)))
                     l
         | None => raise ValueError
         end)
        (ret l)
  | None => ret l
  end.

Definition limit_stage (query_params : dict string) (l : list FeedEntry)
  : list FeedEntry :=
  match dict_get "limit" query_params with
  | Some q =>
      match int_of_str q with
      | Some limit => slice_to l limit
      | None => l
      end
  | None => l
  end.

(** The test of the sweep on one entry. *)
Definition still_recent (cutoff_date : datetime) (entry : FeedEntry) : M bool :=
  d <- _parse_date (pub_date entry) ;; lift (dt_gt d cutoff_date).

(** The date an entry is compared by when its text parses. *)
Definition parsed_date (e : FeedEntry) : option datetime :=
  try_formats (pub_date e) formats.

End Stages.

(** A computation that, whatever its outcome, leaves the feeds, the
    file and the number of saves as they were. *)
Definition preserves {A : Type} (m : M A) : Prop :=
  forall st, same_store st (snd (m st)).

(** [cur] holds the ids of [orig] in the same order, each with the feed
    of [orig] less some entries. *)
Definition store_shrunk (orig cur : dict RssFeed) : Prop :=
  Forall2 (fun a b => fst a = fst b /\ shrunk (snd a) (snd b)) orig cur.

(** A computation whose outcome is a value or a Python exception. *)
Definition modelledM {A : Type} (m : M A) : Prop :=
  forall st, modelled (fst (m st)).

Section SweepOutcome.
Context {lib : PyLib}.

(** An entry whose date parses, to a naive datetime. *)
Definition naive_date (e : FeedEntry) : Prop :=
  exists d, parsed_date e = Some d /\ utcoffset d = None.

(** An entry whose date parses to a moment strictly after the cutoff. *)
Definition recent (cutoff_date : datetime) (e : FeedEntry) : bool :=
  match parsed_date e with
  | Some d => wall d >? wall cutoff_date
  | None => false
  end.

(** The feed without the entries that are not [recent]. *)
Definition swept (cutoff_date : datetime) (kv : string * RssFeed)
  : string * RssFeed :=
  (fst kv, set_entries (snd kv) (filter (recent cutoff_date) (entries (snd kv)))).

(** Some feed of the store holds an entry that is not [recent]. *)
Definition some_stale (cutoff_date : datetime) (fs : dict RssFeed) : bool :=
  existsb (fun kv => existsb (fun e => negb (recent cutoff_date e))
                             (entries (snd kv))) fs.

End SweepOutcome.

(** ** Sorting by date *)

Definition aware (d : datetime) : bool :=
  match utcoffset d with
  | Some _ => true
  | None => false
  end.

(** What two datetimes of one kind are compared by: the fields of a
    naive one, the UTC instant of an aware one. *)
Definition instant (d : datetime) : Z :=
  match utcoffset d with
  | Some o => wall d - o
  | None => wall d
  end.

(** Every key is aware ([kind = true]), or every key is naive. *)
Definition all_of_kind (kind : bool) (keys : list datetime) : bool :=
  forallb (fun d => Bool.eqb (aware d) kind) keys.

(** Naive and aware keys together. *)
Definition mixed (keys : list datetime) : bool :=
  negb (all_of_kind true keys || all_of_kind false keys).

(** Later keys first. *)
Definition later_first {A : Type} (a b : datetime * A) : Prop :=
  instant (fst b) <= instant (fst a).

(** The elements of [l] whose key stands for the instant [v]. *)
Definition with_instant {A : Type} (v : Z) (l : list (datetime * A))
  : list (datetime * A) :=
  filter (fun p => instant (fst p) =? v) l.

Section SortKeys.
Context {lib : PyLib}.

(** The key [list.sort] gives an entry whose date parses. *)
Definition key_of (e : FeedEntry) : datetime :=
  match parsed_date e with
  | Some d => d
  | None => mkDatetime 0 None
  end.

Definition keyed (e : FeedEntry) : datetime * FeedEntry := (key_of e, e).

(** Entries of later date first. *)
Definition newer_first (a b : FeedEntry) : Prop :=
  instant (key_of b) <= instant (key_of a).

(** The entries of [l] dated at the instant [v]. *)
Definition dated (v : Z) (l : list FeedEntry) : list FeedEntry :=
  filter (fun e => instant (key_of e) =? v) l.

End SortKeys.

(** ** Reading a document back *)

(** The [item] elements of a document, in document order. *)
Definition items_of (doc : element) : list element :=
  flat_map (findall "item") (findall "channel" doc).

(** The texts of the children of [e] with the given tag. *)
Definition texts (name : string) (e : element) : list string :=
  map text (findall name e).

Definition attrib (e : element) : list (string * string) :=
  match e with Element _ a _ _ => a end.

(** ** The invariant of the store *)

(** A storage file whose document, if it is a JSON object, holds feed
    records with strings (or null, for the optional ones) in the fields
    the constructors annotate as such. *)
Definition typed_file (f : File) : Prop :=
  match f with
  | Json (PDict items) =>
      forallb (fun kv => typed_feed_doc (snd kv)) items = true
  | _ => True
  end.

(** The store of [st] is one the program can hold, and its file is one
    the typed records account for. *)
Definition store_invariant (st : State) : Prop :=
  store_ok (feeds st) = true /\ typed_file (storage_file st).

(** [m] keeps the invariant of the store, whatever its outcome, and a
    value it returns satisfies [Q]. *)
Definition keeps {A : Type} (m : M A) (Q : A -> Prop) : Prop :=
  forall st,
    store_invariant st ->
    store_invariant (snd (m st))
    /\ forall a, fst (m st) = Ok a -> Q a.

(** The body of a [POST /feeds] whose fields, where present, hold what
    [RssFeed.__init__] and [FeedEntry.__init__] annotate: strings, or
    null for [imageUrl] and [guid]. *)
Definition typed_feed_request (v : pyval) : bool :=
  match v with
  | PDict d =>
      field_has is_str "title" d && field_has is_str "link" d
      && field_has is_str "description" d && field_has is_str "language" d
      && field_has is_opt_str "imageUrl" d
      && field_has (fun es => match es with
                              | PList l => forallb typed_entry_doc l
                              | _ => true
                              end) "entries" d
  | _ => true
  end.

Section Calls.
Context {cfg : Config} {lib : PyLib}.

(** The ways into the store: start-up, the endpoints, a turn of the
    sweep. *)
Inductive call : Type :=
| Load
| CreateFeed (data : pyval)
| AddFeedEntry (fid : string) (data : pyval)
| DeleteFeed (fid : string)
| Sweep
| Search (query_params : dict string) (url : string)
| AllFeedsXml (host_url : string).

(** The state a call leaves, whether it returns or raises. *)
Definition after (st : State) (c : call) : State :=
  match c with
  | Load => snd (load st)
  | CreateFeed data => snd (create_feed data st)
  | AddFeedEntry fid data => snd (add_feed_entry fid data st)
  | DeleteFeed fid => snd (delete_feed fid st)
  | Sweep => snd (cleanup_iteration st)
  | Search query_params url => snd (search_feeds query_params url st)
  | AllFeedsXml host_url => snd (get_all_feeds_xml host_url st)
  end.

(** A call whose request body is within the annotations. *)
Definition typed_call (c : call) : Prop :=
  match c with
  | CreateFeed data => typed_feed_request data = true
  | AddFeedEntry _ data => typed_entry_doc data = true
  | _ => True
  end.

(** The outcome of the call is a value or a Python exception: no value
    outside the annotations was met. *)
Definition in_model (st : State) (c : call) : Prop :=
  match c with
  | Load => modelled (fst (load st))
  | CreateFeed data => modelled (fst (create_feed data st))
  | AddFeedEntry fid data => modelled (fst (add_feed_entry fid data st))
  | DeleteFeed fid => modelled (fst (delete_feed fid st))
  | Sweep => modelled (fst (cleanup_iteration st))
  | Search query_params url => modelled (fst (search_feeds query_params url st))
  | AllFeedsXml host_url => modelled (fst (get_all_feeds_xml host_url st))
  end.

(** Every call of the sequence, made in the state the calls before it
    left, is within the model. *)
Fixpoint all_in_model (calls : list call) (st : State) : Prop :=
  match calls with
  | [] => True
  | c :: calls' => in_model st c /\ all_in_model calls' (after st c)
  end.

End Calls.

(** The id [uuid.uuid4()] is about to give in [st]. *)
Definition next_uuid (st : State) : string :=
  uuid_str (uuid4_int (urandom st (uuid_draws st))).

(** The guid of an entry made in [st] from a request whose [guid] field
    is [v]: the one of the request when that is a string that is not
    empty, the next [uuid4] otherwise. *)
Definition guid_or_next (v : option pyval) (st : State) : string :=
  match v with
  | Some (PStr (String c s)) => String c s
  | _ => next_uuid st
  end.

(** ** Generated guids *)







(** An optional field of a request, read as [Optional[str]]. *)
Definition opt_str_of (v : option pyval) : option string :=
  match v with
  | Some (PStr s) => Some s
  | _ => None
  end.

(** ** The entries of a [POST /feeds] request *)

(** The four required fields of an entry record that has them all as
    strings. *)
Definition fields_of_request (v : pyval)
  : option (string * string * string * string) :=
  match v with
  | PDict d =>
      match dict_get "title" d, dict_get "link" d,
            dict_get "description" d, dict_get "pubDate" d with
      | Some (PStr t), Some (PStr l), Some (PStr ds), Some (PStr p) =>
          Some (t, l, ds, p)
      | _, _, _, _ => None
      end
  | _ => None
  end.

(** The fields of the complete records of a request, in its order. *)
Definition requested (reqs : list pyval)
  : list (string * string * string * string) :=
  flat_map (fun v => match fields_of_request v with
                     | Some x => [x]
                     | None => []
                     end) reqs.

Definition fields_of_entry (e : FeedEntry)
  : string * string * string * string :=
  (title e, link e, description e, pub_date e).

(** A JSON object whose fields, where present, hold what
    [FeedEntry.__init__] annotates. *)
Definition typed_entry_object (v : pyval) : Prop :=
  (exists d, v = PDict d) /\ typed_entry_doc v = true.

(** The state once [uuid.uuid4()] has been called. *)
Definition drawn (st : State) : State :=
  mkState (feeds st) (storage_file st) (saves st) (wall_clock st)
          (clock_reads st) (urandom st) (S (uuid_draws st)) (disk st).

(** A [POST /feeds] body with three entry records, the second without
    [pubDate]. *)
Definition feed_request_with_entries : list (string * pyval) :=
  [("title", PStr "Feed A"); ("link", PStr "http://example.org/");
   ("description", PStr "a feed");
   ("entries",
    PList [entry_request "one" "Mon, 01 Jan 2024 00:00:00 GMT" None;
           PDict [("title", PStr "two"); ("link", PStr "http://example.org/2");
                  ("description", PStr "text")];
           entry_request "three" "Wed, 03 Jan 2024 00:00:00 GMT" (Some "g3")])].

(** ** Entries without a date *)

(** The clock never goes back. *)
Definition clock_monotone (st : State) : Prop :=
  forall n m, (n <= m)%nat -> wall_clock st n <= wall_clock st m.

(** [s] is [st] some clock readings later. *)
Definition later (st s : State) : Prop :=
  wall_clock s = wall_clock st /\ (clock_reads st <= clock_reads s)%nat.

(** [cur] holds the ids of [orig] in the same order, and every entry of
    a feed of [orig] that satisfies [P] is still in that feed. *)
Definition store_retains (P : FeedEntry -> Prop) (orig cur : dict RssFeed)
  : Prop :=
  Forall2 (fun a b => fst a = fst b
                      /\ forall e, In e (entries (snd a)) -> P e ->
                                   In e (entries (snd b)))
          orig cur.

Section Undated.
Context {lib : PyLib}.

(** An entry whose date no format parses. *)
Definition undated (e : FeedEntry) : Prop := parsed_date e = None.

End Undated.

(** A store of one feed: an entry of two months before
    [noon_2024_03_01], and one whose date is no date. *)
Definition undated_feeds : dict RssFeed :=
  [("a", sample_feed "a" "Feed A"
           [sample_entry "Jan" "Mon, 01 Jan 2024 00:00:00 GMT" "g1";
            sample_entry "Someday" "yesterday" "g2"])].

(* ================================================================== *)
(** * Lists and slices *)
(* ================================================================== *)

Lemma slice_to_nonneg {A : Type} (l : list A) (n : Z) :
  0 <= n -> slice_to l n = firstn (Z.to_nat n) l.
Proof.
  intros Hn. unfold slice_to.
  destruct (Z.ltb_spec n 0); [lia | reflexivity].
Qed.

Lemma firstn_app_firstn {A : Type} (n : nat) (a b : list A) :
  firstn n (a ++ firstn n b) = firstn n (a ++ b).
Proof.
  rewrite !firstn_app, firstn_firstn.
  f_equal. f_equal. lia.
Qed.

(* ================================================================== *)
(** * [RssFeed.add_entry] *)
(* ================================================================== *)

Section AddEntry.
Context {cfg : Config}.

(** With a bound that is not negative, [add_entry] is: put in front,
    keep the first [MAX_ENTRIES_PER_FEED]. *)
Lemma add_entry_entries (feed : RssFeed) (entry : FeedEntry) :
  0 <= MAX_ENTRIES_PER_FEED ->
  entries (add_entry feed entry)
  = firstn (Z.to_nat MAX_ENTRIES_PER_FEED) (entry :: entries feed).
Proof.
  intros Hmax. unfold add_entry.
  destruct (Z.gtb_spec (Z.of_nat (List.length (entry :: entries feed)))
                       MAX_ENTRIES_PER_FEED) as [Hgt | Hle]; cbn [entries set_entries].
  - now apply slice_to_nonneg.
  - symmetry. apply firstn_all2. lia.
Qed.

(** [add_entry] changes nothing but the entries. *)
Lemma add_entry_metadata (feed : RssFeed) (entry : FeedEntry) :
  add_entry feed entry = set_entries feed (entries (add_entry feed entry)).
Proof.
  unfold add_entry.
  destruct (_ >? _); destruct feed; reflexivity.
Qed.

Lemma append_all_entries (feed : RssFeed) (appended : list FeedEntry) :
  0 <= MAX_ENTRIES_PER_FEED ->
  appended <> [] ->
  entries (append_all feed appended)
  = firstn (Z.to_nat MAX_ENTRIES_PER_FEED) (rev appended ++ entries feed).
Proof.
  intros Hmax. unfold append_all.
  revert feed. induction appended as [| e rest IH]; intros feed Hne.
  - congruence.
  - cbn [fold_left rev]. destruct rest as [| e' rest'].
    + cbn [fold_left rev app]. now apply add_entry_entries.
    + rewrite IH by discriminate.
      rewrite add_entry_entries by assumption.
      rewrite firstn_app_firstn, <- app_assoc. reflexivity.
Qed.

(** C1, amended.  When [MAX_ENTRIES_PER_FEED] is at least 1, after every
    append the feed holds at most [MAX_ENTRIES_PER_FEED] entries, the
    entry just appended is at position 0, and the entries kept are the
    most recently appended ones, newest first (the tail is what is
    dropped). *)
Theorem add_entry_keeps_newest (feed : RssFeed) (earlier : list FeedEntry)
    (last : FeedEntry) :
  1 <= MAX_ENTRIES_PER_FEED ->
  newest_kept feed earlier last.
Proof.
  intros Hmax. unfold newest_kept. cbv zeta.
  assert (Hent : entries (append_all feed (earlier ++ [last]))
                 = firstn (Z.to_nat MAX_ENTRIES_PER_FEED)
                          (last :: rev earlier ++ entries feed)).
  { rewrite append_all_entries; [| lia | now destruct earlier].
    rewrite rev_app_distr. reflexivity. }
  rewrite Hent. repeat split.
  - rewrite length_firstn. lia.
  - destruct (Z.to_nat MAX_ENTRIES_PER_FEED) eqn:E; [lia | reflexivity].
Qed.

End AddEntry.

(** The theorem at a bound of 2, a third entry pushing the first out. *)
Lemma add_entry_keeps_newest_witness :
  1 <= @MAX_ENTRIES_PER_FEED (config 30 2)
  /\ @newest_kept (config 30 2) (sample_feed "f" "Feed" [])
       [sample_entry "one" "d" "1"; sample_entry "two" "d" "2"]
       (sample_entry "three" "d" "3").
Proof.
  split.
  - cbn. lia.
  - apply (@add_entry_keeps_newest (config 30 2)). cbn. lia.
Defined.

(** C1 as stated fails when the bound is 0: the entry just appended is
    cut off at once, so it is not at position 0. *)
Lemma add_entry_zero_bound_counterexample :
  ~ @newest_kept (config 30 0) (sample_feed "f" "Feed" []) []
      (sample_entry "one" "d" "1").
Proof.
  unfold newest_kept. cbn. intros (_ & Hhead & _). discriminate Hhead.
Qed.

(* ================================================================== *)
(** * [_parse_date] *)
(* ================================================================== *)

Section ParseDate.
Context {lib : PyLib}.

Lemma try_formats_some (date_str : string) (fmts : list string) (d : datetime) :
  try_formats date_str fmts = Some d ->
  exists before fmt after,
    fmts = before ++ fmt :: after
    /\ Forall (fun f => strptime date_str f = None) before
    /\ strptime date_str fmt = Some d.
Proof.
  induction fmts as [| fmt fmts IH]; cbn [try_formats]; [discriminate |].
  destruct (strptime date_str fmt) as [d' |] eqn:E.
  - intros [= <-]. exists [], fmt, fmts. auto.
  - intros H. destruct (IH H) as (before & fmt' & after & -> & Hall & Hparse).
    exists (fmt :: before), fmt', after. auto.
Qed.

Lemma try_formats_none (date_str : string) (fmts : list string) :
  try_formats date_str fmts = None ->
  Forall (fun f => strptime date_str f = None) fmts.
Proof.
  induction fmts as [| fmt fmts IH]; cbn [try_formats]; [constructor |].
  destruct (strptime date_str fmt) eqn:E; [discriminate | auto].
Qed.

Lemma datetime_now_ok (st : State) :
  exists st', datetime_now st = (Ok (clock_now st), st')
              /\ feeds st' = feeds st
              /\ storage_file st' = storage_file st
              /\ saves st' = saves st
              /\ disk st' = disk st.
Proof. eexists. unfold datetime_now, clock_now. cbn. auto. Qed.

(** C3.  For every string, [_parse_date] tries the five formats in
    their order and answers the datetime of the first one that parses,
    the state untouched; when none parses it answers the reading of the
    wall clock.  Either way it returns a datetime: it never raises. *)
Theorem parse_date_first_format_or_now (date_str : string) (st : State) :
  (exists before fmt after d,
      formats = before ++ fmt :: after
      /\ Forall (fun f => strptime date_str f = None) before
      /\ strptime date_str fmt = Some d
      /\ _parse_date date_str st = (Ok d, st))
  \/ (Forall (fun f => strptime date_str f = None) formats
      /\ _parse_date date_str st = datetime_now st
      /\ fst (_parse_date date_str st) = Ok (clock_now st)).
Proof.
  unfold _parse_date, try_except.
  destruct (try_formats date_str formats) as [d |] eqn:E.
  - left. destruct (try_formats_some _ _ E) as (b & f & a & H1 & H2 & H3).
    exists b, f, a, d. cbn. auto.
  - right. split; [now apply try_formats_none |].
    cbn. auto.
Qed.

(** [_parse_date] returns, whatever the text and the state. *)
Lemma parse_date_returns (date_str : string) (st : State) :
  exists d st', _parse_date date_str st = (Ok d, st')
                /\ feeds st' = feeds st
                /\ storage_file st' = storage_file st
                /\ saves st' = saves st.
Proof.
  unfold _parse_date, try_except.
  destruct (try_formats date_str formats) as [d |].
  - exists d, st. cbn. auto.
  - destruct (datetime_now_ok st) as (st' & Hnow & Hf & Hfile & Hsv & _).
    exists (clock_now st), st'. rewrite Hnow. auto.
Qed.

End ParseDate.

Example parse_date_not_a_real_date :
  fst (_parse_date "not a real date" (sample_state [] noon_2024_03_01))
  = Ok (mkDatetime noon_2024_03_01 None).
Proof. vm_compute. reflexivity. Qed.

Example parse_date_rfc822 :
  fst (_parse_date "Sun, 21 Jan 2024 12:00:00 GMT"
                   (sample_state [] noon_2024_03_01))
  = Ok (mkDatetime (noon_2024_03_01 - 40 * MICROS_PER_DAY) None).
Proof. vm_compute. reflexivity. Qed.

Example parse_date_iso_offset_is_aware :
  fst (_parse_date "2024-01-21T12:00:00+0000"
                   (sample_state [] noon_2024_03_01))
  = Ok (mkDatetime (noon_2024_03_01 - 40 * MICROS_PER_DAY) (Some 0)).
Proof. vm_compute. reflexivity. Qed.

(* ================================================================== *)
(** * [to_dict] and [from_dict], [save] and [load] *)
(* ================================================================== *)

Lemma or_uuid4_truthy (s : string) (st : State) :
  truthy s = true -> or_uuid4 (Some s) st = (Ok s, st).
Proof. destruct s; [discriminate | reflexivity]. Qed.

Lemma FeedEntry_round_trip (e : FeedEntry) (st : State) :
  entry_ok e = true ->
  FeedEntry_from_dict (FeedEntry_to_dict e) st = (Ok e, st).
Proof.
  destruct e as [t l d p g i]. unfold entry_ok. cbn [guid]. intros Hg.
  unfold FeedEntry_from_dict, FeedEntry_to_dict, FeedEntry_init.
  cbn -[or_uuid4].
  assert (Hi : as_opt_str (of_opt_str i) = Ok i) by now destruct i.
  unfold bind, lift. cbn -[or_uuid4]. rewrite Hi.
  rewrite or_uuid4_truthy by assumption. reflexivity.
Qed.

Lemma mapM_FeedEntry_round_trip (es : list FeedEntry) (st : State) :
  forallb entry_ok es = true ->
  mapM FeedEntry_from_dict (map FeedEntry_to_dict es) st = (Ok es, st).
Proof.
  induction es as [| e es IH]; cbn [forallb map mapM]; [reflexivity |].
  intros [He Hes]%andb_prop. unfold bind.
  rewrite FeedEntry_round_trip by assumption.
  fold (@bind (list FeedEntry) (list FeedEntry)).
  rewrite IH by assumption. reflexivity.
Qed.

Lemma RssFeed_round_trip (f : RssFeed) (st : State) :
  feed_ok f = true ->
  RssFeed_from_dict (RssFeed_to_dict f) st = (Ok f, st).
Proof.
  destruct f as [t l d g fid es i]. unfold feed_ok. cbn [feed_id entries].
  intros [Hid Hes]%andb_prop.
  unfold RssFeed_from_dict, RssFeed_to_dict, RssFeed_init.
  cbn -[or_uuid4 mapM].
  assert (Hi : as_opt_str (of_opt_str i) = Ok i) by now destruct i.
  unfold bind, lift. cbn -[or_uuid4 mapM]. rewrite Hi.
  rewrite or_uuid4_truthy by assumption. cbn -[mapM].
  rewrite mapM_FeedEntry_round_trip by assumption. reflexivity.
Qed.

Lemma existsb_eqb_In (k : string) (keys : list string) :
  existsb (String.eqb k) keys = true <-> In k keys.
Proof.
  rewrite existsb_exists. split.
  - intros (x & Hin & Heq). apply String.eqb_eq in Heq. now subst.
  - intros Hin. exists k. split; [assumption | apply String.eqb_refl].
Qed.

Lemma keys_distinct_NoDup (keys : list string) :
  keys_distinct keys = true <-> NoDup keys.
Proof.
  induction keys as [| k keys IH]; cbn [keys_distinct].
  - split; [constructor | reflexivity].
  - rewrite andb_true_iff, negb_true_iff, IH. split.
    + intros [Hk Hnd]. constructor; [| assumption].
      rewrite <- existsb_eqb_In. congruence.
    + intros Hnd. inversion Hnd as [| ? ? Hk Hnd']; subst. split; [| assumption].
      destruct (existsb (String.eqb k) keys) eqn:E; [| reflexivity].
      apply existsb_eqb_In in E. contradiction.
Qed.

Lemma dict_get_not_In {V : Type} (k : string) (d : dict V) :
  ~ In k (dict_keys d) -> dict_get k d = None.
Proof.
  induction d as [| [k' v'] d IH]; cbn; [reflexivity |].
  intros Hnin. destruct (String.eqb_spec k k') as [-> | Hne].
  - exfalso. apply Hnin. now left.
  - apply IH. intros Hin. apply Hnin. now right.
Qed.

Lemma dict_set_fresh {V : Type} (k : string) (v : V) (d : dict V) :
  ~ In k (dict_keys d) -> dict_set k v d = d ++ [(k, v)].
Proof.
  induction d as [| [k' v'] d IH]; cbn; [reflexivity |].
  intros Hnin. destruct (String.eqb_spec k k') as [-> | Hne].
  - exfalso. apply Hnin. now left.
  - f_equal. apply IH. intros Hin. apply Hnin. now right.
Qed.

Section SaveLoad.

Lemma load_items_round_trip (fs acc : dict RssFeed) (st : State) :
  NoDup (dict_keys (acc ++ fs)) ->
  forallb (fun kv => feed_ok (snd kv)) fs = true ->
  load_items (map (fun kv => (fst kv, RssFeed_to_dict (snd kv))) fs) acc st
  = (Ok (acc ++ fs), st).
Proof.
  revert acc. induction fs as [| [k f] fs IH]; intros acc Hnd Hok.
  - cbn. now rewrite app_nil_r.
  - cbn [map load_items fst snd forallb] in *.
    apply andb_prop in Hok as [Hf Hfs].
    unfold bind. rewrite RssFeed_round_trip by assumption.
    assert (Hfresh : ~ In k (dict_keys acc)).
    { unfold dict_keys in *. rewrite map_app in Hnd. cbn in Hnd.
      apply NoDup_remove_2 in Hnd. intros Hin. apply Hnd.
      apply in_or_app. now left. }
    rewrite dict_set_fresh by assumption.
    rewrite IH; [now rewrite <- app_assoc | now rewrite <- app_assoc | assumption].
Qed.

(** What [save] leaves, whatever the feeds were made of. *)
Lemma save_saved_once (st0 st : State) :
  saves st = saves st0 ->
  disk st = disk st0 ->
  storage_file st = storage_file st0 ->
  saved_once st0 (snd (save st)).
Proof.
  intros Hs Hd Hf. unfold saved_once, save, modify, mirrored.
  cbn [snd saves feeds storage_file]. split; [now rewrite Hs |].
  unfold file_after_write, write_outcome_of. rewrite Hs, Hd, Hf.
  destruct (disk st0 (saves st0)); [| reflexivity | reflexivity].
  destruct (encodable (feeds_to_dict (feeds st))); reflexivity.
Qed.

Lemma saved_once_mirrored (st st' : State) :
  saved_once st st' ->
  disk st (saves st) = Written ->
  encodable (feeds_to_dict (feeds st')) = true ->
  mirrored st'.
Proof.
  intros [_ H] Hd He. unfold write_outcome_of in H. now rewrite Hd, He in H.
Qed.

(** C9.  When the write of [save] goes through (the operating system
    lets it, and every string of the store is well-formed UTF-8),
    [load] on the file [save] left reads back the same mapping, whatever
    the memory held before: the same feed ids in the same order, each
    with the same title, link, description, language, image and
    entries.  And [from_dict] after [to_dict] gives back every stored
    feed and every entry of it.  The store is one the program can
    hold: one binding per id, feeds and entries built by their
    constructors (so their ids are not empty). *)
Theorem save_then_load_round_trip (st st2 : State) :
  store_ok (feeds st) = true ->
  disk st (saves st) = Written ->
  encodable (feeds_to_dict (feeds st)) = true ->
  storage_file st2 = storage_file (snd (save st)) ->
  load st2 = (Ok tt, set_feeds (feeds st) st2)
  /\ (forall fid f st0,
        In (fid, f) (feeds st) ->
        RssFeed_from_dict (RssFeed_to_dict f) st0 = (Ok f, st0)
        /\ forall e, In e (entries f) ->
             FeedEntry_from_dict (FeedEntry_to_dict e) st0 = (Ok e, st0)).
Proof.
  unfold store_ok. intros [Hkeys Hfeeds]%andb_prop Hdisk Henc Hfile.
  apply keys_distinct_NoDup in Hkeys. split.
  - unfold save, modify, file_after_write, write_outcome_of in Hfile.
    cbn [snd storage_file feeds] in Hfile. rewrite Hdisk, Henc in Hfile.
    unfold load, try_except, bind, get_state, lift. rewrite Hfile.
    cbn [feeds_to_dict py_items].
    rewrite (load_items_round_trip (feeds st) []) by assumption.
    reflexivity.
  - intros fid f st0 Hin.
    rewrite forallb_forall in Hfeeds. specialize (Hfeeds _ Hin). cbn in Hfeeds.
    split; [now apply RssFeed_round_trip |].
    intros e He. apply FeedEntry_round_trip.
    unfold feed_ok in Hfeeds. apply andb_prop in Hfeeds as [_ Hes].
    rewrite forallb_forall in Hes. now apply Hes.
Qed.

(** A write that stops costs the file: when a string of the store is
    not well-formed UTF-8 (a lone surrogate, which a request may bring)
    and the file can be opened, [save] returns as if nothing had
    happened and leaves the memory as it was, but the file is no JSON
    any more, and a process that starts on it loads the empty store. *)
Theorem save_stopped_then_load_empty (st st2 : State) :
  encodable (feeds_to_dict (feeds st)) = false ->
  disk st (saves st) <> Unopened ->
  storage_file st2 = storage_file (snd (save st)) ->
  fst (save st) = Ok tt
  /\ feeds (snd (save st)) = feeds st
  /\ storage_file (snd (save st)) = NotJson
  /\ load st2 = (Ok tt, set_feeds [] st2).
Proof.
  intros Henc Hdisk Hfile.
  assert (Hnot : storage_file (snd (save st)) = NotJson).
  { unfold save, modify, file_after_write, write_outcome_of.
    cbn [snd storage_file]. rewrite Henc.
    destruct (disk st (saves st)); [reflexivity | congruence | reflexivity]. }
  repeat match goal with |- _ /\ _ => split end; try reflexivity.
  - exact Hnot.
  - rewrite Hnot in Hfile.
    unfold load, try_except, bind, get_state. rewrite Hfile. reflexivity.
Qed.

End SaveLoad.

Lemma save_stopped_then_load_empty_witness :
  feeds (snd (load (restarted
                      (snd (save (sample_state surrogate_feeds
                                    noon_2024_03_01))))))
  = [].
Proof.
  destruct (@save_stopped_then_load_empty
              (sample_state surrogate_feeds noon_2024_03_01)
              (restarted (snd (save (sample_state surrogate_feeds
                                       noon_2024_03_01)))))
    as (_ & _ & _ & Hload).
  - reflexivity.
  - discriminate.
  - reflexivity.
  - rewrite Hload. reflexivity.
Defined.

Lemma save_then_load_round_trip_witness :
  feeds (snd (load (restarted
                      (snd (save (sample_state two_feeds noon_2024_03_01))))))
  = two_feeds.
Proof.
  destruct (@save_then_load_round_trip
              (sample_state two_feeds noon_2024_03_01)
              (restarted (snd (save (sample_state two_feeds noon_2024_03_01)))))
    as [Hload _].
  - reflexivity.
  - reflexivity.
  - reflexivity.
  - reflexivity.
  - rewrite Hload. reflexivity.
Defined.

(** A store that holds a lone surrogate, which [request.json] lets in:
    [json.dump] stops at it with [UnicodeEncodeError], [save] logs the
    error and returns, the file is left with the beginning of the
    document, and [load] on that file gives the empty store. *)
Lemma save_then_load_surrogate_counterexample :
  store_ok surrogate_feeds = true
  /\ fst (save (sample_state surrogate_feeds noon_2024_03_01)) = Ok tt
  /\ storage_file (snd (save (sample_state surrogate_feeds noon_2024_03_01)))
     = NotJson
  /\ feeds (snd (load (restarted
                  (snd (save (sample_state surrogate_feeds noon_2024_03_01))))))
     = []
  /\ feeds (snd (load (snd (save (sample_state surrogate_feeds
                                    noon_2024_03_01)))))
     <> surrogate_feeds.
Proof.
  repeat split; try (vm_compute; reflexivity).
  assert (H : feeds (snd (load (snd (save (sample_state surrogate_feeds
                                             noon_2024_03_01)))))
              = []) by (vm_compute; reflexivity).
  rewrite H. discriminate.
Qed.

(* ================================================================== *)
(** * [load] on a document with a bad record *)
(* ================================================================== *)

Lemma or_uuid4_ok (o : option string) (st : State) :
  exists g st', or_uuid4 o st = (Ok g, st').
Proof.
  destruct o as [[| c s] |]; cbn; unfold uuid4_str, ret; eauto.
Qed.

Ltac case_field key d :=
  let E := fresh "E" in
  destruct (dict_get key d) as [[| ? | ? | ?] |] eqn:E;
  cbn -[or_uuid4 mapM] in *; try discriminate.

Lemma FeedEntry_from_dict_typed (v : pyval) (st : State) :
  typed_entry_doc v = true ->
  exists r st',
    FeedEntry_from_dict v st = (r, st')
    /\ modelled r
    /\ (entry_lacks_key v = true -> raises r).
Proof.
  unfold modelled, raises.
  destruct v as [| s | l | d]; intros Ht;
    try (cbn; do 2 eexists; split; [reflexivity | split; [discriminate | discriminate]]).
  unfold typed_entry_doc, field_has, entry_lacks_key, dict_mem in *.
  unfold FeedEntry_from_dict, FeedEntry_init, bind, lift, subscript, py_get.
  case_field "title" d;
    [| do 2 eexists; split; [reflexivity | split; [discriminate | eauto]]].
  case_field "link" d;
    [| do 2 eexists; split; [reflexivity | split; [discriminate | eauto]]].
  case_field "description" d;
    [| do 2 eexists; split; [reflexivity | split; [discriminate | eauto]]].
  case_field "pubDate" d;
    [| do 2 eexists; split; [reflexivity | split; [discriminate | eauto]]].
  case_field "guid" d; case_field "imageUrl" d;
    match goal with
    | |- context [or_uuid4 ?o ?st] =>
        destruct (or_uuid4_ok o st) as (g & st' & ->)
    end;
    cbn; do 2 eexists; (split; [reflexivity | split; [discriminate | discriminate]]).
Qed.

Lemma mapM_FeedEntry_from_dict_typed (l : list pyval) (st : State) :
  forallb typed_entry_doc l = true ->
  exists r st',
    mapM FeedEntry_from_dict l st = (r, st')
    /\ modelled r
    /\ (existsb entry_lacks_key l = true -> raises r).
Proof.
  unfold modelled, raises.
  revert st. induction l as [| v l IH]; intros st Ht.
  - cbn. do 2 eexists. split; [reflexivity | split; discriminate].
  - cbn [forallb existsb mapM] in *. apply andb_prop in Ht as [Hv Hl].
    destruct (FeedEntry_from_dict_typed v st Hv) as (r & st1 & E & Hm & Hr).
    unfold bind. rewrite E. destruct r as [e | x |].
    + destruct (IH st1 Hl) as (r' & st2 & E' & Hm' & Hr').
      fold (@bind (list FeedEntry) (list FeedEntry)). unfold bind. rewrite E'.
      destruct r' as [es | x |].
      * cbn. do 2 eexists. split; [reflexivity | split; [discriminate |]].
        intros [H | H]%orb_prop.
        -- destruct (Hr H) as (x & Hx). discriminate.
        -- destruct (Hr' H) as (x & Hx). discriminate.
      * do 2 eexists. split; [reflexivity | split; [discriminate | eauto]].
      * exfalso. now apply Hm'.
    + do 2 eexists. split; [reflexivity | split; [discriminate | eauto]].
    + exfalso. now apply Hm.
Qed.

Lemma py_iter_typed (es : pyval) (l : list pyval) :
  match es with PList l' => forallb typed_entry_doc l' | _ => true end = true ->
  py_iter es = Ok l ->
  forallb typed_entry_doc l = true
  /\ match es with
     | PList l' => l = l'
     | _ => existsb entry_lacks_key l = false
     end.
Proof.
  destruct es as [| s | l' | d]; cbn; intros Ht [= <-].
  - split.
    + apply forallb_forall. intros x (c & <- & _)%in_map_iff. reflexivity.
    + induction (list_ascii_of_string s); cbn; auto.
  - auto.
  - split.
    + apply forallb_forall. intros x (kv & <- & _)%in_map_iff. reflexivity.
    + induction d; cbn; auto.
Qed.

Lemma RssFeed_from_dict_typed (v : pyval) (st : State) :
  typed_feed_doc v = true ->
  exists r st',
    RssFeed_from_dict v st = (r, st')
    /\ modelled r
    /\ (feed_lacks_key v = true -> raises r).
Proof.
  unfold modelled, raises.
  destruct v as [| s | l | d]; intros Ht;
    try (cbn; do 2 eexists; split; [reflexivity | split; [discriminate | discriminate]]).
  unfold typed_feed_doc, field_has, feed_lacks_key, dict_mem in *.
  unfold RssFeed_from_dict, RssFeed_init, bind, lift, subscript, py_get.
  case_field "title" d;
    [| do 2 eexists; split; [reflexivity | split; [discriminate | eauto]]].
  case_field "link" d;
    [| do 2 eexists; split; [reflexivity | split; [discriminate | eauto]]].
  case_field "description" d;
    [| do 2 eexists; split; [reflexivity | split; [discriminate | eauto]]].
  case_field "language" d; case_field "feedId" d; case_field "imageUrl" d;
    match goal with
    | |- context [or_uuid4 ?o ?st] =>
        destruct (or_uuid4_ok o st) as (g & st1 & ->)
    end;
    cbn -[mapM];
    (destruct (dict_get "entries" d) as [es |] eqn:Ees;
     [| cbn; do 2 eexists; split; [reflexivity | split; discriminate]]);
    (destruct (py_iter es) as [l | x |] eqn:Eiter;
     [| do 2 eexists; split; [reflexivity | split; [discriminate | eauto]]
      | destruct es; discriminate]);
    destruct (py_iter_typed es Ht Eiter) as [Htl Hes];
    destruct (mapM_FeedEntry_from_dict_typed l st1 Htl)
      as (r & st2 & -> & Hm & Hr);
    (destruct r as [fes | x |];
     [| do 2 eexists; split; [reflexivity | split; [discriminate | eauto]]
      | exfalso; now apply Hm]);
    cbn; do 2 eexists; (split; [reflexivity | split; [discriminate |]]);
    intros Hlack; exfalso;
    (destruct Hr as (x & Hx); [| discriminate Hx]);
    destruct es; subst; cbn in *; congruence.
Qed.

Lemma load_items_typed (items : list (string * pyval)) (acc : dict RssFeed)
    (st : State) :
  forallb (fun kv => typed_feed_doc (snd kv)) items = true ->
  exists r st',
    load_items items acc st = (r, st')
    /\ modelled r
    /\ (existsb (fun kv => feed_lacks_key (snd kv)) items = true -> raises r).
Proof.
  unfold modelled, raises.
  revert acc st. induction items as [| [k v] items IH]; intros acc st Ht.
  - cbn. do 2 eexists. split; [reflexivity | split; discriminate].
  - cbn [forallb existsb load_items snd] in *. apply andb_prop in Ht as [Hv Hl].
    destruct (RssFeed_from_dict_typed v st Hv) as (r & st1 & E & Hm & Hr).
    unfold bind. rewrite E. destruct r as [f | x |].
    + destruct (IH (dict_set k f acc) st1 Hl) as (r' & st2 & E' & Hm' & Hr').
      rewrite E'. do 2 eexists. split; [reflexivity | split; [assumption |]].
      intros [H | H]%orb_prop.
      * destruct (Hr H) as (x & Hx). discriminate.
      * now apply Hr'.
    + do 2 eexists. split; [reflexivity | split; [discriminate | eauto]].
    + exfalso. now apply Hm.
Qed.

Section Load.

(** C10.  When the storage document holds a feed record without a
    required key ([title], [link] or [description], or an entry without
    [title], [link], [description] or [pubDate]), [load] leaves the
    store empty: the well-formed records of the same file are not
    loaded either.  The document is one whose fields hold what the
    constructors annotate. *)
Theorem load_bad_record_empties_store (st : State)
    (items : list (string * pyval)) (fid : string) (bad : pyval) :
  storage_file st = Json (PDict items) ->
  forallb (fun kv => typed_feed_doc (snd kv)) items = true ->
  In (fid, bad) items ->
  feed_lacks_key bad = true ->
  exists st', load st = (Ok tt, st') /\ feeds st' = [].
Proof.
  intros Hfile Htyped Hin Hbad.
  assert (Hex : existsb (fun kv => feed_lacks_key (snd kv)) items = true).
  { apply existsb_exists. exists (fid, bad). auto. }
  destruct (load_items_typed items [] st Htyped) as (r & st1 & E & Hm & Hr).
  destruct (Hr Hex) as (e & ->).
  unfold load, try_except, bind, get_state, lift. rewrite Hfile.
  cbn [py_items]. rewrite E. cbn. eexists. split; reflexivity.
Qed.

End Load.

Lemma load_bad_record_empties_store_witness :
  exists st',
    load (mkState [] (Json (PDict document_with_bad_record)) 0
                  (fun _ => 0) 0 (fun n => N.of_nat n) 0 (fun _ => Written))
    = (Ok tt, st')
    /\ feeds st' = [].
Proof.
  eapply (@load_bad_record_empties_store _ document_with_bad_record "b").
  - reflexivity.
  - reflexivity.
  - right. left. reflexivity.
  - reflexivity.
Defined.

(** Without the second record the same file loads its one feed. *)
Example load_good_record_alone :
  feeds (snd (load (mkState [] (Json (PDict (firstn 1 document_with_bad_record)))
                            0 (fun _ => 0) 0 (fun n => N.of_nat n) 0
                            (fun _ => Written))))
  = [("a", sample_feed "a" "Feed A"
             [sample_entry "Jan" "Mon, 01 Jan 2024 00:00:00 GMT" "g1"])].
Proof. vm_compute. reflexivity. Qed.

(* ================================================================== *)
(** * [filter_feeds]: which feeds are in the result *)
(* ================================================================== *)

Section FilterFeeds.
Context {lib : PyLib}.

Lemma filter_feeds_loop_step (query_params : dict string) (feed : RssFeed)
    (todo acc : list RssFeed) (st : State) :
  filter_feeds_loop query_params (feed :: todo) acc st
  = match filter_feed query_params feed st with
    | (Ok f, st') =>
        filter_feeds_loop query_params todo
          (if included query_params f then acc ++ [f] else acc) st'
    | (Raise e, st') => (Raise e, st')
    | (IllTyped, st') => (IllTyped, st')
    end.
Proof.
  cbn [filter_feeds_loop]. unfold filter_feed, bind, ret.
  destruct (RssFeed_init _ _ _ _ _ _ st) as [[copy | e |] st1]; try reflexivity.
  destruct (filter_entries query_params (entries feed) st1)
    as [[es | e |] st2]; try reflexivity.
  unfold included. destruct copy; cbn [set_entries entries].
  destruct es; reflexivity.
Qed.

Lemma filter_feeds_loop_mapM (query_params : dict string)
    (todo acc : list RssFeed) (st : State) :
  filter_feeds_loop query_params todo acc st
  = (res_map (fun outs => acc ++ filter (included query_params) outs)
             (fst (mapM (filter_feed query_params) todo st)),
     snd (mapM (filter_feed query_params) todo st)).
Proof.
  revert acc st. induction todo as [| feed todo IH]; intros acc st.
  - cbn. now rewrite app_nil_r.
  - rewrite filter_feeds_loop_step. cbn [mapM]. unfold bind.
    destruct (filter_feed query_params feed st) as [[f | e |] st1];
      try reflexivity.
    rewrite IH.
    destruct (mapM (filter_feed query_params) todo st1) as [[outs | e |] st2];
      cbn [fst snd res_map ret filter]; try reflexivity.
    destruct (included query_params f); rewrite <- ?app_assoc; reflexivity.
Qed.

Lemma RssFeed_init_ok (t l d g : string) (fid i : option string) (st : State) :
  exists f st', RssFeed_init t l d g fid i st = (Ok f, st').
Proof.
  unfold RssFeed_init, bind.
  destruct (or_uuid4_ok fid st) as (x & st' & ->). unfold ret. eauto.
Qed.



Lemma filter_feeds_mapM (query_params : dict string) (st : State) :
  filter_feeds query_params st
  = (res_map (filter (included query_params))
       (fst (mapM (filter_feed query_params) (dict_values (feeds st)) st)),
     snd (mapM (filter_feed query_params) (dict_values (feeds st)) st)).
Proof.
  unfold filter_feeds, bind, get_state. rewrite filter_feeds_loop_mapM.
  reflexivity.
Qed.


End FilterFeeds.

(* ================================================================== *)
(** * Guids within a feed *)
(* ================================================================== *)

Lemma slice_to_prefix {A : Type} (l : list A) (n : Z) :
  exists k, slice_to l n = firstn k l.
Proof. unfold slice_to. destruct (n <? 0); eauto. Qed.



Lemma dict_get_set_same {V : Type} (k : string) (v : V) (d : dict V) :
  dict_get k (dict_set k v d) = Some v.
Proof.
  induction d as [| [k' v'] d IH]; cbn.
  - now rewrite String.eqb_refl.
  - destruct (String.eqb_spec k k') as [-> | Hne]; cbn.
    + now rewrite String.eqb_refl.
    + destruct (String.eqb_spec k k'); [contradiction | assumption].
Qed.

Lemma dict_get_set_other {V : Type} (k k' : string) (v : V) (d : dict V) :
  k' <> k -> dict_get k' (dict_set k v d) = dict_get k' d.
Proof.
  intros Hne. induction d as [| [k0 v0] d IH]; cbn.
  - destruct (String.eqb_spec k' k); [contradiction | reflexivity].
  - destruct (String.eqb_spec k k0) as [-> | Hne0]; cbn.
    + destruct (String.eqb_spec k' k0); [contradiction | reflexivity].
    + destruct (String.eqb_spec k' k0); [reflexivity | assumption].
Qed.

Lemma first_missing_dict (fields : list string) (d : list (string * pyval)) :
  first_missing fields (PDict d) = Ok (first_absent fields d).
Proof.
  unfold first_absent.
  induction fields as [| f fields IH]; cbn [first_missing find py_in];
    [reflexivity |].
  destruct (dict_mem f d); cbn [negb]; [exact IH | reflexivity].
Qed.

Lemma uuid_str_truthy (i : N) : truthy (uuid_str i) = true.
Proof.
  unfold uuid_str. destruct (substring 0 8 (hex 32 i)); reflexivity.
Qed.

(** ** [str(uuid.uuid4())] tells the draws apart *)










Section Guids.
Context {cfg : Config}.

Lemma add_entry_prefix (feed : RssFeed) (entry : FeedEntry) :
  exists k, entries (add_entry feed entry) = firstn k (entry :: entries feed).
Proof.
  unfold add_entry. destruct (_ >? _); cbn [entries set_entries].
  - destruct feed; apply slice_to_prefix.
  - exists (S (List.length (entries feed))). destruct feed; cbn [entries].
    symmetry. apply (firstn_all (entry :: _)).
Qed.



End Guids.

Lemma pair_of_fst {A B : Type} (p : A * B) (a : A) :
  fst p = a -> p = (a, snd p).
Proof. destruct p. cbn. congruence. Qed.

Example state_with_dup_feeds :
  feeds state_with_dup
  = [(first_id,
      mkRssFeed "Feed A" "http://example.org/" "a feed" "en-US" first_id
        [sample_entry "one" "Mon, 01 Jan 2024 00:00:00 GMT" "dup"] None)].
Proof. vm_compute. reflexivity. Qed.




(* ================================================================== *)
(** * The aggregate feed of [GET /feeds/xml] *)
(* ================================================================== *)

Section Aggregate.
Context {cfg : Config}.

Lemma FeedEntry_init_truthy (t l d p g : string) (i : option string)
    (st : State) :
  truthy g = true ->
  FeedEntry_init t l d p (Some g) i st = (Ok (mkFeedEntry t l d p g i), st).
Proof.
  intros Hg. unfold FeedEntry_init, bind.
  rewrite or_uuid4_truthy by assumption. reflexivity.
Qed.

Lemma combine_entries_append_all (feed : RssFeed) (todo : list FeedEntry)
    (combined : RssFeed) (st : State) :
  forallb entry_ok todo = true ->
  combine_entries feed todo combined st
  = (Ok (append_all combined (map (entry_copy feed) todo)), st).
Proof.
  revert combined. induction todo as [| e todo IH]; intros combined Hok.
  - reflexivity.
  - cbn [forallb] in Hok. apply andb_prop in Hok as [He Hok].
    cbn [combine_entries map]. unfold bind.
    rewrite FeedEntry_init_truthy by exact He.
    rewrite IH by assumption. reflexivity.
Qed.

Lemma append_all_app (feed : RssFeed) (a b : list FeedEntry) :
  append_all feed (a ++ b) = append_all (append_all feed a) b.
Proof. unfold append_all. apply fold_left_app. Qed.

Lemma combine_feeds_append_all (fs : list RssFeed) (combined : RssFeed)
    (st : State) :
  forallb feed_ok fs = true ->
  combine_feeds fs combined st = (Ok (append_all combined (all_copies fs)), st).
Proof.
  revert combined. induction fs as [| f fs IH]; intros combined Hok.
  - reflexivity.
  - cbn [forallb] in Hok. apply andb_prop in Hok as [Hf Hok].
    unfold feed_ok in Hf. apply andb_prop in Hf as [_ Hes].
    cbn [combine_feeds all_copies flat_map]. unfold bind.
    rewrite combine_entries_append_all by assumption.
    rewrite IH by assumption. now rewrite append_all_app.
Qed.

(** What the loops of [GET /feeds/xml] leave in the aggregate feed: the
    copies, last made first, cut to the bound of a feed. *)
Lemma merge_all_feeds_entries (host_url : string) (st : State) :
  0 <= MAX_ENTRIES_PER_FEED ->
  store_ok (feeds st) = true ->
  exists combined st',
    merge_all_feeds host_url st = (Ok combined, st')
    /\ entries combined
       = firstn (Z.to_nat MAX_ENTRIES_PER_FEED)
                (rev (all_copies (dict_values (feeds st)))).
Proof.
  intros Hmax [_ Hok]%andb_prop.
  assert (Hvals : forallb feed_ok (dict_values (feeds st)) = true).
  { unfold dict_values. rewrite forallb_forall in *.
    intros f (kv & <- & Hin)%in_map_iff. now apply Hok. }
  unfold merge_all_feeds, get_all_feeds, get_state, ret, bind.
  destruct (RssFeed_init_ok GENERAL_FEED_TITLE host_url
              "Combination of all available feeds" "en-US" None None st)
    as (c0 & st1 & E).
  rewrite E.
  assert (Hc0 : entries c0 = [] /\ feeds st1 = feeds st).
  { unfold RssFeed_init, bind, or_uuid4, uuid4_str, ret in E.
    injection E as <- <-. split; reflexivity. }
  destruct Hc0 as [Hc0 Hfs]. rewrite Hfs.
  rewrite combine_feeds_append_all by assumption.
  do 2 eexists. split; [reflexivity |].
  destruct (all_copies (dict_values (feeds st))) as [| e es] eqn:Ecopies.
  - cbn. rewrite Hc0. now rewrite firstn_nil.
  - rewrite append_all_entries by (assumption || discriminate).
    now rewrite Hc0, app_nil_r.
Qed.

(** C5, amended.  The aggregate feed of [GET /feeds/xml] holds, before
    the sort, one copy of every entry of every stored feed, provided the
    feeds hold no more than [MAX_ENTRIES_PER_FEED] entries in all: the
    aggregate is a feed, and [add_entry] bounds it like any other. *)
Theorem merge_all_feeds_copies_every_entry (host_url : string) (st : State) :
  store_ok (feeds st) = true ->
  Z.of_nat (List.length (all_copies (dict_values (feeds st))))
  <= MAX_ENTRIES_PER_FEED ->
  every_entry_copied host_url st.
Proof.
  intros Hok Hlen.
  destruct (merge_all_feeds_entries host_url st) as (c & st' & Hrun & Hent);
    [lia | assumption |].
  exists c, st'. split; [assumption |].
  rewrite Hent, firstn_all2 by (rewrite length_rev; lia).
  apply Permutation_sym, Permutation_rev.
Qed.

End Aggregate.

Lemma merge_all_feeds_copies_every_entry_witness :
  @every_entry_copied (config 30 100) "http://host/"
    (sample_state two_feeds noon_2024_03_01).
Proof.
  apply (@merge_all_feeds_copies_every_entry (config 30 100)).
  - reflexivity.
  - cbn. lia.
Defined.

(** C5 as stated fails when the feeds hold more entries than the bound:
    with a bound of 1 the aggregate of three entries keeps one copy. *)
Lemma merge_all_feeds_truncates_counterexample :
  ~ @every_entry_copied (config 30 1) "http://host/"
      (sample_state two_feeds noon_2024_03_01).
Proof.
  intros (combined & st' & Hrun & Hperm).
  apply Permutation_length in Hperm.
  assert (E : res_map (fun f => List.length (entries f))
                (fst (@merge_all_feeds (config 30 1) "http://host/"
                        (sample_state two_feeds noon_2024_03_01)))
              = Ok 1%nat) by (vm_compute; reflexivity).
  rewrite Hrun in E. cbn in E. injection E as E.
  rewrite E in Hperm. discriminate Hperm.
Qed.

(* ================================================================== *)
(** * [filter_feeds] on the sample store *)
(* ================================================================== *)

Example filter_feeds_title_may :
  res_map titles
    (fst (filter_feeds [("title", "MAY")]
            (sample_state two_feeds noon_2024_03_01)))
  = Ok [("Feed B", ["May"])].
Proof. vm_compute. reflexivity. Qed.

Example filter_feeds_title_may_include_empty :
  res_map titles
    (fst (filter_feeds [("title", "MAY"); ("include_empty", "True")]
            (sample_state two_feeds noon_2024_03_01)))
  = Ok [("Feed A", []); ("Feed B", ["May"])].
Proof. vm_compute. reflexivity. Qed.


(* ================================================================== *)
(** * The order of the items of an aggregate document *)
(* ================================================================== *)

(** C4 at a failing input.  On a store whose Feed A holds an entry of
    January 2024 and whose Feed B holds one of June and one of May,
    [GET /feeds/xml] lists June, May, January, each title behind its
    feed's in brackets; [GET /feeds/search?format=xml] with no other
    criterion lists May, June, January: the search never sorts, and
    what it serves is the reverse of the order of the merge. *)
Theorem search_feeds_xml_is_not_sorted :
  res_map item_titles
    (fst (@get_all_feeds_xml (config 30 100) cpython "http://host/"
            (sample_state two_feeds noon_2024_03_01)))
  = Ok ["[Feed B] Jun"; "[Feed B] May"; "[Feed A] Jan"]
  /\ res_map search_item_titles
       (fst (@search_feeds (config 30 100) cpython [("format", "xml")]
               "http://host/feeds/search?format=xml"
               (sample_state two_feeds noon_2024_03_01)))
     = Ok ["[Feed B] May"; "[Feed B] Jun"; "[Feed A] Jan"].
Proof. split; vm_compute; reflexivity. Qed.

(* ================================================================== *)
(** * The retention sweep on the sample dates *)
(* ================================================================== *)

(** With a window of 30 days the sweep drops the entry of 40 days ago,
    keeps the one of 10 days ago, and saves once. *)
Example cleanup_iteration_rfc822 :
  let st' := snd (@cleanup_iteration (config 30 100) cpython
                    (sample_state rfc822_feeds noon_2024_03_01)) in
  feeds st'
  = [("a", sample_feed "a" "Feed A"
             [sample_entry "recent" "Tue, 20 Feb 2024 12:00:00 GMT" "g1"])]
  /\ saves st' = 1%nat
  /\ storage_file st' = Json (feeds_to_dict (feeds st')).
Proof. vm_compute. auto. Qed.

(** C2 at a failing input.  The date of Feed B's entry parses to an
    aware datetime, and comparing it with the naive cutoff raises
    [TypeError]: the turn of the sweep ends there.  Feed B keeps its
    entry of 40 days ago; Feed A, swept before, has lost its old entry
    in memory, yet nothing was saved. *)
Theorem cleanup_iteration_aware_date :
  let st' := snd (@cleanup_iteration (config 30 100) cpython
                    (sample_state mixed_feeds noon_2024_03_01)) in
  feeds st'
  = [("a", sample_feed "a" "Feed A"
             [sample_entry "recent" "Tue, 20 Feb 2024 12:00:00 GMT" "g1"]);
     ("b", sample_feed "b" "Feed B"
             [sample_entry "old iso" "2024-01-21T12:00:00+0000" "g3"])]
  /\ saves st' = 0%nat
  /\ storage_file st' = NoFile.
Proof. vm_compute. auto. Qed.

(* ================================================================== *)
(** * Date criteria on the sample dates *)
(* ================================================================== *)

(** On dates in the RFC 822 form, a naive [from_date] keeps the entries
    not older than it. *)
Example filter_feeds_from_date_rfc822 :
  res_map titles
    (fst (filter_feeds [("from_date", "2024-05-15")]
            (sample_state two_feeds noon_2024_03_01)))
  = Ok [("Feed B", ["Jun"])].
Proof. vm_compute. reflexivity. Qed.

(** A [from_date] that does not parse is ignored. *)
Example filter_feeds_from_date_unparsable :
  res_map titles
    (fst (filter_feeds [("from_date", "yesterday"); ("limit", "one")]
            (sample_state two_feeds noon_2024_03_01)))
  = Ok [("Feed A", ["Jan"]); ("Feed B", ["Jun"; "May"])].
Proof. vm_compute. reflexivity. Qed.

(** C6 at a failing input.  A [from_date] with an offset is aware, the
    RFC 822 dates of the entries are naive (and a naive [from_date]
    meets the aware date of an ISO 8601 entry the same way): the
    comparison raises [TypeError], which [filter_feeds] does not catch,
    so the filter ends in an error instead of a filtered feed. *)
Theorem filter_feeds_aware_from_date :
  fst (filter_feeds [("from_date", "2024-05-15T00:00:00+00:00")]
         (sample_state two_feeds noon_2024_03_01))
  = Raise TypeError
  /\ fst (filter_feeds [("from_date", "2024-05-15")]
            (sample_state mixed_feeds noon_2024_03_01))
     = Raise TypeError
  /\ fst (filter_feeds [("to_date", "2024-05-15")]
            (sample_state mixed_feeds noon_2024_03_01))
     = Raise TypeError.
Proof. repeat split; vm_compute; reflexivity. Qed.

(* ================================================================== *)
(** * [FeedStorage]: feeds in, feeds out *)
(* ================================================================== *)

Lemma dict_get_del_same {V : Type} (k : string) (d : dict V) :
  NoDup (dict_keys d) -> dict_get k (dict_del k d) = None.
Proof.
  induction d as [| [k' v'] d IH]; cbn; [reflexivity |].
  intros Hnd. inversion Hnd as [| ? ? Hk Hnd']; subst.
  destruct (String.eqb_spec k k') as [-> | Hne].
  - now apply dict_get_not_In.
  - cbn. destruct (String.eqb_spec k k'); [contradiction | now apply IH].
Qed.

Lemma dict_get_del_other {V : Type} (k k' : string) (d : dict V) :
  k' <> k -> dict_get k' (dict_del k d) = dict_get k' d.
Proof.
  intros Hne. induction d as [| [k0 v0] d IH]; cbn; [reflexivity |].
  destruct (String.eqb_spec k k0) as [-> | Hne0]; cbn.
  - destruct (String.eqb_spec k' k0); [contradiction | reflexivity].
  - destruct (String.eqb_spec k' k0); [reflexivity | assumption].
Qed.

Section Storage.
Context {cfg : Config}.

(** [add_feed] files the feed under its own id, where [get_feed] finds
    it, and returns the id whether the write succeeds or not; the other
    ids keep their feeds; [save] is called once: the file then holds
    what memory holds if the write went through, and otherwise is what
    it was ([open] refused) or no JSON (writing stopped). *)
Theorem add_feed_then_get_feed (feed : RssFeed) (st : State) :
  exists st',
    add_feed feed st = (Ok (feed_id feed), st')
    /\ get_feed (feed_id feed) st' = (Ok (Some feed), st')
    /\ (forall fid, fid <> feed_id feed ->
          dict_get fid (feeds st') = dict_get fid (feeds st))
    /\ saved_once st st'.
Proof.
  unfold add_feed, get_feed, modify, bind, get_state, ret.
  eexists. split; [unfold save, modify; reflexivity |].
  repeat match goal with |- _ /\ _ => split end.
  - unfold set_feeds. cbn [feeds]. now rewrite dict_get_set_same.
  - intros fid Hne. unfold set_feeds. cbn [feeds].
    now apply dict_get_set_other.
  - apply save_saved_once with (st0 := st); reflexivity.
Qed.

(** [delete_feed] on an id of the store removes its feed, calls [save]
    once and answers [True], after which [get_feed] finds nothing under
    the id; the file then holds what memory holds if the write went
    through, and otherwise is what it was or no JSON.  On an id that is
    not in the store [delete_feed] answers [False] and changes nothing,
    the file included. *)
Theorem delete_feed_then_get_feed (fid : string) (st : State) :
  NoDup (dict_keys (feeds st)) ->
  (dict_get fid (feeds st) <> None ->
   exists st',
     delete_feed fid st = (Ok true, st')
     /\ get_feed fid st' = (Ok None, st')
     /\ (forall fid', fid' <> fid ->
           dict_get fid' (feeds st') = dict_get fid' (feeds st))
     /\ saved_once st st')
  /\ (dict_get fid (feeds st) = None ->
      delete_feed fid st = (Ok false, st)).
Proof.
  intros Hnd.
  unfold delete_feed, get_feed, modify, bind, get_state, ret, dict_mem.
  split; intros Hget.
  - destruct (dict_get fid (feeds st)) as [f |] eqn:E; [| congruence].
    eexists. split; [unfold save, modify; reflexivity |].
    repeat match goal with |- _ /\ _ => split end.
    + unfold set_feeds. cbn [feeds].
      now rewrite dict_get_del_same by assumption.
    + intros fid' Hne. unfold set_feeds. cbn [feeds].
      now apply dict_get_del_other.
    + apply save_saved_once with (st0 := st); reflexivity.
  - now rewrite Hget.
Qed.

(** Appending to a stored feed, then reading it back: with a bound of at
    least 1 the entry is [entries[0]] of the feed [get_feed] returns,
    the feed's metadata is what it was, and [save] was called once: the
    file then holds what memory holds if the write went through, and
    otherwise is what it was or no JSON, the answer being [True] either
    way.  Appending under an id that is not in the store answers [False]
    and changes nothing. *)
Theorem add_entry_to_feed_then_get_feed (fid : string) (entry : FeedEntry)
    (st : State) :
  1 <= MAX_ENTRIES_PER_FEED ->
  (forall feed,
     dict_get fid (feeds st) = Some feed ->
     exists st' feed',
       add_entry_to_feed fid entry st = (Ok true, st')
       /\ get_feed fid st' = (Ok (Some feed'), st')
       /\ nth_error (entries feed') 0 = Some entry
       /\ feed' = set_entries feed (entries feed')
       /\ saved_once st st')
  /\ (dict_get fid (feeds st) = None ->
      add_entry_to_feed fid entry st = (Ok false, st)).
Proof.
  intros Hmax.
  unfold add_entry_to_feed, get_feed, modify, bind, get_state, ret.
  split.
  - intros feed Hget. rewrite Hget.
    do 2 eexists. split; [unfold save, modify; reflexivity |].
    repeat match goal with |- _ /\ _ => split end.
    + unfold set_feeds. cbn [feeds]. now rewrite dict_get_set_same.
    + rewrite add_entry_entries by lia.
      destruct (Z.to_nat MAX_ENTRIES_PER_FEED) eqn:E; [lia | reflexivity].
    + apply add_entry_metadata.
    + apply save_saved_once with (st0 := st); reflexivity.
  - intros Hget. now rewrite Hget.
Qed.

End Storage.

Lemma delete_feed_then_get_feed_witness :
  exists st',
    delete_feed "a" (sample_state two_feeds noon_2024_03_01) = (Ok true, st')
    /\ get_feed "a" st' = (Ok None, st').
Proof.
  destruct (delete_feed_then_get_feed "a"
              (sample_state two_feeds noon_2024_03_01)) as [Hpresent _].
  - cbn. repeat constructor; cbn; intuition discriminate.
  - destruct Hpresent as (st' & H1 & H2 & _); [discriminate |].
    exists st'. auto.
Defined.

Lemma add_entry_to_feed_then_get_feed_witness :
  exists st' feed',
    @add_entry_to_feed (config 30 2) "b" (sample_entry "Jul" "d" "g4")
      (sample_state two_feeds noon_2024_03_01) = (Ok true, st')
    /\ get_feed "b" st' = (Ok (Some feed'), st')
    /\ nth_error (entries feed') 0 = Some (sample_entry "Jul" "d" "g4").
Proof.
  destruct (@add_entry_to_feed_then_get_feed (config 30 2) "b"
              (sample_entry "Jul" "d" "g4")
              (sample_state two_feeds noon_2024_03_01)) as [Hpresent _].
  - cbn. lia.
  - destruct (Hpresent _ eq_refl) as (st' & feed' & H1 & H2 & H3 & _).
    exists st', feed'. auto.
Defined.

(* ================================================================== *)
(** * [POST /feeds/<feed_id>/entries] *)
(* ================================================================== *)

(** [s or str(uuid.uuid4())] is never empty, is [s] when that is not
    empty, and touches nothing but the random source. *)
Lemma or_uuid4_spec (o : option string) (st : State) :
  exists g st1,
    or_uuid4 o st = (Ok g, st1)
    /\ truthy g = true
    /\ same_store st st1
    /\ wall_clock st1 = wall_clock st
    /\ clock_reads st1 = clock_reads st
    /\ (forall g0, o = Some g0 -> truthy g0 = true -> g = g0 /\ st1 = st).
Proof.
  unfold same_store.
  destruct o as [[| c s0] |]; cbn [or_uuid4]; unfold uuid4_str, ret;
    (do 2 eexists; split; [reflexivity |]);
    (split; [try apply uuid_str_truthy; reflexivity |]);
    cbn [feeds storage_file saves wall_clock clock_reads];
    repeat match goal with |- _ /\ _ => split end; try reflexivity;
    intros gx Hgx Hgt; inversion Hgx; subst; try discriminate Hgt;
    split; reflexivity.
Qed.

Section AddFeedEntry.
Context {cfg : Config}.

(** [add_feed_entry] stores nothing on a request it turns down: under
    an id that is not in the store it answers not-found, whatever the
    body; under a known id, a body without one of [title], [link],
    [description], [pubDate] is answered with the first of them that is
    missing.  The state is left as it was. *)
Theorem add_feed_entry_rejects (fid : string) (st : State) :
  (forall data,
     dict_get fid (feeds st) = None ->
     add_feed_entry fid data st = (Ok NotFound, st))
  /\ (forall d field,
        dict_get fid (feeds st) <> None ->
        first_absent entry_fields d = Some field ->
        add_feed_entry fid (PDict d) st = (Ok (MissingField field), st)).
Proof.
  unfold add_feed_entry, try_except, get_feed, bind, get_state, ret, lift.
  split.
  - intros data Hget. now rewrite Hget.
  - intros d field Hget Habs.
    destruct (dict_get fid (feeds st)) as [feed |]; [| congruence].
    fold entry_fields. rewrite first_missing_dict, Habs. reflexivity.
Qed.

(** A complete request is stored: with [title], [link], [description]
    and [pubDate] given as strings (and [guid], [imageUrl] strings or
    null when given), [add_feed_entry] makes the entry that carries the
    four fields and the image as given, with the guid of the request
    when that is a string that is not empty and with the next
    [uuid4()] otherwise; it adds it to the feed by [add_entry], leaves
    the other feeds alone, calls [save] once and answers with the guid,
    which is never empty.  The answer is the same whether the write
    succeeds or not: the file holds what memory holds if it went
    through, and otherwise is what it was or no JSON. *)
Theorem add_feed_entry_accepts (fid : string) (feed : RssFeed)
    (d : list (string * pyval)) (t l ds p : string) (st : State) :
  dict_get fid (feeds st) = Some feed ->
  dict_get "title" d = Some (PStr t) ->
  dict_get "link" d = Some (PStr l) ->
  dict_get "description" d = Some (PStr ds) ->
  dict_get "pubDate" d = Some (PStr p) ->
  field_has is_opt_str "guid" d = true ->
  field_has is_opt_str "imageUrl" d = true ->
  exists entry st',
    entry = mkFeedEntry t l ds p (guid_or_next (dict_get "guid" d) st)
                        (opt_str_of (dict_get "imageUrl" d))
    /\ add_feed_entry fid (PDict d) st = (Ok (EntryAdded (guid entry)), st')
    /\ dict_get fid (feeds st') = Some (add_entry feed entry)
    /\ (forall fid', fid' <> fid ->
          dict_get fid' (feeds st') = dict_get fid' (feeds st))
    /\ truthy (guid entry) = true
    /\ saved_once st st'.
Proof.
  intros Hget Ht Hl Hd Hp Hg Hi.
  exists (mkFeedEntry t l ds p (guid_or_next (dict_get "guid" d) st)
                      (opt_str_of (dict_get "imageUrl" d))).
  unfold add_feed_entry, try_except, get_feed, bind at 1 2, get_state, ret.
  rewrite Hget. cbn beta iota. unfold bind at 1, lift at 1.
  fold entry_fields. rewrite first_missing_dict.
  assert (Habs : first_absent entry_fields d = None).
  { unfold first_absent, entry_fields, dict_mem. cbn [find].
    now rewrite Ht, Hl, Hd, Hp. }
  rewrite Habs. cbn beta iota.
  unfold entry_of_request, FeedEntry_from_dict, FeedEntry_init, subscript,
    py_get, field_has in *.
  unfold bind, lift. rewrite Ht, Hl, Hd, Hp. cbn -[or_uuid4 add_entry_to_feed].
  destruct (dict_get "guid" d) as [[| [| c g] | |] |] eqn:Eg; try discriminate;
    destruct (dict_get "imageUrl" d) as [[| i | |] |] eqn:Ei; try discriminate;
    cbn -[add_entry_to_feed uuid_str uuid4_int];
    unfold ret, add_entry_to_feed, get_feed, modify, bind, get_state, ret;
    cbn [feeds]; rewrite Hget;
    (eexists; split; [reflexivity |]);
    (split; [unfold save, modify; reflexivity |]);
    unfold set_feeds; cbn [feeds snd guid];
    (split; [now rewrite dict_get_set_same |]);
    (split; [intros fid' Hne; now apply dict_get_set_other |]);
    (split; [try apply uuid_str_truthy; reflexivity |]);
    apply save_saved_once with (st0 := st); reflexivity.
Qed.

End AddFeedEntry.

Lemma add_feed_entry_rejects_witness :
  @add_feed_entry (config 30 100) "nowhere" PNone
    (sample_state two_feeds noon_2024_03_01)
  = (Ok NotFound, sample_state two_feeds noon_2024_03_01)
  /\ @add_feed_entry (config 30 100) "a"
       (PDict [("title", PStr "t"); ("pubDate", PStr "d")])
       (sample_state two_feeds noon_2024_03_01)
     = (Ok (MissingField "link"), sample_state two_feeds noon_2024_03_01).
Proof.
  destruct (@add_feed_entry_rejects (config 30 100) "nowhere"
              (sample_state two_feeds noon_2024_03_01)) as [H1 _].
  destruct (@add_feed_entry_rejects (config 30 100) "a"
              (sample_state two_feeds noon_2024_03_01)) as [_ H2].
  split.
  - apply H1. reflexivity.
  - apply H2; [discriminate | reflexivity].
Defined.

Lemma add_feed_entry_accepts_witness :
  exists entry st',
    @add_feed_entry (config 30 100) "a"
      (entry_request "Feb" "Thu, 01 Feb 2024 00:00:00 GMT" (Some "g9"))
      (sample_state two_feeds noon_2024_03_01)
    = (Ok (EntryAdded (guid entry)), st')
    /\ (title entry, guid entry) = ("Feb", "g9").
Proof.
  destruct (@add_feed_entry_accepts (config 30 100) "a"
              (sample_feed "a" "Feed A"
                 [sample_entry "Jan" "Mon, 01 Jan 2024 00:00:00 GMT" "g1"])
              [("title", PStr "Feb"); ("link", PStr "http://example.org/item");
               ("description", PStr "text");
               ("pubDate", PStr "Thu, 01 Feb 2024 00:00:00 GMT");
               ("guid", PStr "g9")]
              "Feb" "http://example.org/item" "text"
              "Thu, 01 Feb 2024 00:00:00 GMT"
              (sample_state two_feeds noon_2024_03_01)
              eq_refl eq_refl eq_refl eq_refl eq_refl eq_refl eq_refl)
    as (entry & st' & Hentry & Hrun & _).
  exists entry, st'. split; [exact Hrun |].
  rewrite Hentry. reflexivity.
Defined.

(* ================================================================== *)
(** * [filter_feeds]: what a filtered feed holds *)
(* ================================================================== *)

Lemma subseq_refl {A : Type} (l : list A) : subseq l l.
Proof. induction l; constructor; assumption. Qed.

Lemma subseq_trans {A : Type} (a b c : list A) :
  subseq a b -> subseq b c -> subseq a c.
Proof.
  intros Hab Hbc. revert a Hab.
  induction Hbc as [| x b c Hbc IH | x b c Hbc IH]; intros a Hab.
  - assumption.
  - inversion Hab; subst; constructor; auto.
  - constructor. auto.
Qed.

Lemma subseq_filter {A : Type} (p : A -> bool) (l : list A) :
  subseq (filter p l) l.
Proof.
  induction l as [| x l IH]; cbn; [constructor |].
  destruct (p x); constructor; assumption.
Qed.

Lemma subseq_firstn {A : Type} (k : nat) (l : list A) : subseq (firstn k l) l.
Proof.
  revert k. induction l as [| x l IH]; intros [| k]; cbn;
    repeat constructor; auto.
  clear. induction l; constructor; assumption.
Qed.

Lemma subseq_slice_to {A : Type} (l : list A) (n : Z) : subseq (slice_to l n) l.
Proof.
  destruct (slice_to_prefix l n) as (k & ->). apply subseq_firstn.
Qed.

Lemma subseq_Forall {A : Type} (P : A -> Prop) (a b : list A) :
  subseq a b -> Forall P b -> Forall P a.
Proof.
  induction 1 as [| x a b Hab IH | x a b Hab IH]; intros Hb.
  - constructor.
  - inversion Hb; subst. constructor; auto.
  - inversion Hb; subst. auto.
Qed.

Lemma subseq_length {A : Type} (a b : list A) :
  subseq a b -> (List.length a <= List.length b)%nat.
Proof. induction 1; cbn; lia. Qed.

Lemma Forall_filter_true {A : Type} (p : A -> bool) (l : list A) :
  Forall (fun x => p x = true) (filter p l).
Proof.
  apply Forall_forall. intros x Hin. now apply filter_In in Hin.
Qed.

(** What [filterM] keeps is a subsequence of the list, and the test
    answered [True] on every element kept. *)
Lemma filterM_kept {A : Type} (p : A -> M bool) (l kept : list A)
    (st st' : State) :
  filterM p l st = (Ok kept, st') ->
  subseq kept l
  /\ Forall (fun x => exists s s', p x s = (Ok true, s')) kept.
Proof.
  revert kept st. induction l as [| x l IH]; intros kept st; cbn [filterM].
  - unfold ret. intros [= <- <-]. split; constructor.
  - unfold bind. destruct (p x st) as [[b | e |] st1] eqn:Ep; try discriminate.
    destruct (filterM p l st1) as [[r | e |] st2] eqn:El; try discriminate.
    unfold ret. intros [= <- <-]. destruct (IH _ _ El) as [Hsub Hall].
    destruct b.
    + split; [now constructor |]. constructor; eauto.
    + split; [now constructor | assumption].
Qed.

Lemma filterM_raises {A : Type} (p : A -> M bool) (l : list A) (e : exn)
    (st st' : State) :
  filterM p l st = (Raise e, st') ->
  exists x s s', In x l /\ p x s = (Raise e, s').
Proof.
  revert st. induction l as [| x l IH]; intros st; cbn [filterM].
  - unfold ret. discriminate.
  - unfold bind. destruct (p x st) as [[b | e0 |] st1] eqn:Ep; try discriminate.
    + destruct (filterM p l st1) as [[r | e1 |] st2] eqn:El; try discriminate.
      intros [= <- <-]. destruct (IH _ El) as (y & s & s' & Hin & Hy).
      exists y, s, s'. split; [now right | assumption].
    + intros [= <- <-]. exists x, st, st1. split; [now left | assumption].
Qed.

Section FilterEntries.
Context {lib : PyLib}.

(** [filter_entries] is its five criteria in their order: title,
    description, lower bound, upper bound, limit. *)
Lemma filter_entries_stages (query_params : dict string) (es : list FeedEntry)
    (st : State) :
  filter_entries query_params es st
  = (l3 <- date_stage (dict_get "from_date" query_params) is_ge
             (description_stage query_params (title_stage query_params es)) ;;
     l4 <- date_stage (dict_get "to_date" query_params) is_le l3 ;;
     ret (limit_stage query_params l4)) st.
Proof.
  unfold filter_entries, date_stage, description_stage, title_stage,
    limit_stage, dt_ge, dt_le, bind.
  match goal with
  | |- (let (_, _) := ?m in _) = _ => destruct m as [[l3 | e |] st3]
  end; try reflexivity.
  match goal with
  | |- (let (_, _) := ?m in _) = _ => destruct m as [[l4 | e |] st4]
  end; try reflexivity.
  destruct (dict_get "limit" query_params) as [q |]; [| reflexivity].
  destruct (int_of_str q); reflexivity.
Qed.

(** One test of a date bound: the entry's date, then the comparison. *)
Lemma date_test_outcome (test : comparison -> bool) (bound : datetime)
    (e : FeedEntry) (r : res bool) (s s' : State) :
  (d <- _parse_date (pub_date e) ;; lift (res_map test (dt_cmp d bound))) s
  = (r, s') ->
  (r = Ok true ->
   forall pd, parsed_date e = Some pd ->
              res_map test (dt_cmp pd bound) = Ok true)
  /\ (forall x, r = Raise x -> x = TypeError).
Proof.
  unfold bind, lift, _parse_date, try_except, parsed_date.
  destruct (try_formats (pub_date e) formats) as [pd |] eqn:Epd.
  - unfold ret. intros [= <- <-]. split.
    + intros Hr pd' [= <-]. assumption.
    + intros x. unfold dt_cmp.
      destruct (utcoffset pd), (utcoffset bound); cbn; congruence.
  - unfold datetime_now. intros [= <- <-]. split.
    + intros _ pd [=].
    + intros x. unfold dt_cmp. cbn [utcoffset].
      destruct (utcoffset bound); cbn; congruence.
Qed.

Lemma date_stage_kept (criterion : option string) (test : comparison -> bool)
    (l kept : list FeedEntry) (st st' : State) :
  date_stage criterion test l st = (Ok kept, st') ->
  subseq kept l
  /\ forall q bound,
       criterion = Some q -> fromisoformat q = Some bound ->
       Forall (fun e => forall pd, parsed_date e = Some pd ->
                                   res_map test (dt_cmp pd bound) = Ok true)
              kept.
Proof.
  unfold date_stage. destruct criterion as [q |].
  - unfold try_except_ValueError.
    destruct (fromisoformat q) as [bound |] eqn:Eb.
    + destruct (filterM _ l st) as [[r | e |] st1] eqn:Ef.
      * intros [= <- <-]. destruct (filterM_kept _ _ _ Ef) as [Hsub Hall].
        split; [assumption |]. intros q' bound' [= <-] Hb.
        rewrite Eb in Hb. injection Hb as <-.
        eapply Forall_impl; [| exact Hall]. cbv beta.
        intros e (s & s' & Hp).
        now apply (date_test_outcome _ _ _ _ Hp).
      * destruct (filterM_raises _ _ _ Ef) as (x & s & s' & _ & Hp).
        apply date_test_outcome in Hp as [_ Hp].
        rewrite (Hp e eq_refl). discriminate.
      * discriminate.
    + cbn. unfold ret. intros [= <- <-]. split; [apply subseq_refl |].
      intros q' bound' [= <-] Hb. congruence.
  - unfold ret. intros [= <- <-]. split; [apply subseq_refl |].
    intros q bound [=].
Qed.

Lemma limit_stage_subseq (query_params : dict string) (l : list FeedEntry) :
  subseq (limit_stage query_params l) l.
Proof.
  unfold limit_stage. destruct (dict_get "limit" query_params) as [q |];
    [| apply subseq_refl].
  destruct (int_of_str q); [apply subseq_slice_to | apply subseq_refl].
Qed.

Lemma description_stage_subseq (query_params : dict string)
    (l : list FeedEntry) :
  subseq (description_stage query_params l) l.
Proof.
  unfold description_stage.
  destruct (dict_get "description" query_params);
    [apply subseq_filter | apply subseq_refl].
Qed.

Lemma title_stage_subseq (query_params : dict string) (l : list FeedEntry) :
  subseq (title_stage query_params l) l.
Proof.
  unfold title_stage.
  destruct (dict_get "title" query_params);
    [apply subseq_filter | apply subseq_refl].
Qed.

Lemma filter_entries_subseq (query_params : dict string)
    (es kept : list FeedEntry) (st st' : State) :
  filter_entries query_params es st = (Ok kept, st') ->
  subseq kept es.
Proof.
  rewrite filter_entries_stages. unfold bind.
  destruct (date_stage (dict_get "from_date" query_params) is_ge _ st)
    as [[l3 | e |] st3] eqn:E3; try discriminate.
  destruct (date_stage (dict_get "to_date" query_params) is_le l3 st3)
    as [[l4 | e |] st4] eqn:E4; try discriminate.
  unfold ret. intros [= <- <-].
  destruct (date_stage_kept _ _ _ _ E3) as [Hsub3 _].
  destruct (date_stage_kept _ _ _ _ E4) as [Hsub4 _].
  eapply subseq_trans; [apply limit_stage_subseq |].
  eapply subseq_trans; [exact Hsub4 |].
  eapply subseq_trans; [exact Hsub3 |].
  eapply subseq_trans; [apply description_stage_subseq |].
  apply title_stage_subseq.
Qed.

(** What a filter that returns has kept: a subsequence of the feed's
    entries; with a title (description) criterion, only entries whose
    lower-cased title (description) contains the lower-cased text; with
    a bound that parses, only entries whose date, when it parses, is on
    the right side of the bound, the bound included; with a limit that
    parses to [n >= 0], at most [n] entries. *)
Theorem filter_entries_sound (query_params : dict string)
    (es kept : list FeedEntry) (st st' : State) :
  filter_entries query_params es st = (Ok kept, st') ->
  subseq kept es
  /\ (forall q, dict_get "title" query_params = Some q ->
        Forall (fun e => str_contains (str_lower q) (str_lower (title e)) = true)
               kept)
  /\ (forall q, dict_get "description" query_params = Some q ->
        Forall (fun e => str_contains (str_lower q)
                                      (str_lower (description e)) = true)
               kept)
  /\ (forall q bound,
        dict_get "from_date" query_params = Some q ->
        fromisoformat q = Some bound ->
        Forall (fun e => forall pd, parsed_date e = Some pd ->
                                    dt_ge pd bound = Ok true) kept)
  /\ (forall q bound,
        dict_get "to_date" query_params = Some q ->
        fromisoformat q = Some bound ->
        Forall (fun e => forall pd, parsed_date e = Some pd ->
                                    dt_le pd bound = Ok true) kept)
  /\ (forall q n,
        dict_get "limit" query_params = Some q ->
        int_of_str q = Some n -> 0 <= n ->
        Z.of_nat (List.length kept) <= n).
Proof.
  rewrite filter_entries_stages. unfold bind.
  destruct (date_stage (dict_get "from_date" query_params) is_ge _ st)
    as [[l3 | e |] st3] eqn:E3; try discriminate.
  destruct (date_stage (dict_get "to_date" query_params) is_le l3 st3)
    as [[l4 | e |] st4] eqn:E4; try discriminate.
  unfold ret. intros [= <- <-].
  destruct (date_stage_kept _ _ _ _ E3) as [Hsub3 Hfrom].
  destruct (date_stage_kept _ _ _ _ E4) as [Hsub4 Hto].
  pose proof (limit_stage_subseq query_params l4) as Hlim.
  pose proof (description_stage_subseq query_params
                (title_stage query_params es)) as Hdesc.
  pose proof (title_stage_subseq query_params es) as Htitle.
  assert (Hto_desc : subseq (limit_stage query_params l4)
                            (description_stage query_params
                               (title_stage query_params es))).
  { eapply subseq_trans; [exact Hlim |].
    eapply subseq_trans; [exact Hsub4 | exact Hsub3]. }
  repeat match goal with |- _ /\ _ => split end.
  - eapply subseq_trans; [exact Hto_desc |].
    eapply subseq_trans; [exact Hdesc | exact Htitle].
  - intros q Hq.
    eapply subseq_Forall;
      [eapply subseq_trans; [exact Hto_desc | exact Hdesc] |].
    unfold title_stage. rewrite Hq.
    apply (Forall_filter_true
             (fun e => str_contains (str_lower q) (str_lower (title e)))).
  - intros q Hq. eapply subseq_Forall; [exact Hto_desc |].
    unfold description_stage. rewrite Hq.
    apply (Forall_filter_true
             (fun e => str_contains (str_lower q) (str_lower (description e)))).
  - intros q bound Hq Hb.
    eapply subseq_Forall;
      [eapply subseq_trans; [exact Hlim | exact Hsub4] |].
    exact (Hfrom q bound Hq Hb).
  - intros q bound Hq Hb. eapply subseq_Forall; [exact Hlim |].
    exact (Hto q bound Hq Hb).
  - intros q n Hq Hn Hpos. unfold limit_stage. rewrite Hq, Hn.
    rewrite slice_to_nonneg by assumption. rewrite length_firstn. lia.
Qed.

End FilterEntries.

Lemma filter_entries_sound_witness :
  subseq [sample_entry "May" "Wed, 01 May 2024 00:00:00 GMT" "g3"]
         [sample_entry "Jun" "Sat, 01 Jun 2024 00:00:00 GMT" "g2";
          sample_entry "May" "Wed, 01 May 2024 00:00:00 GMT" "g3"].
Proof.
  apply (@filter_entries_sound cpython
           [("title", "MAY"); ("from_date", "2024-01-01"); ("limit", "5")]
           [sample_entry "Jun" "Sat, 01 Jun 2024 00:00:00 GMT" "g2";
            sample_entry "May" "Wed, 01 May 2024 00:00:00 GMT" "g3"]
           [sample_entry "May" "Wed, 01 May 2024 00:00:00 GMT" "g3"]
           (sample_state two_feeds noon_2024_03_01)
           (snd (filter_entries
                   [("title", "MAY"); ("from_date", "2024-01-01");
                    ("limit", "5")]
                   [sample_entry "Jun" "Sat, 01 Jun 2024 00:00:00 GMT" "g2";
                    sample_entry "May" "Wed, 01 May 2024 00:00:00 GMT" "g3"]
                   (sample_state two_feeds noon_2024_03_01)))).
  apply pair_of_fst. vm_compute. reflexivity.
Defined.

(* ================================================================== *)
(** * The read paths leave the store alone *)
(* ================================================================== *)

Lemma same_store_refl (st : State) : same_store st st.
Proof. unfold same_store. auto. Qed.

Lemma same_store_trans (a b c : State) :
  same_store a b -> same_store b c -> same_store a c.
Proof.
  unfold same_store. intros (-> & -> & -> & ->) (-> & -> & -> & ->). auto.
Qed.

Lemma preserves_ret {A : Type} (a : A) : preserves (ret a).
Proof. intros st. apply same_store_refl. Qed.

Lemma preserves_lift {A : Type} (r : res A) : preserves (lift r).
Proof. intros st. apply same_store_refl. Qed.

Lemma preserves_bind {A B : Type} (m : M A) (k : A -> M B) :
  preserves m -> (forall a, preserves (k a)) -> preserves (bind m k).
Proof.
  intros Hm Hk st. unfold bind. specialize (Hm st).
  destruct (m st) as [[a | e |] st1]; cbn [snd] in *; try assumption.
  eapply same_store_trans; [exact Hm | apply Hk].
Qed.

Lemma preserves_try_except_ValueError {A : Type} (m h : M A) :
  preserves m -> preserves h -> preserves (try_except_ValueError m h).
Proof.
  intros Hm Hh st. unfold try_except_ValueError. specialize (Hm st).
  destruct (m st) as [[a | [] |] st1]; cbn [snd] in *; try assumption.
  eapply same_store_trans; [exact Hm | apply Hh].
Qed.

Lemma preserves_try_except {A : Type} (m : M A) (h : exn -> M A) :
  preserves m -> (forall e, preserves (h e)) -> preserves (try_except m h).
Proof.
  intros Hm Hh st. unfold try_except. specialize (Hm st).
  destruct (m st) as [[a | e |] st1]; cbn [snd] in *; try assumption.
  eapply same_store_trans; [exact Hm | apply Hh].
Qed.

Lemma preserves_filterM {A : Type} (p : A -> M bool) (l : list A) :
  (forall x, preserves (p x)) -> preserves (filterM p l).
Proof.
  intros Hp. induction l as [| x l IH]; cbn [filterM].
  - apply preserves_ret.
  - apply preserves_bind; [apply Hp |]. intros b.
    apply preserves_bind; [exact IH |]. intros r. apply preserves_ret.
Qed.

Lemma preserves_mapM {A B : Type} (f : A -> M B) (l : list A) :
  (forall x, preserves (f x)) -> preserves (mapM f l).
Proof.
  intros Hf. induction l as [| x l IH]; cbn [mapM].
  - apply preserves_ret.
  - apply preserves_bind; [apply Hf |]. intros y.
    apply preserves_bind; [exact IH |]. intros r. apply preserves_ret.
Qed.

Lemma preserves_datetime_now : preserves datetime_now.
Proof. intros st. unfold same_store, datetime_now. cbn. auto. Qed.

Lemma preserves_or_uuid4 (o : option string) : preserves (or_uuid4 o).
Proof.
  intros st. destruct (or_uuid4_spec o st) as (g & st1 & -> & _ & H & _).
  exact H.
Qed.

Lemma preserves_FeedEntry_init (t l d p : string) (g i : option string) :
  preserves (FeedEntry_init t l d p g i).
Proof.
  unfold FeedEntry_init. apply preserves_bind; [apply preserves_or_uuid4 |].
  intros x. apply preserves_ret.
Qed.

Lemma preserves_RssFeed_init (t l d g : string) (fid i : option string) :
  preserves (RssFeed_init t l d g fid i).
Proof.
  unfold RssFeed_init. apply preserves_bind; [apply preserves_or_uuid4 |].
  intros x. apply preserves_ret.
Qed.

Section ReadPaths.
Context {cfg : Config} {lib : PyLib}.

Lemma preserves_parse_date (date_str : string) : preserves (_parse_date date_str).
Proof.
  unfold _parse_date. apply preserves_try_except.
  - destruct (try_formats date_str formats);
      [apply preserves_ret | apply preserves_datetime_now].
  - intros e. apply preserves_datetime_now.
Qed.

Lemma preserves_date_stage (criterion : option string)
    (test : comparison -> bool) (l : list FeedEntry) :
  preserves (date_stage criterion test l).
Proof.
  unfold date_stage. destruct criterion as [q |]; [| apply preserves_ret].
  apply preserves_try_except_ValueError; [| apply preserves_ret].
  destruct (fromisoformat q); [| apply preserves_lift].
  apply preserves_filterM. intros e.
  apply preserves_bind; [apply preserves_parse_date |].
  intros parsed. apply preserves_lift.
Qed.

Lemma preserves_filter_entries (query_params : dict string)
    (es : list FeedEntry) :
  preserves (filter_entries query_params es).
Proof.
  intros st. rewrite filter_entries_stages. revert st.
  apply preserves_bind; [apply preserves_date_stage |]. intros l3.
  apply preserves_bind; [apply preserves_date_stage |]. intros l4.
  apply preserves_ret.
Qed.

Lemma preserves_filter_feed (query_params : dict string) (feed : RssFeed) :
  preserves (filter_feed query_params feed).
Proof.
  unfold filter_feed.
  apply preserves_bind; [apply preserves_RssFeed_init |]. intros c.
  apply preserves_bind; [apply preserves_filter_entries |]. intros es.
  apply preserves_ret.
Qed.

Lemma preserves_filter_feeds (query_params : dict string) :
  preserves (filter_feeds query_params).
Proof.
  intros st. rewrite filter_feeds_mapM.
  cbn [snd]. apply preserves_mapM. apply preserves_filter_feed.
Qed.

Lemma preserves_combine_entries (feed : RssFeed) (todo : list FeedEntry)
    (combined : RssFeed) :
  preserves (combine_entries feed todo combined).
Proof.
  revert combined. induction todo as [| e todo IH]; intros combined;
    cbn [combine_entries].
  - apply preserves_ret.
  - apply preserves_bind; [apply preserves_FeedEntry_init |].
    intros c. apply IH.
Qed.

Lemma preserves_combine_feeds (todo : list RssFeed) (combined : RssFeed) :
  preserves (combine_feeds todo combined).
Proof.
  revert combined. induction todo as [| f todo IH]; intros combined;
    cbn [combine_feeds].
  - apply preserves_ret.
  - apply preserves_bind; [apply preserves_combine_entries |].
    intros c. apply IH.
Qed.

Lemma preserves_get_state : preserves get_state.
Proof. intros st. apply same_store_refl. Qed.

Lemma preserves_sort_entries_by_date (l : list FeedEntry) :
  preserves (sort_entries_by_date l).
Proof.
  unfold sort_entries_by_date.
  apply preserves_bind.
  - apply preserves_mapM. intros e.
    apply preserves_bind; [apply preserves_parse_date |].
    intros parsed. apply preserves_ret.
  - intros keyed. apply preserves_bind; [apply preserves_lift |].
    intros sorted. apply preserves_ret.
Qed.

Lemma preserves_search_feeds (query_params : dict string) (url : string) :
  preserves (search_feeds query_params url).
Proof.
  unfold search_feeds.
  apply preserves_bind; [apply preserves_filter_feeds |].
  intros filtered. destruct (String.eqb _ "xml"); [| apply preserves_ret].
  apply preserves_bind; [| intros c; apply preserves_ret].
  unfold search_combined.
  apply preserves_bind; [apply preserves_RssFeed_init |].
  intros c. apply preserves_combine_feeds.
Qed.

Lemma preserves_get_all_feeds_xml (host_url : string) :
  preserves (get_all_feeds_xml host_url).
Proof.
  unfold get_all_feeds_xml, all_feeds_combined, merge_all_feeds,
    get_all_feeds.
  apply preserves_bind; [| intros c; apply preserves_ret].
  apply preserves_bind.
  - apply preserves_bind; [apply preserves_RssFeed_init |]. intros c.
    apply preserves_bind.
    + apply preserves_bind; [apply preserves_get_state |].
      intros st. apply preserves_ret.
    + intros all. apply preserves_combine_feeds.
  - intros c. apply preserves_bind; [apply preserves_sort_entries_by_date |].
    intros sorted. apply preserves_ret.
Qed.

(** The read paths change neither the feeds in memory, nor the file,
    nor the number of saves, whether they return or raise:
    [filter_feeds], [GET /feeds/search] in both formats and
    [GET /feeds/xml] move at most the clock and the random source. *)
Theorem read_paths_leave_store (query_params : dict string)
    (url host_url : string) :
  preserves (filter_feeds query_params)
  /\ preserves (search_feeds query_params url)
  /\ preserves (get_all_feeds_xml host_url).
Proof.
  split; [apply preserves_filter_feeds | split].
  - apply preserves_search_feeds.
  - apply preserves_get_all_feeds_xml.
Qed.

(** A filtered feed is the stored feed with entries left out: same
    title, link, description, language, id and image. *)
Lemma filter_feed_shrunk (query_params : dict string) (feed feed' : RssFeed)
    (st st' : State) :
  truthy (feed_id feed) = true ->
  filter_feed query_params feed st = (Ok feed', st') ->
  shrunk feed feed'.
Proof.
  intros Hid. unfold filter_feed, RssFeed_init, bind.
  rewrite or_uuid4_truthy by assumption. unfold ret at 1.
  destruct (filter_entries query_params (entries feed) st)
    as [[kept | e |] st1] eqn:Ef; try discriminate.
  unfold ret. intros [= <- <-]. unfold shrunk. cbn [set_entries entries].
  split; [now destruct feed |].
  now apply (filter_entries_subseq _ _ _ Ef).
Qed.

Lemma mapM_filter_feed_shrunk (query_params : dict string)
    (fs outs : list RssFeed) (st st' : State) :
  forallb feed_ok fs = true ->
  mapM (filter_feed query_params) fs st = (Ok outs, st') ->
  Forall2 shrunk fs outs.
Proof.
  revert outs st. induction fs as [| f fs IH]; intros outs st Hok;
    cbn [mapM].
  - unfold ret. intros [= <- <-]. constructor.
  - cbn [forallb] in Hok. apply andb_prop in Hok as [Hf Hfs].
    unfold bind.
    destruct (filter_feed query_params f st) as [[f' | e |] st1] eqn:E1;
      try discriminate.
    destruct (mapM (filter_feed query_params) fs st1)
      as [[r | e |] st2] eqn:E2; try discriminate.
    unfold ret. intros [= <- <-]. constructor.
    + eapply filter_feed_shrunk; [| exact E1].
      unfold feed_ok in Hf. now apply andb_prop in Hf as [Hf _].
    + eapply IH; eassumption.
Qed.

(** Every feed [filter_feeds] returns is a feed of the store with its
    metadata as stored and a subsequence of its entries; the store
    itself is as it was. *)
Theorem filter_feeds_returns_shrunk_feeds (query_params : dict string)
    (result : list RssFeed) (st st' : State) :
  store_ok (feeds st) = true ->
  filter_feeds query_params st = (Ok result, st') ->
  Forall (fun feed' => exists fid feed,
                         In (fid, feed) (feeds st) /\ shrunk feed feed')
         result
  /\ feeds st' = feeds st.
Proof.
  intros [_ Hok]%andb_prop Hrun. split.
  - rewrite filter_feeds_mapM in Hrun.
    destruct (mapM (filter_feed query_params) (dict_values (feeds st)) st)
      as [[outs | e |] st1] eqn:Em; cbn in Hrun; try discriminate.
    injection Hrun as <- <-.
    assert (Hvals : forallb feed_ok (dict_values (feeds st)) = true).
    { unfold dict_values. rewrite forallb_forall in *.
      intros f (kv & <- & Hin)%in_map_iff. now apply Hok. }
    pose proof (mapM_filter_feed_shrunk _ _ _ Hvals Em) as H2.
    apply Forall_forall. intros f' [Hin _]%filter_In.
    clear - H2 Hin. unfold dict_values in H2.
    remember (map snd (feeds st)) as vals eqn:Ev.
    revert Ev. generalize (feeds st) as fs.
    induction H2 as [| f o vals outs Hfo H2 IH]; intros fs Ev.
    + destruct Hin.
    + destruct fs as [| [k v] fs]; [discriminate |]. cbn in Ev.
      injection Ev as -> ->. destruct Hin as [<- | Hin].
      * exists k, v. split; [now left | assumption].
      * destruct (IH Hin fs eq_refl) as (k' & v' & Hin' & Hs).
        exists k', v'. split; [now right | assumption].
  - pose proof (preserves_filter_feeds query_params st) as (H & _).
    rewrite Hrun in H. exact H.
Qed.

End ReadPaths.

Lemma filter_feeds_returns_shrunk_feeds_witness :
  feeds (snd (filter_feeds [("title", "MAY")]
                (sample_state two_feeds noon_2024_03_01)))
  = two_feeds.
Proof.
  apply (@filter_feeds_returns_shrunk_feeds cpython [("title", "MAY")]
           [sample_feed "b" "Feed B"
              [sample_entry "May" "Wed, 01 May 2024 00:00:00 GMT" "g3"]]
           (sample_state two_feeds noon_2024_03_01)).
  - reflexivity.
  - apply pair_of_fst. vm_compute. reflexivity.
Defined.

(* ================================================================== *)
(** * The retention sweep only removes entries, and always returns *)
(* ================================================================== *)

Lemma shrunk_refl (feed : RssFeed) : shrunk feed feed.
Proof. split; [now destruct feed | apply subseq_refl]. Qed.

Lemma shrunk_trans (a b c : RssFeed) : shrunk a b -> shrunk b c -> shrunk a c.
Proof.
  intros [Hb Hab] [Hc Hbc]. split.
  - rewrite Hc, Hb. now destruct a.
  - eapply subseq_trans; eassumption.
Qed.

Lemma store_shrunk_refl (d : dict RssFeed) : store_shrunk d d.
Proof.
  unfold store_shrunk. induction d; constructor; auto using shrunk_refl.
Qed.

Lemma store_shrunk_trans (a b c : dict RssFeed) :
  store_shrunk a b -> store_shrunk b c -> store_shrunk a c.
Proof.
  unfold store_shrunk. intros Hab. revert c.
  induction Hab as [| x y a b [Hk Hs] Hab IH]; intros c Hbc;
    inversion Hbc as [| ? z ? c' [Hk' Hs'] Hbc']; subst; constructor.
  - split; [congruence | eapply shrunk_trans; eassumption].
  - now apply IH.
Qed.

Lemma store_shrunk_keys (orig cur : dict RssFeed) :
  store_shrunk orig cur -> dict_keys cur = dict_keys orig.
Proof.
  unfold store_shrunk, dict_keys.
  induction 1 as [| x y a b [Hk _] _ IH]; cbn; congruence.
Qed.

Lemma store_shrunk_set (orig cur : dict RssFeed) (fid : string)
    (feed feed' : RssFeed) :
  NoDup (dict_keys orig) ->
  store_shrunk orig cur ->
  In (fid, feed) orig ->
  shrunk feed feed' ->
  store_shrunk orig (dict_set fid feed' cur).
Proof.
  unfold store_shrunk. intros Hnd H. revert Hnd.
  induction H as [| [k v] [k' v'] orig cur [Hk Hs] H IH]; intros Hnd Hin Hsh.
  - destruct Hin.
  - cbn [fst snd] in *. subst k'. cbn [dict_keys map fst] in Hnd.
    inversion Hnd as [| ? ? Hk Hnd']; subst. cbn [dict_set].
    destruct (String.eqb_spec fid k) as [-> | Hne].
    + destruct Hin as [[= ->] | Hin].
      * constructor; [split; [reflexivity | assumption] | assumption].
      * exfalso. apply Hk. unfold dict_keys.
        change k with (fst (k, feed)). now apply in_map.
    + destruct Hin as [[= -> ->] | Hin]; [congruence |].
      constructor; [split; [reflexivity | assumption] |].
      now apply IH.
Qed.

Lemma modelledM_filterM {A : Type} (p : A -> M bool) (l : list A) :
  (forall x, modelledM (p x)) -> modelledM (filterM p l).
Proof.
  intros Hp. unfold modelledM, modelled in *.
  induction l as [| x l IH]; intros st; cbn [filterM].
  - discriminate.
  - unfold bind. pose proof (Hp x st) as Hx.
    destruct (p x st) as [[b | e |] st1]; cbn in *.
    + pose proof (IH st1) as Hl.
      destruct (filterM p l st1) as [[r | e |] st2]; cbn in *; congruence.
    + discriminate.
    + congruence.
Qed.

Section Sweep.
Context {cfg : Config} {lib : PyLib}.

Lemma parse_date_modelled (date_str : string) : modelledM (_parse_date date_str).
Proof.
  intros st. destruct (parse_date_returns date_str st) as (d & st' & -> & _).
  discriminate.
Qed.

Lemma still_recent_modelled (cutoff_date : datetime) (entry : FeedEntry) :
  modelledM (still_recent cutoff_date entry).
Proof.
  intros st. unfold still_recent, bind, lift.
  destruct (parse_date_returns (pub_date entry) st) as (d & st' & -> & _).
  cbn [fst]. unfold dt_gt, dt_cmp.
  destruct (utcoffset d), (utcoffset cutoff_date); discriminate.
Qed.

Lemma still_recent_preserves (cutoff_date : datetime) (entry : FeedEntry) :
  preserves (still_recent cutoff_date entry).
Proof.
  unfold still_recent. apply preserves_bind; [apply preserves_parse_date |].
  intros parsed. apply preserves_lift.
Qed.

Lemma cleanup_feeds_shrinks (cutoff_date : datetime) (orig todo : dict RssFeed)
    (feeds_modified : bool) (st st' : State) (r : res bool) :
  NoDup (dict_keys orig) ->
  incl todo orig ->
  store_shrunk orig (feeds st) ->
  cleanup_feeds cutoff_date todo feeds_modified st = (r, st') ->
  modelled r
  /\ store_shrunk orig (feeds st')
  /\ storage_file st' = storage_file st
  /\ saves st' = saves st
  /\ disk st' = disk st.
Proof.
  intros Hnd. revert feeds_modified st.
  induction todo as [| [fid feed] todo IH];
    intros feeds_modified st Hincl Hsh Hrun.
  - cbn in Hrun. injection Hrun as <- <-.
    repeat split; [discriminate | assumption].
  - cbn [cleanup_feeds] in Hrun. fold (still_recent cutoff_date) in Hrun.
    unfold bind at 1 in Hrun.
    pose proof (modelledM_filterM (still_recent cutoff_date) (entries feed)
                  (still_recent_modelled cutoff_date) st) as Hm.
    pose proof (preserves_filterM (still_recent cutoff_date) (entries feed)
                  (still_recent_preserves cutoff_date) st)
      as (Hf & Hfile & Hsv & Hdk).
    destruct (filterM (still_recent cutoff_date) (entries feed) st)
      as [[kept | e |] st1] eqn:Ef; cbn [fst snd] in *.
    + unfold bind at 1, modify at 1 in Hrun.
      apply IH in Hrun as (H1 & H2 & H3 & H4 & H5).
      * unfold set_feeds in H3, H4, H5. cbn [storage_file saves disk] in H3, H4, H5.
        repeat split; try assumption; congruence.
      * intros x Hx. apply Hincl. now right.
      * unfold set_feeds. cbn [feeds]. rewrite Hf.
        apply store_shrunk_set with (feed := feed); try assumption.
        -- apply Hincl. now left.
        -- split; [now destruct feed |]. cbn [set_entries entries].
           now apply (filterM_kept _ _ _ Ef).
    + injection Hrun as <- <-. rewrite Hf.
      repeat split; try assumption. discriminate.
    + now exfalso.
Qed.

Lemma cleanup_iteration_outcome (st : State) :
  NoDup (dict_keys (feeds st)) ->
  exists st',
    cleanup_iteration st = (Ok tt, st')
    /\ store_shrunk (feeds st) (feeds st')
    /\ ((saves st' = saves st /\ storage_file st' = storage_file st)
        \/ saved_once st st')
    /\ disk st' = disk st.
Proof.
  intros Hnd. unfold cleanup_iteration, try_except, bind at 1.
  destruct (datetime_now_ok st) as (st0 & -> & Hf0 & Hfile0 & Hsv0 & Hdk0).
  unfold bind at 1, lift at 1.
  destruct (dt_sub_days (clock_now st) HISTORY_DAYS) as [cutoff | e |] eqn:Ec.
  - unfold bind at 1, get_state at 1. unfold bind at 1.
    destruct (cleanup_feeds cutoff (feeds st0) false st0) as [r st1] eqn:Erun.
    apply cleanup_feeds_shrinks with (orig := feeds st0) in Erun
      as (Hm & Hsh & Hfile & Hsv & Hdk);
      [| now rewrite Hf0 | apply incl_refl | apply store_shrunk_refl].
    rewrite Hf0 in Hsh.
    destruct r as [[|] | e |].
    + eexists. split; [unfold save, modify; reflexivity |].
      cbn [feeds disk]. split; [assumption |]. split; [| congruence]. right.
      apply save_saved_once with (st0 := st); congruence.
    + unfold ret. eexists. split; [reflexivity |].
      split; [assumption |]. split; [| congruence]. left. split; congruence.
    + unfold ret. eexists. split; [reflexivity |].
      split; [assumption |]. split; [| congruence]. left. split; congruence.
    + now exfalso.
  - unfold ret. eexists. split; [reflexivity |].
    rewrite Hf0. split; [apply store_shrunk_refl |].
    split; [| congruence]. left. split; congruence.
  - unfold dt_sub_days in Ec. destruct (_ && _); discriminate.
Qed.

(** A turn of the sweep always returns, whatever the dates: an exception
    inside it is caught.  After it the store holds the same ids in the
    same order, each feed with its metadata and a subsequence of its
    entries; and either [save] was not called and the file is what it
    was, or [save] was called once: the file then holds what memory
    holds if the write went through, and otherwise is what it was
    ([open] refused) or no JSON (writing stopped). *)
Theorem cleanup_iteration_only_shrinks (st : State) :
  NoDup (dict_keys (feeds st)) ->
  exists st',
    cleanup_iteration st = (Ok tt, st')
    /\ store_shrunk (feeds st) (feeds st')
    /\ ((saves st' = saves st /\ storage_file st' = storage_file st)
        \/ saved_once st st').
Proof.
  intros Hnd.
  destruct (cleanup_iteration_outcome st Hnd) as (st' & Hrun & Hsh & Hsv & _).
  exists st'. auto.
Qed.

(** The thread survives its errors: any number of turns return, and
    through them the store keeps its ids and only loses entries. *)
Theorem cleanup_old_entries_returns (n : nat) (st : State) :
  NoDup (dict_keys (feeds st)) ->
  exists st',
    _cleanup_old_entries n st = (Ok tt, st')
    /\ store_shrunk (feeds st) (feeds st')
    /\ (saves st <= saves st' <= saves st + n)%nat.
Proof.
  revert st. induction n as [| n IH]; intros st Hnd; cbn [_cleanup_old_entries].
  - exists st. unfold ret. split; [reflexivity |].
    split; [apply store_shrunk_refl | lia].
  - unfold bind.
    destruct (cleanup_iteration_outcome st Hnd) as (st1 & -> & Hsh & Hsv & _).
    destruct (IH st1) as (st2 & -> & Hsh2 & Hsv2).
    + now rewrite (store_shrunk_keys Hsh).
    + exists st2. split; [reflexivity |].
      split; [eapply store_shrunk_trans; eassumption |].
      destruct Hsv as [[H _] | [H _]]; lia.
Qed.

End Sweep.

Lemma cleanup_iteration_only_shrinks_witness :
  store_shrunk mixed_feeds
    (feeds (snd (@cleanup_iteration (config 30 100) cpython
                   (sample_state mixed_feeds noon_2024_03_01)))).
Proof.
  destruct (@cleanup_iteration_only_shrinks (config 30 100) cpython
              (sample_state mixed_feeds noon_2024_03_01))
    as (st' & Hrun & Hsh & _).
  - cbn. repeat constructor; cbn; intuition discriminate.
  - rewrite Hrun. exact Hsh.
Defined.

Lemma cleanup_old_entries_returns_witness :
  fst (@_cleanup_old_entries (config 30 100) cpython 3
         (sample_state mixed_feeds noon_2024_03_01))
  = Ok tt.
Proof.
  destruct (@cleanup_old_entries_returns (config 30 100) cpython 3
              (sample_state mixed_feeds noon_2024_03_01))
    as (st' & Hrun & _).
  - cbn. repeat constructor; cbn; intuition discriminate.
  - rewrite Hrun. reflexivity.
Defined.

(* ================================================================== *)
(** * The retention sweep on naive dates *)
(* ================================================================== *)

Lemma dict_set_middle {V : Type} (k : string) (v x : V) (pre post : dict V) :
  ~ In k (dict_keys pre) ->
  dict_set k v (pre ++ (k, x) :: post) = pre ++ (k, v) :: post.
Proof.
  induction pre as [| [k' v'] pre IH]; cbn; intros Hnin.
  - now rewrite String.eqb_refl.
  - destruct (String.eqb_spec k k') as [-> | Hne].
    + exfalso. apply Hnin. now left.
    + f_equal. apply IH. intros Hin. apply Hnin. now right.
Qed.

Lemma filter_shorter {A : Type} (p : A -> bool) (l : list A) :
  (List.length (filter p l) <? List.length l)%nat
  = existsb (fun x => negb (p x)) l.
Proof.
  induction l as [| x l IH]; cbn [filter existsb List.length]; [reflexivity |].
  pose proof (filter_length_le p l) as Hle.
  destruct (p x); cbn [negb orb List.length].
  - rewrite <- IH. destruct (Nat.ltb_spec (List.length (filter p l))
                                          (List.length l));
      destruct (Nat.ltb_spec (S (List.length (filter p l)))
                             (S (List.length l))); lia || reflexivity.
  - apply Nat.ltb_lt. lia.
Qed.

Section SweepNaive.
Context {cfg : Config} {lib : PyLib}.

Lemma still_recent_naive (cutoff_date : datetime) (e : FeedEntry) (st : State) :
  utcoffset cutoff_date = None ->
  naive_date e ->
  still_recent cutoff_date e st = (Ok (recent cutoff_date e), st).
Proof.
  intros Hc (d & Hd & Hnaive).
  unfold still_recent, bind, lift, _parse_date, try_except, recent.
  unfold parsed_date in *. rewrite Hd. unfold ret, dt_gt, dt_cmp.
  rewrite Hnaive, Hc. reflexivity.
Qed.

Lemma filterM_still_recent_naive (cutoff_date : datetime) (l : list FeedEntry)
    (st : State) :
  utcoffset cutoff_date = None ->
  Forall naive_date l ->
  filterM (still_recent cutoff_date) l st
  = (Ok (filter (recent cutoff_date) l), st).
Proof.
  intros Hc Hall. induction Hall as [| e l He Hall IH]; cbn [filterM filter].
  - reflexivity.
  - unfold bind. rewrite still_recent_naive by assumption.
    fold (@bind (list FeedEntry) (list FeedEntry)). unfold bind.
    rewrite IH. reflexivity.
Qed.

Lemma cleanup_feeds_naive (cutoff_date : datetime) (done todo : dict RssFeed)
    (feeds_modified : bool) (st : State) :
  utcoffset cutoff_date = None ->
  NoDup (dict_keys (done ++ todo)) ->
  Forall (fun kv => Forall naive_date (entries (snd kv))) todo ->
  feeds st = map (swept cutoff_date) done ++ todo ->
  cleanup_feeds cutoff_date todo feeds_modified st
  = (Ok (feeds_modified || some_stale cutoff_date todo),
     set_feeds (map (swept cutoff_date) (done ++ todo)) st).
Proof.
  intros Hc. revert done feeds_modified st.
  induction todo as [| [fid feed] todo IH];
    intros done feeds_modified st Hnd Hall Hfeeds.
  - cbn. rewrite app_nil_r in *. rewrite orb_false_r, <- Hfeeds.
    unfold ret. now destruct st.
  - inversion Hall as [| ? ? Hfeed Hall']; subst. cbn [snd] in Hfeed.
    cbn [cleanup_feeds]. fold (still_recent cutoff_date).
    unfold bind at 1. rewrite filterM_still_recent_naive by assumption.
    unfold bind at 1, modify at 1.
    rewrite (IH (done ++ [(fid, feed)])).
    + rewrite <- app_assoc. cbn [app]. rewrite filter_shorter.
      unfold some_stale, set_feeds. cbn [existsb snd].
      destruct (existsb _ (entries feed)), feeds_modified; reflexivity.
    + now rewrite <- app_assoc.
    + assumption.
    + unfold set_feeds. cbn [feeds]. rewrite Hfeeds.
      rewrite dict_set_middle.
      * rewrite map_app, <- app_assoc. reflexivity.
      * unfold dict_keys in *. rewrite map_app in Hnd. cbn in Hnd.
        apply NoDup_remove_2 in Hnd. rewrite map_map. cbn [swept fst].
        intros Hin. apply Hnd. apply in_or_app. now left.
Qed.

(** The sweep on dates that parse to naive datetimes (the RFC 822
    forms): when the cutoff [now - HISTORY_DAYS] is a date, a turn
    leaves in every feed exactly the entries dated strictly after the
    cutoff, in their order; it calls [save] once if some entry was
    removed (the file then holds what memory holds if the write went
    through, and otherwise is what it was or no JSON), and does not
    call it otherwise. *)
Theorem cleanup_iteration_naive_dates (cutoff_date : datetime) (st : State) :
  NoDup (dict_keys (feeds st)) ->
  dt_sub_days (clock_now st) HISTORY_DAYS = Ok cutoff_date ->
  Forall (fun kv => Forall naive_date (entries (snd kv))) (feeds st) ->
  exists st',
    cleanup_iteration st = (Ok tt, st')
    /\ feeds st' = map (swept cutoff_date) (feeds st)
    /\ if some_stale cutoff_date (feeds st)
       then saved_once st st'
       else saves st' = saves st /\ storage_file st' = storage_file st.
Proof.
  intros Hnd Hcut Hall.
  assert (Hc : utcoffset cutoff_date = None).
  { unfold dt_sub_days in Hcut. destruct (_ && _); [| discriminate].
    injection Hcut as <-. reflexivity. }
  unfold cleanup_iteration, try_except, bind at 1.
  destruct (datetime_now_ok st) as (st0 & -> & Hf0 & Hfile0 & Hsv0 & Hdk0).
  unfold bind at 1, lift at 1. rewrite Hcut.
  unfold bind at 1, get_state at 1. unfold bind at 1.
  rewrite cleanup_feeds_naive with (done := []);
    [| assumption | now rewrite Hf0 | now rewrite Hf0 | reflexivity].
  cbn [app orb]. rewrite Hf0.
  destruct (some_stale cutoff_date (feeds st)).
  - eexists. split; [unfold save, modify; reflexivity |].
    split; [reflexivity |].
    apply save_saved_once with (st0 := st); assumption.
  - unfold ret, set_feeds. eexists. split; [reflexivity |]. cbn. auto.
Qed.

End SweepNaive.

Lemma cleanup_iteration_naive_dates_witness :
  feeds (snd (@cleanup_iteration (config 30 100) cpython
                (sample_state rfc822_feeds noon_2024_03_01)))
  = [("a", sample_feed "a" "Feed A"
             [sample_entry "recent" "Tue, 20 Feb 2024 12:00:00 GMT" "g1"])].
Proof.
  destruct (@cleanup_iteration_naive_dates (config 30 100) cpython
              (mkDatetime (noon_2024_03_01 - 30 * MICROS_PER_DAY) None)
              (sample_state rfc822_feeds noon_2024_03_01))
    as (st' & Hrun & Hfeeds & _).
  - cbn. repeat constructor; cbn; intuition discriminate.
  - vm_compute. reflexivity.
  - repeat constructor; cbn [snd entries sample_feed];
      eexists; (split; [vm_compute; reflexivity | reflexivity]).
  - rewrite Hrun. cbn [snd]. rewrite Hfeeds. vm_compute. reflexivity.
Defined.

(* ================================================================== *)
(** * [list.sort(key=..., reverse=True)] on dates *)
(* ================================================================== *)

Lemma dt_cmp_same_kind (a b : datetime) :
  aware a = aware b -> dt_cmp a b = Ok (instant a ?= instant b).
Proof.
  unfold aware, dt_cmp, instant.
  destruct (utcoffset a), (utcoffset b); intros H; try discriminate;
    reflexivity.
Qed.

Lemma dt_cmp_other_kind (a b : datetime) :
  aware a <> aware b -> dt_cmp a b = Raise TypeError.
Proof.
  unfold aware, dt_cmp.
  destruct (utcoffset a), (utcoffset b); intros H; try reflexivity;
    now contradiction H.
Qed.

Section SortDesc.
Context {A : Type}.
Implicit Types (x y : datetime * A) (l s : list (datetime * A)).

Lemma insert_desc_same_kind x s :
  Forall (fun y => aware (fst y) = aware (fst x)) s ->
  StronglySorted later_first s ->
  exists r,
    insert_desc x s = Ok r
    /\ Permutation r (x :: s)
    /\ StronglySorted later_first r
    /\ forall v, with_instant v r = with_instant v (x :: s).
Proof.
  induction s as [| y s IH]; intros Hkind Hsorted.
  - exists [x]. cbn. repeat split; auto. repeat constructor.
  - inversion Hkind as [| ? ? Hy Hkind']; subst.
    apply StronglySorted_inv in Hsorted as [Hsorted Hy_first].
    cbn [insert_desc]. rewrite dt_cmp_same_kind by assumption.
    destruct (Z.compare_spec (instant (fst y)) (instant (fst x)))
      as [Heq | Hlt | Hgt].
    + exists (x :: y :: s). repeat split; auto.
      constructor; [now constructor |]. constructor.
      * unfold later_first. lia.
      * eapply Forall_impl; [| exact Hy_first]. unfold later_first.
        intros z Hz. lia.
    + exists (x :: y :: s). repeat split; auto.
      constructor; [now constructor |]. constructor.
      * unfold later_first. lia.
      * eapply Forall_impl; [| exact Hy_first]. unfold later_first.
        intros z Hz. lia.
    + destruct (IH Hkind' Hsorted) as (r & -> & Hperm & Hr & Hstable).
      exists (y :: r). split; [reflexivity |]. split; [| split].
      * rewrite Hperm. apply perm_swap.
      * constructor; [assumption |].
        eapply Permutation_Forall; [symmetry; exact Hperm |].
        constructor; [unfold later_first; lia | assumption].
      * intros v. unfold with_instant in *. cbn [filter].
        specialize (Hstable v). cbn [filter] in Hstable. rewrite Hstable.
        destruct (Z.eqb_spec (instant (fst y)) v),
                 (Z.eqb_spec (instant (fst x)) v); try reflexivity. lia.
Qed.

Lemma insert_desc_other_kind x y s :
  aware (fst y) <> aware (fst x) ->
  insert_desc x (y :: s) = Raise TypeError.
Proof.
  intros H. cbn [insert_desc]. now rewrite dt_cmp_other_kind.
Qed.

Lemma all_of_kind_Forall (kind : bool) l :
  all_of_kind kind (map fst l) = true
  <-> Forall (fun y => aware (fst y) = kind) l.
Proof.
  unfold all_of_kind. rewrite forallb_forall, Forall_forall. split.
  - intros H y Hy. apply Bool.eqb_prop. apply H. now apply in_map.
  - intros H d (y & <- & Hy)%in_map_iff. rewrite (H y Hy).
    apply Bool.eqb_reflx.
Qed.

(** The sort of a list keyed by datetimes.  With naive and aware keys
    together it raises [TypeError]; otherwise it returns the elements
    by descending key, elements of equal key in the order they had. *)
Theorem sort_desc_outcome l :
  if mixed (map fst l)
  then sort_desc l = Raise TypeError
  else exists s,
         sort_desc l = Ok s
         /\ Permutation s l
         /\ StronglySorted later_first s
         /\ forall v, with_instant v s = with_instant v l.
Proof.
  induction l as [| x l IH].
  - cbn. exists []. repeat split; auto. constructor.
  - cbn [sort_desc map]. unfold mixed in *.
    destruct (all_of_kind true (map fst l) || all_of_kind false (map fst l))
      eqn:Hl; cbn [negb] in IH.
    + destruct IH as (s & -> & Hperm & Hsorted & Hstable).
      destruct l as [| y l'].
      * apply Permutation_sym, Permutation_nil in Hperm. subst s. cbn.
        unfold all_of_kind. cbn.
        destruct (aware (fst x)); cbn;
          (exists [x]; repeat split; auto; repeat constructor).
      * assert (Hkinds : exists kind,
                   Forall (fun z => aware (fst z) = kind) (y :: l')).
        { apply orb_prop in Hl as [H | H]; apply all_of_kind_Forall in H;
            eauto. }
        destruct Hkinds as (kind & Hkind).
        destruct (Bool.bool_dec (aware (fst x)) kind) as [Hx | Hx].
        -- assert (Hall : all_of_kind kind (map fst (x :: y :: l')) = true).
           { apply all_of_kind_Forall. constructor; assumption. }
           assert (Hnot : all_of_kind true (fst x :: map fst (y :: l'))
                          || all_of_kind false (fst x :: map fst (y :: l'))
                          = true).
           { cbn [map] in Hall |- *. destruct kind; rewrite Hall;
               auto using orb_true_r. }
           rewrite Hnot. cbn [negb].
           destruct (insert_desc_same_kind x (s := s))
             as (r & -> & Hp & Hs & Hst).
           ++ eapply Permutation_Forall; [symmetry; exact Hperm |].
              eapply Forall_impl; [| exact Hkind]. cbv beta. congruence.
           ++ assumption.
           ++ exists r. split; [reflexivity |]. split; [| split].
              ** rewrite Hp. now constructor.
              ** assumption.
              ** intros v. rewrite Hst. unfold with_instant in *.
                 cbn [filter]. now rewrite Hstable.
        -- assert (Hnot : all_of_kind true (fst x :: map fst (y :: l'))
                          || all_of_kind false (fst x :: map fst (y :: l'))
                          = false).
           { inversion Hkind as [| ? ? Hy _]; subst.
             unfold all_of_kind. cbn [forallb map].
             destruct (aware (fst x)), (aware (fst y)); cbn; try reflexivity;
               now contradiction Hx. }
           rewrite Hnot. cbn [negb].
           destruct s as [| z s'].
           ++ apply Permutation_nil in Hperm. discriminate.
           ++ apply insert_desc_other_kind.
              assert (Hz : In z (y :: l')).
              { eapply Permutation_in; [exact Hperm | now left]. }
              rewrite Forall_forall in Hkind. rewrite (Hkind z Hz).
              congruence.
    + cbn [negb] in IH. rewrite IH.
      assert (Hnot : all_of_kind true (fst x :: map fst l)
                     || all_of_kind false (fst x :: map fst l) = false).
      { apply orb_false_elim in Hl as [H1 H2]. unfold all_of_kind in *.
        cbn [forallb]. rewrite H1, H2. now rewrite !andb_false_r. }
      rewrite Hnot. reflexivity.
Qed.

End SortDesc.

(* ================================================================== *)
(** * [GET /feeds/xml]: the sorted aggregate *)
(* ================================================================== *)

Section SortedAggregate.
Context {cfg : Config} {lib : PyLib}.

Lemma key_naive (e : FeedEntry) (st : State) :
  naive_date e ->
  (d <- _parse_date (pub_date e) ;; ret (d, e)) st = (Ok (keyed e), st).
Proof.
  intros (d & Hd & _). unfold bind, _parse_date, try_except, keyed, key_of.
  unfold parsed_date in *. rewrite Hd. reflexivity.
Qed.

Lemma mapM_keys_naive (l : list FeedEntry) (st : State) :
  Forall naive_date l ->
  mapM (fun e => d <- _parse_date (pub_date e) ;; ret (d, e)) l st
  = (Ok (map keyed l), st).
Proof.
  induction 1 as [| e l He Hall IH]; cbn [mapM map].
  - reflexivity.
  - unfold bind at 1. rewrite key_naive by assumption.
    unfold bind at 1. rewrite IH. reflexivity.
Qed.

Lemma keyed_not_mixed (l : list FeedEntry) :
  Forall naive_date l -> mixed (map fst (map keyed l)) = false.
Proof.
  intros Hall. unfold mixed.
  assert (H : all_of_kind false (map fst (map keyed l)) = true).
  { apply all_of_kind_Forall. apply Forall_map.
    eapply Forall_impl; [| exact Hall]. cbv beta.
    intros e (d & Hd & Hnaive). unfold keyed, key_of, aware. cbn [fst].
    rewrite Hd, Hnaive. reflexivity. }
  rewrite H. now rewrite orb_true_r.
Qed.

Lemma map_snd_with_instant (v : Z) (s : list (datetime * FeedEntry)) :
  Forall (fun p => fst p = key_of (snd p)) s ->
  map snd (with_instant v s) = dated v (map snd s).
Proof.
  unfold with_instant, dated.
  induction 1 as [| p s Hp Hs IH]; cbn [filter map]; [reflexivity |].
  rewrite <- Hp. destruct (instant (fst p) =? v); cbn [map]; now rewrite IH.
Qed.

(** Sorting entries whose dates parse to naive datetimes: the sort
    returns, the state untouched, the same entries by descending date,
    entries of one date in the order they had. *)
Lemma sort_entries_by_date_naive (l : list FeedEntry) (st : State) :
  Forall naive_date l ->
  exists sorted,
    sort_entries_by_date l st = (Ok sorted, st)
    /\ Permutation sorted l
    /\ StronglySorted newer_first sorted
    /\ forall v, dated v sorted = dated v l.
Proof.
  intros Hall. unfold sort_entries_by_date, bind at 1.
  rewrite mapM_keys_naive by assumption.
  pose proof (sort_desc_outcome (map keyed l)) as Hsort.
  rewrite keyed_not_mixed in Hsort by assumption.
  destruct Hsort as (s & Hs & Hperm & Hsorted & Hstable).
  unfold bind, lift. rewrite Hs. unfold ret.
  assert (Hkeys : Forall (fun p => fst p = key_of (snd p)) s).
  { eapply Permutation_Forall; [symmetry; exact Hperm |].
    apply Forall_map. apply Forall_forall. reflexivity. }
  assert (Hsnd : map snd (map keyed l) = l).
  { rewrite map_map. cbn. apply map_id. }
  exists (map snd s). split; [reflexivity |]. split; [| split].
  - rewrite <- Hsnd at 1. now apply Permutation_map.
  - clear - Hsorted Hkeys. induction Hsorted as [| p s Hs IH Hp]; cbn [map].
    + constructor.
    + inversion Hkeys as [| ? ? Hk Hkeys']; subst.
      constructor; [now apply IH |].
      apply Forall_map. rewrite Forall_forall in *.
      intros q Hq. specialize (Hp q Hq). specialize (Hkeys' q Hq).
      unfold newer_first, later_first in *. now rewrite <- Hk, <- Hkeys'.
  - intros v. rewrite <- map_snd_with_instant by assumption.
    rewrite Hstable. rewrite map_snd_with_instant.
    + now rewrite Hsnd.
    + apply Forall_map. apply Forall_forall. reflexivity.
Qed.

Lemma naive_date_copies (fs : list RssFeed) :
  Forall (fun f => Forall naive_date (entries f)) fs ->
  Forall naive_date (all_copies fs).
Proof.
  unfold all_copies. induction 1 as [| f fs Hf Hfs IH]; cbn [flat_map].
  - constructor.
  - apply Forall_app. split; [| assumption].
    apply Forall_map. eapply Forall_impl; [| exact Hf]. cbv beta.
    intros e He. exact He.
Qed.

(** The aggregate feed behind [GET /feeds/xml], on a store whose dates
    all parse to naive datetimes: it holds the copies the loop kept
    (the last [MAX_ENTRIES_PER_FEED] made), sorted by descending date,
    copies of one date in the order the loop left them; every one is
    the copy of a stored entry under its feed's bracketed title. *)
Theorem all_feeds_combined_sorted (host_url : string) (st : State) :
  0 <= MAX_ENTRIES_PER_FEED ->
  store_ok (feeds st) = true ->
  Forall (fun f => Forall naive_date (entries f)) (dict_values (feeds st)) ->
  exists combined st',
    all_feeds_combined host_url st = (Ok combined, st')
    /\ Permutation (entries combined)
         (firstn (Z.to_nat MAX_ENTRIES_PER_FEED)
                 (rev (all_copies (dict_values (feeds st)))))
    /\ StronglySorted newer_first (entries combined)
    /\ (forall v,
          dated v (entries combined)
          = dated v (firstn (Z.to_nat MAX_ENTRIES_PER_FEED)
                            (rev (all_copies (dict_values (feeds st))))))
    /\ Forall (fun c => exists feed e,
                 In feed (dict_values (feeds st)) /\ In e (entries feed)
                 /\ c = entry_copy feed e)
              (entries combined).
Proof.
  intros Hmax Hok Hdates.
  destruct (merge_all_feeds_entries host_url st Hmax Hok)
    as (merged & st1 & Hmerge & Hentries).
  unfold all_feeds_combined, bind at 1. rewrite Hmerge.
  assert (Hnaive : Forall naive_date (entries merged)).
  { rewrite Hentries.
    eapply subseq_Forall; [apply subseq_firstn |].
    apply Forall_rev. now apply naive_date_copies. }
  destruct (sort_entries_by_date_naive st1 Hnaive)
    as (sorted & Hsort & Hperm & Hsorted & Hstable).
  unfold bind. rewrite Hsort. unfold ret.
  do 2 eexists. split; [reflexivity |].
  destruct merged; cbn [set_entries entries] in *. subst.
  split; [assumption | split; [assumption | split; [assumption |]]].
  eapply Permutation_Forall; [symmetry; exact Hperm |].
  eapply subseq_Forall; [apply subseq_firstn |].
  apply Forall_rev. unfold all_copies. apply Forall_forall.
  intros c (feed & Hfeed & (e & <- & He)%in_map_iff)%in_flat_map.
  exists feed, e. auto.
Qed.

Lemma key_parsed (e : FeedEntry) (st : State) :
  parsed_date e <> None ->
  (d <- _parse_date (pub_date e) ;; ret (d, e)) st = (Ok (keyed e), st).
Proof.
  intros Hd. unfold bind, _parse_date, try_except, keyed, key_of.
  unfold parsed_date in *.
  destruct (try_formats (pub_date e) formats); [reflexivity | congruence].
Qed.

Lemma mapM_keys_parsed (l : list FeedEntry) (st : State) :
  Forall (fun e => parsed_date e <> None) l ->
  mapM (fun e => d <- _parse_date (pub_date e) ;; ret (d, e)) l st
  = (Ok (map keyed l), st).
Proof.
  induction 1 as [| e l He Hall IH]; cbn [mapM map].
  - reflexivity.
  - unfold bind at 1. rewrite key_parsed by assumption.
    unfold bind at 1. rewrite IH. reflexivity.
Qed.

(** [GET /feeds/xml] fails on a store that mixes the two kinds of
    dates: when the copies the loop kept all have dates that parse, one
    of them to an aware datetime (an ISO 8601 date with an offset) and
    one to a naive datetime (an RFC 822 date), the sort raises
    [TypeError] and no document is produced. *)
Theorem all_feeds_combined_mixed_dates (host_url : string) (st : State)
    (ea en : FeedEntry) :
  0 <= MAX_ENTRIES_PER_FEED ->
  store_ok (feeds st) = true ->
  let kept := firstn (Z.to_nat MAX_ENTRIES_PER_FEED)
                     (rev (all_copies (dict_values (feeds st)))) in
  Forall (fun e => parsed_date e <> None) kept ->
  In ea kept -> aware (key_of ea) = true ->
  In en kept -> aware (key_of en) = false ->
  exists st', get_all_feeds_xml host_url st = (Raise TypeError, st').
Proof.
  intros Hmax Hok kept Hparsed Hina Ha Hinn Hn.
  destruct (merge_all_feeds_entries host_url st Hmax Hok)
    as (merged & st1 & Hmerge & Hentries).
  fold kept in Hentries.
  unfold get_all_feeds_xml, all_feeds_combined, bind at 1. unfold bind at 1.
  rewrite Hmerge. unfold bind at 1, sort_entries_by_date, bind at 1.
  rewrite Hentries, mapM_keys_parsed by assumption.
  pose proof (sort_desc_outcome (map keyed kept)) as Hsort.
  assert (Hmixed : mixed (map fst (map keyed kept)) = true).
  { unfold mixed. apply negb_true_iff. apply orb_false_intro.
    - apply not_true_is_false. intros H%all_of_kind_Forall.
      rewrite Forall_forall in H. specialize (H (keyed en)).
      cbn [keyed fst] in H. rewrite Hn in H.
      discriminate H. now apply in_map.
    - apply not_true_is_false. intros H%all_of_kind_Forall.
      rewrite Forall_forall in H. specialize (H (keyed ea)).
      cbn [keyed fst] in H. rewrite Ha in H.
      discriminate H. now apply in_map. }
  rewrite Hmixed in Hsort. unfold bind, lift. rewrite Hsort.
  eexists. reflexivity.
Qed.

End SortedAggregate.

Lemma all_feeds_combined_sorted_witness :
  res_map (fun f => map title (entries f))
    (fst (@all_feeds_combined (config 30 100) cpython "http://host/"
            (sample_state two_feeds noon_2024_03_01)))
  = Ok ["[Feed B] Jun"; "[Feed B] May"; "[Feed A] Jan"].
Proof.
  destruct (@all_feeds_combined_sorted (config 30 100) cpython "http://host/"
              (sample_state two_feeds noon_2024_03_01))
    as (combined & st' & Hrun & _).
  - cbn. lia.
  - reflexivity.
  - repeat constructor; cbn [entries sample_feed];
      eexists; (split; [vm_compute; reflexivity | reflexivity]).
  - vm_compute. reflexivity.
Defined.

Lemma all_feeds_combined_mixed_dates_witness :
  fst (@get_all_feeds_xml (config 30 100) cpython "http://host/"
         (sample_state mixed_feeds noon_2024_03_01))
  = Raise TypeError.
Proof.
  destruct (@all_feeds_combined_mixed_dates (config 30 100) cpython
              "http://host/" (sample_state mixed_feeds noon_2024_03_01)
              (entry_copy (sample_feed "b" "Feed B" [])
                 (sample_entry "old iso" "2024-01-21T12:00:00+0000" "g3"))
              (entry_copy (sample_feed "a" "Feed A" [])
                 (sample_entry "old" "Sun, 21 Jan 2024 12:00:00 GMT" "g2")))
    as (st' & Hrun).
  - cbn. lia.
  - reflexivity.
  - change (Forall (fun e => parsed_date e <> None)
              [entry_copy (sample_feed "b" "Feed B" [])
                 (sample_entry "old iso" "2024-01-21T12:00:00+0000" "g3");
               entry_copy (sample_feed "a" "Feed A" [])
                 (sample_entry "old" "Sun, 21 Jan 2024 12:00:00 GMT" "g2");
               entry_copy (sample_feed "a" "Feed A" [])
                 (sample_entry "recent" "Tue, 20 Feb 2024 12:00:00 GMT" "g1")]).
    repeat constructor; vm_compute; discriminate.
  - left. reflexivity.
  - vm_compute. reflexivity.
  - right. left. reflexivity.
  - vm_compute. reflexivity.
  - rewrite Hrun. reflexivity.
Defined.

(* ================================================================== *)
(** * [to_xml]: the items of the document *)
(* ================================================================== *)

Lemma findall_items (es : list FeedEntry) :
  filter (fun c => String.eqb (tag c) "item") (map item_element es)
  = map item_element es.
Proof.
  induction es as [| e es IH]; cbn [map filter]; [reflexivity |].
  cbn [item_element tag]. cbn. now rewrite IH.
Qed.

Lemma no_image_items (es : list FeedEntry) :
  filter (fun c => String.eqb (tag c) "image") (map item_element es) = [].
Proof. induction es as [| e es IH]; cbn; auto. Qed.

Lemma item_titles_items_of (doc : element) :
  item_titles doc = flat_map (texts "title") (items_of doc).
Proof.
  unfold item_titles, items_of, texts.
  induction (findall "channel" doc) as [| c cs IH]; cbn [flat_map];
    [reflexivity |].
  now rewrite flat_map_app, IH.
Qed.

(** The document [to_xml] builds has one channel, whose [item]
    elements are the entries of the feed, one each, in their order;
    an item carries the entry's title, link, description, date and guid
    (marked as not a permalink), and an [enclosure] of type
    [image/jpeg] exactly when the entry has an image url that is not
    empty.  The channel has an [image] block exactly when the feed has
    an image url that is not empty. *)
Theorem to_xml_items (self : RssFeed) :
  items_of (to_xml self) = map item_element (entries self)
  /\ item_titles (to_xml self) = map title (entries self)
  /\ (forall e,
        texts "title" (item_element e) = [title e]
        /\ texts "link" (item_element e) = [link e]
        /\ texts "description" (item_element e) = [description e]
        /\ texts "pubDate" (item_element e) = [pub_date e]
        /\ texts "guid" (item_element e) = [guid e]
        /\ map attrib (findall "guid" (item_element e))
           = [[("isPermaLink", "false")]]
        /\ map attrib (findall "enclosure" (item_element e))
           = match image_url e with
             | Some (String c u) =>
                 [[("url", String c u); ("type", "image/jpeg")]]
             | _ => []
             end)
  /\ flat_map (texts "url")
       (flat_map (findall "image") (findall "channel" (to_xml self)))
     = match feed_image_url self with
       | Some (String c u) => [String c u]
       | _ => []
       end.
Proof.
  assert (Hitems : items_of (to_xml self) = map item_element (entries self)).
  { unfold items_of, to_xml, findall. cbn [children tag filter flat_map].
    rewrite String.eqb_refl. cbn [flat_map children].
    rewrite app_nil_r, !filter_app, findall_items.
    destruct (feed_image_url self) as [[| c u] |]; reflexivity. }
  split; [exact Hitems |]. split; [| split].
  - rewrite item_titles_items_of, Hitems. clear Hitems.
    induction (entries self) as [| e es IH]; [reflexivity |].
    cbn [map flat_map]. rewrite IH. unfold texts, findall, item_element.
    destruct (image_url e) as [[| c u] |]; reflexivity.
  - intros e. unfold texts, findall, item_element.
    destruct (image_url e) as [[| c u] |]; cbn; repeat split; reflexivity.
  - clear Hitems. unfold to_xml, findall, texts.
    cbn [children tag filter flat_map]. rewrite String.eqb_refl.
    cbn [flat_map children].
    rewrite app_nil_r, !filter_app, no_image_items, app_nil_r.
    destruct (feed_image_url self) as [[| c u] |]; reflexivity.
Qed.

(* ================================================================== *)
(** * The invariant of the store *)
(* ================================================================== *)

Lemma store_ok_iff (d : dict RssFeed) :
  store_ok d = true
  <-> NoDup (dict_keys d) /\ Forall (fun kv => feed_ok (snd kv) = true) d.
Proof.
  unfold store_ok. rewrite andb_true_iff, keys_distinct_NoDup, forallb_forall,
    Forall_forall. reflexivity.
Qed.

Lemma store_ok_set (k : string) (f : RssFeed) (d : dict RssFeed) :
  feed_ok f = true -> store_ok d = true -> store_ok (dict_set k f d) = true.
Proof.
  rewrite !store_ok_iff. intros Hf [Hnd Hall].
  induction d as [| [k' v'] d IH]; cbn [dict_set].
  - split; [repeat constructor; intros [] | repeat constructor; assumption].
  - cbn [dict_keys map fst] in Hnd.
    inversion Hnd as [| ? ? Hk Hnd']; subst.
    inversion Hall as [| ? ? Hv Hall']; subst.
    destruct (String.eqb_spec k k') as [-> | Hne].
    + split; [assumption | now constructor].
    + destruct (IH Hnd' Hall') as [IH1 IH2]. split.
      * cbn [dict_keys map fst]. constructor; [| exact IH1].
        intros Hin. apply Hk. clear - Hin Hne.
        induction d as [| [k0 v0] d IHd]; cbn in *.
        -- destruct Hin as [-> | []]. congruence.
        -- destruct (String.eqb_spec k k0) as [-> | Hne0]; cbn in *.
           ++ destruct Hin as [-> | Hin]; auto.
           ++ destruct Hin as [-> | Hin]; auto.
      * now constructor.
Qed.

Lemma store_ok_del (k : string) (d : dict RssFeed) :
  store_ok d = true -> store_ok (dict_del k d) = true.
Proof.
  rewrite !store_ok_iff. intros [Hnd Hall].
  induction d as [| [k' v'] d IH]; cbn [dict_del]; [auto |].
  cbn [dict_keys map fst] in Hnd.
  inversion Hnd as [| ? ? Hk Hnd']; subst.
  inversion Hall as [| ? ? Hv Hall']; subst.
  destruct (String.eqb_spec k k') as [-> | Hne]; [auto |].
  destruct (IH Hnd' Hall') as [IH1 IH2]. split; [| now constructor].
  cbn [dict_keys map fst]. constructor; [| exact IH1].
  intros Hin. apply Hk. clear - Hin.
  induction d as [| [k0 v0] d IHd]; cbn in *; [assumption |].
  destruct (String.eqb k k0); cbn in *; intuition.
Qed.

Lemma store_ok_get (k : string) (f : RssFeed) (d : dict RssFeed) :
  store_ok d = true -> dict_get k d = Some f -> feed_ok f = true.
Proof.
  rewrite store_ok_iff. intros [_ Hall].
  induction Hall as [| [k' v'] d Hv Hall IH]; cbn [dict_get]; [discriminate |].
  destruct (String.eqb k k'); [intros [= <-]; exact Hv | exact IH].
Qed.

Lemma feed_ok_shrunk (feed feed' : RssFeed) :
  shrunk feed feed' -> feed_ok feed = true -> feed_ok feed' = true.
Proof.
  intros [Hmeta Hsub]. unfold feed_ok. rewrite !andb_true_iff.
  intros [Hid Hes]. split.
  - rewrite Hmeta. now destruct feed.
  - rewrite forallb_forall in *. rewrite <- Forall_forall in *.
    eapply subseq_Forall; eassumption.
Qed.

Lemma store_ok_shrunk (orig cur : dict RssFeed) :
  store_shrunk orig cur -> store_ok orig = true -> store_ok cur = true.
Proof.
  intros Hsh. rewrite !store_ok_iff. intros [Hnd Hall]. split.
  - now rewrite (store_shrunk_keys Hsh).
  - clear Hnd. induction Hsh as [| a b orig cur [_ Hs] Hsh IH];
      [constructor |].
    inversion Hall; subst. constructor; [| auto].
    eapply feed_ok_shrunk; eassumption.
Qed.

Lemma feed_ok_add_entry {cfg : Config} (feed : RssFeed) (entry : FeedEntry) :
  feed_ok feed = true -> entry_ok entry = true ->
  feed_ok (add_entry feed entry) = true.
Proof.
  unfold feed_ok. rewrite !andb_true_iff. intros [Hid Hes] He. split.
  - rewrite add_entry_metadata. now destruct feed.
  - destruct (add_entry_prefix feed entry) as (k & ->).
    rewrite forallb_forall in *. rewrite <- Forall_forall in *.
    eapply subseq_Forall; [apply subseq_firstn |]. now constructor.
Qed.

(** ** What [save] writes is typed *)

Lemma typed_FeedEntry_to_dict (e : FeedEntry) :
  typed_entry_doc (FeedEntry_to_dict e) = true.
Proof. destruct e as [t l d p g [i |]]; reflexivity. Qed.

Lemma typed_RssFeed_to_dict (f : RssFeed) :
  typed_feed_doc (RssFeed_to_dict f) = true.
Proof.
  destruct f as [t l d g fid es i].
  unfold RssFeed_to_dict, typed_feed_doc, field_has.
  cbn [dict_get String.eqb Ascii.eqb Bool.eqb feed_title feed_link
       feed_description language feed_id feed_image_url entries is_str].
  assert (Hi : is_opt_str (of_opt_str i) = true) by now destruct i.
  rewrite Hi. cbn [is_opt_str andb].
  apply forallb_forall. intros x (e & <- & _)%in_map_iff.
  apply typed_FeedEntry_to_dict.
Qed.

Lemma typed_feeds_to_dict (fs : dict RssFeed) :
  typed_file (Json (feeds_to_dict fs)).
Proof.
  unfold typed_file, feeds_to_dict. apply forallb_forall.
  intros x (kv & <- & _)%in_map_iff. apply typed_RssFeed_to_dict.
Qed.

Lemma typed_file_after_write (st : State) (fs : dict RssFeed) :
  typed_file (storage_file st) ->
  typed_file (file_after_write st (feeds_to_dict fs)).
Proof.
  intros Hfile. unfold file_after_write.
  destruct (write_outcome_of st (feeds_to_dict fs));
    [apply typed_feeds_to_dict | exact Hfile | exact I].
Qed.

Lemma typed_file_saved_once (st st' : State) :
  typed_file (storage_file st) ->
  saved_once st st' ->
  typed_file (storage_file st').
Proof.
  intros Hfile [_ H].
  destruct (write_outcome_of st (feeds_to_dict (feeds st'))).
  - unfold mirrored in H. rewrite H. apply typed_feeds_to_dict.
  - now rewrite H.
  - now rewrite H.
Qed.

(** A change of the feeds alone keeps the invariant when the new feeds
    do. *)
Lemma store_invariant_set_feeds (d : dict RssFeed) (st : State) :
  store_ok d = true -> store_invariant st -> store_invariant (set_feeds d st).
Proof. intros Hd [_ Hfile]. split; [exact Hd | exact Hfile]. Qed.

(** ** The rules of [keeps] *)

Lemma keeps_ret {A : Type} (a : A) (Q : A -> Prop) : Q a -> keeps (ret a) Q.
Proof. intros Hq st Hinv. split; [exact Hinv |]. now intros a' [= <-]. Qed.

Lemma keeps_lift {A : Type} (r : res A) (Q : A -> Prop) :
  (forall a, r = Ok a -> Q a) -> keeps (lift r) Q.
Proof. intros Hq st Hinv. split; [exact Hinv | exact Hq]. Qed.

Lemma keeps_bind {A B : Type} (m : M A) (k : A -> M B)
    (Q' : A -> Prop) (Q : B -> Prop) :
  keeps m Q' -> (forall a, Q' a -> keeps (k a) Q) -> keeps (bind m k) Q.
Proof.
  intros Hm Hk st Hinv. unfold bind. destruct (Hm st Hinv) as [Hinv1 Hq].
  destruct (m st) as [[a | e |] st1]; cbn [fst snd] in *.
  - exact (Hk a (Hq a eq_refl) st1 Hinv1).
  - split; [assumption | discriminate].
  - split; [assumption | discriminate].
Qed.

Lemma keeps_weaken {A : Type} (m : M A) (Q Q' : A -> Prop) :
  keeps m Q -> (forall a, Q a -> Q' a) -> keeps m Q'.
Proof.
  intros Hm Hq st Hinv. destruct (Hm st Hinv) as [H1 H2]. split; auto.
Qed.

Lemma keeps_try_except {A : Type} (m : M A) (h : exn -> M A) (Q : A -> Prop) :
  keeps m Q -> (forall e, keeps (h e) Q) -> keeps (try_except m h) Q.
Proof.
  intros Hm Hh st Hinv. unfold try_except. destruct (Hm st Hinv) as [Hinv1 Hq].
  destruct (m st) as [[a | e |] st1]; cbn [fst snd] in *.
  - split; assumption.
  - exact (Hh e st1 Hinv1).
  - split; [assumption | discriminate].
Qed.

Lemma keeps_preserves {A : Type} (m : M A) :
  preserves m -> keeps m (fun _ => True).
Proof.
  intros Hm st Hinv. split; [| auto]. unfold store_invariant in *.
  destruct (Hm st) as (-> & -> & _). exact Hinv.
Qed.

Lemma keeps_modify (f : State -> State) :
  (forall st, store_invariant st -> store_invariant (f st)) ->
  keeps (modify f) (fun _ => True).
Proof. intros Hf st Hinv. split; [now apply Hf | auto]. Qed.

Lemma keeps_get_state : keeps get_state store_invariant.
Proof. intros st Hinv. split; [exact Hinv |]. now intros a [= <-]. Qed.

Lemma keeps_mapM {A B : Type} (f : A -> M B) (l : list A) (Q : B -> Prop) :
  (forall x, keeps (f x) Q) -> keeps (mapM f l) (Forall Q).
Proof.
  intros Hf. induction l as [| x l IH]; cbn [mapM].
  - apply keeps_ret. constructor.
  - eapply keeps_bind; [apply Hf |]. intros y Hy.
    eapply keeps_bind; [exact IH |]. intros ys Hys.
    apply keeps_ret. now constructor.
Qed.

(** ** The constructors and [from_dict] *)

Lemma keeps_or_uuid4 (o : option string) :
  keeps (or_uuid4 o) (fun g => truthy g = true).
Proof.
  intros st Hinv.
  destruct (or_uuid4_spec o st) as (g & st1 & -> & Hg & (Hf & Hfile & _) & _).
  cbn [fst snd]. unfold store_invariant in *. rewrite Hf, Hfile.
  split; [exact Hinv |]. now intros a [= <-].
Qed.

Lemma keeps_FeedEntry_init (t l d p : string) (g i : option string) :
  keeps (FeedEntry_init t l d p g i) (fun e => entry_ok e = true).
Proof.
  unfold FeedEntry_init. eapply keeps_bind; [apply keeps_or_uuid4 |].
  intros x Hx. apply keeps_ret. exact Hx.
Qed.

Ltac keeps_lifts :=
  repeat (eapply keeps_bind;
          [apply keeps_lift with (Q := fun _ => True); auto | intros ? _]).

Tactic Notation "keeps_lift_as" ident(x) :=
  eapply keeps_bind;
  [apply keeps_lift with (Q := fun _ => True); auto | intros x _].

Lemma keeps_FeedEntry_from_dict (data : pyval) :
  keeps (FeedEntry_from_dict data) (fun e => entry_ok e = true).
Proof.
  unfold FeedEntry_from_dict. keeps_lifts. apply keeps_FeedEntry_init.
Qed.

Lemma keeps_RssFeed_init (t l d g : string) (fid i : option string) :
  keeps (RssFeed_init t l d g fid i)
        (fun f => feed_ok f = true /\ entries f = []).
Proof.
  unfold RssFeed_init. eapply keeps_bind; [apply keeps_or_uuid4 |].
  intros x Hx. apply keeps_ret. unfold feed_ok. cbn. now rewrite Hx.
Qed.

Lemma feed_ok_set_entries (feed : RssFeed) (es : list FeedEntry) :
  feed_ok feed = true -> Forall (fun e => entry_ok e = true) es ->
  feed_ok (set_entries feed es) = true.
Proof.
  unfold feed_ok. rewrite !andb_true_iff. intros [Hid _] Hes.
  split; [now destruct feed |]. destruct feed; cbn [set_entries entries].
  now apply forallb_forall, Forall_forall.
Qed.

Lemma keeps_RssFeed_from_dict (data : pyval) :
  keeps (RssFeed_from_dict data) (fun f => feed_ok f = true).
Proof.
  unfold RssFeed_from_dict. keeps_lifts.
  eapply keeps_bind; [apply keeps_RssFeed_init |]. intros feed [Hfeed _].
  keeps_lifts.
  eapply keeps_bind; [apply keeps_mapM; apply keeps_FeedEntry_from_dict |].
  intros es Hes. apply keeps_ret. now apply feed_ok_set_entries.
Qed.

(** ** Typed requests are answered within the model *)

Lemma modelledM_ret {A : Type} (a : A) : modelledM (ret a).
Proof. intros st. discriminate. Qed.

Lemma modelledM_lift {A : Type} (r : res A) : modelled r -> modelledM (lift r).
Proof. intros H st. exact H. Qed.

Lemma modelledM_bind {A B : Type} (m : M A) (k : A -> M B) :
  modelledM m -> (forall a, modelledM (k a)) -> modelledM (bind m k).
Proof.
  intros Hm Hk st. unfold bind. specialize (Hm st).
  destruct (m st) as [[a | e |] st1]; cbn [fst] in *.
  - apply Hk.
  - discriminate.
  - exfalso. now apply Hm.
Qed.

Lemma modelledM_try_except {A : Type} (m : M A) (h : exn -> M A) :
  modelledM m -> (forall e, modelledM (h e)) -> modelledM (try_except m h).
Proof.
  intros Hm Hh st. unfold try_except. specialize (Hm st).
  destruct (m st) as [[a | e |] st1]; cbn [fst] in *.
  - discriminate.
  - apply Hh.
  - exfalso. now apply Hm.
Qed.

Lemma modelledM_try_except_ValueError {A : Type} (m h : M A) :
  modelledM m -> modelledM h -> modelledM (try_except_ValueError m h).
Proof.
  intros Hm Hh st. unfold try_except_ValueError. specialize (Hm st).
  destruct (m st) as [[a | [] |] st1]; cbn [fst] in *;
    try discriminate; try apply Hh. exfalso. now apply Hm.
Qed.

Lemma modelledM_mapM {A B : Type} (f : A -> M B) (l : list A) :
  (forall x, modelledM (f x)) -> modelledM (mapM f l).
Proof.
  intros Hf. induction l as [| x l IH]; cbn [mapM].
  - apply modelledM_ret.
  - apply modelledM_bind; [apply Hf |]. intros y.
    apply modelledM_bind; [exact IH |]. intros ys. apply modelledM_ret.
Qed.

Lemma modelledM_get_state : modelledM get_state.
Proof. intros st. discriminate. Qed.

Lemma modelledM_modify (f : State -> State) : modelledM (modify f).
Proof. intros st. discriminate. Qed.

Lemma modelledM_or_uuid4 (o : option string) : modelledM (or_uuid4 o).
Proof.
  intros st. destruct (or_uuid4_ok o st) as (g & st' & ->). discriminate.
Qed.

Lemma modelledM_FeedEntry_init (t l d p : string) (g i : option string) :
  modelledM (FeedEntry_init t l d p g i).
Proof.
  unfold FeedEntry_init. apply modelledM_bind; [apply modelledM_or_uuid4 |].
  intros x. apply modelledM_ret.
Qed.

Lemma modelledM_RssFeed_init (t l d g : string) (fid i : option string) :
  modelledM (RssFeed_init t l d g fid i).
Proof.
  unfold RssFeed_init. apply modelledM_bind; [apply modelledM_or_uuid4 |].
  intros x. apply modelledM_ret.
Qed.

Lemma modelled_res_map {A B : Type} (f : A -> B) (r : res A) :
  modelled r -> modelled (res_map f r).
Proof.
  destruct r; cbn; intros H; [discriminate | discriminate |].
  exfalso. now apply H.
Qed.

Lemma modelled_dt_cmp (a b : datetime) : modelled (dt_cmp a b).
Proof. unfold dt_cmp. destruct (utcoffset a), (utcoffset b); discriminate. Qed.

Lemma modelled_insert_desc {A : Type} (x : datetime * A)
    (sorted : list (datetime * A)) :
  modelled (insert_desc x sorted).
Proof.
  induction sorted as [| y sorted IH]; cbn [insert_desc]; [discriminate |].
  pose proof (modelled_dt_cmp (fst y) (fst x)) as Hc.
  destruct (dt_cmp (fst y) (fst x)) as [[| |] | e |]; try discriminate.
  - destruct (insert_desc x sorted); [discriminate | discriminate |].
    exfalso. now apply IH.
  - exfalso. now apply Hc.
Qed.

Lemma modelled_sort_desc {A : Type} (l : list (datetime * A)) :
  modelled (sort_desc l).
Proof.
  induction l as [| x l IH]; cbn [sort_desc]; [discriminate |].
  destruct (sort_desc l); [apply modelled_insert_desc | discriminate |].
  exfalso. now apply IH.
Qed.

Lemma modelled_first_missing (fields : list string) (data : pyval) :
  modelled (first_missing fields data).
Proof.
  induction fields as [| f fields IH]; cbn [first_missing]; [discriminate |].
  destruct data as [| s | l | d]; cbn [py_in]; try discriminate;
    match goal with
    | |- context [if ?b then _ else _] => destruct b
    | |- context [match ?b with true => _ | false => _ end] => destruct b
    end; try exact IH; discriminate.
Qed.

Lemma modelledM_bind_lift {A B : Type} (r : res A) (k : A -> M B) :
  modelled r -> (forall a, r = Ok a -> modelledM (k a)) ->
  modelledM (bind (lift r) k).
Proof.
  intros Hr Hk st. unfold bind, lift.
  destruct r as [a | e |]; [now apply Hk | discriminate |].
  exfalso. now apply Hr.
Qed.

Lemma modelled_subscript (data : pyval) (key : string) :
  modelled (subscript data key).
Proof.
  destruct data as [| s | l | d]; cbn; try discriminate.
  destruct (dict_get key d); discriminate.
Qed.

Lemma modelled_py_get (data : pyval) (key : string) (default : pyval) :
  modelled (py_get data key default).
Proof.
  destruct data as [| s | l | d]; cbn; try discriminate.
  destruct (dict_get key d); discriminate.
Qed.

Lemma modelled_py_iter (data : pyval) : modelled (py_iter data).
Proof. destruct data; discriminate. Qed.

Lemma subscript_field (check : pyval -> bool) (d : list (string * pyval))
    (key : string) (v : pyval) :
  field_has check key d = true ->
  subscript (PDict d) key = Ok v ->
  check v = true.
Proof.
  unfold field_has, subscript.
  destruct (dict_get key d); [intros H [= <-]; exact H | discriminate].
Qed.

Lemma py_get_field (check : pyval -> bool) (d : list (string * pyval))
    (key : string) (default v : pyval) :
  field_has check key d = true ->
  check default = true ->
  py_get (PDict d) key default = Ok v ->
  check v = true.
Proof.
  unfold field_has, py_get.
  destruct (dict_get key d); intros H Hd [= <-]; assumption.
Qed.

Lemma modelled_as_str (v : pyval) : is_str v = true -> modelled (as_str v).
Proof. destruct v; cbn; discriminate. Qed.

Lemma modelled_as_opt_str (v : pyval) :
  is_opt_str v = true -> modelled (as_opt_str v).
Proof. destruct v; cbn; discriminate. Qed.

Section InModel.
Context {cfg : Config} {lib : PyLib}.

Lemma modelledM_date_stage (criterion : option string)
    (test : comparison -> bool) (l : list FeedEntry) :
  modelledM (date_stage criterion test l).
Proof.
  unfold date_stage. destruct criterion as [q |]; [| apply modelledM_ret].
  apply modelledM_try_except_ValueError; [| apply modelledM_ret].
  destruct (fromisoformat q); [| apply modelledM_lift; discriminate].
  apply modelledM_filterM. intros e.
  apply modelledM_bind; [apply parse_date_modelled |].
  intros parsed. apply modelledM_lift, modelled_res_map, modelled_dt_cmp.
Qed.

Lemma modelledM_filter_entries (query_params : dict string)
    (es : list FeedEntry) :
  modelledM (filter_entries query_params es).
Proof.
  intros st. rewrite filter_entries_stages. revert st.
  apply modelledM_bind; [apply modelledM_date_stage |]. intros l3.
  apply modelledM_bind; [apply modelledM_date_stage |]. intros l4.
  apply modelledM_ret.
Qed.

Lemma modelledM_filter_feed (query_params : dict string) (feed : RssFeed) :
  modelledM (filter_feed query_params feed).
Proof.
  unfold filter_feed.
  apply modelledM_bind; [apply modelledM_RssFeed_init |]. intros c.
  apply modelledM_bind; [apply modelledM_filter_entries |]. intros es.
  apply modelledM_ret.
Qed.

Lemma modelledM_filter_feeds (query_params : dict string) :
  modelledM (filter_feeds query_params).
Proof.
  intros st. rewrite filter_feeds_mapM. cbn [fst].
  apply modelled_res_map. apply modelledM_mapM. apply modelledM_filter_feed.
Qed.

Lemma modelledM_combine_entries (feed : RssFeed) (todo : list FeedEntry)
    (combined : RssFeed) :
  modelledM (combine_entries feed todo combined).
Proof.
  revert combined. induction todo as [| e todo IH]; intros combined;
    cbn [combine_entries].
  - apply modelledM_ret.
  - apply modelledM_bind; [apply modelledM_FeedEntry_init |].
    intros c. apply IH.
Qed.

Lemma modelledM_combine_feeds (todo : list RssFeed) (combined : RssFeed) :
  modelledM (combine_feeds todo combined).
Proof.
  revert combined. induction todo as [| f todo IH]; intros combined;
    cbn [combine_feeds].
  - apply modelledM_ret.
  - apply modelledM_bind; [apply modelledM_combine_entries |].
    intros c. apply IH.
Qed.

Lemma modelledM_search_feeds (query_params : dict string) (url : string) :
  modelledM (search_feeds query_params url).
Proof.
  unfold search_feeds.
  apply modelledM_bind; [apply modelledM_filter_feeds |].
  intros filtered. destruct (String.eqb _ "xml"); [| apply modelledM_ret].
  apply modelledM_bind; [| intros c; apply modelledM_ret].
  unfold search_combined.
  apply modelledM_bind; [apply modelledM_RssFeed_init |].
  intros c. apply modelledM_combine_feeds.
Qed.

Lemma modelledM_get_all_feeds_xml (host_url : string) :
  modelledM (get_all_feeds_xml host_url).
Proof.
  unfold get_all_feeds_xml, all_feeds_combined, merge_all_feeds,
    get_all_feeds, sort_entries_by_date.
  apply modelledM_bind; [| intros c; apply modelledM_ret].
  apply modelledM_bind.
  - apply modelledM_bind; [apply modelledM_RssFeed_init |]. intros c.
    apply modelledM_bind.
    + apply modelledM_bind; [apply modelledM_get_state |].
      intros st. apply modelledM_ret.
    + intros all. apply modelledM_combine_feeds.
  - intros c. apply modelledM_bind; [| intros sorted; apply modelledM_ret].
    apply modelledM_bind.
    + apply modelledM_mapM. intros e.
      apply modelledM_bind; [apply parse_date_modelled |].
      intros parsed. apply modelledM_ret.
    + intros keyed. apply modelledM_bind;
        [apply modelledM_lift, modelled_sort_desc |].
      intros sorted. apply modelledM_ret.
Qed.

Lemma modelledM_save : modelledM save.
Proof. apply modelledM_modify. Qed.

Lemma modelledM_get_feed (fid : string) : modelledM (get_feed fid).
Proof.
  unfold get_feed. apply modelledM_bind; [apply modelledM_get_state |].
  intros st. apply modelledM_ret.
Qed.

Lemma modelledM_add_feed (feed : RssFeed) : modelledM (add_feed feed).
Proof.
  unfold add_feed. apply modelledM_bind; [apply modelledM_modify |].
  intros _. apply modelledM_bind; [apply modelledM_save |].
  intros _. apply modelledM_ret.
Qed.

Lemma modelledM_add_entry_to_feed (fid : string) (entry : FeedEntry) :
  modelledM (add_entry_to_feed fid entry).
Proof.
  unfold add_entry_to_feed. apply modelledM_bind; [apply modelledM_get_feed |].
  intros [feed |]; [| apply modelledM_ret].
  apply modelledM_bind; [apply modelledM_modify |].
  intros _. apply modelledM_bind; [apply modelledM_save |].
  intros _. apply modelledM_ret.
Qed.

Lemma modelledM_delete_feed (fid : string) : modelledM (delete_feed fid).
Proof.
  unfold delete_feed. apply modelledM_bind; [apply modelledM_get_state |].
  intros st. destruct (dict_mem fid (feeds st)); [| apply modelledM_ret].
  apply modelledM_bind; [apply modelledM_modify |].
  intros _. apply modelledM_bind; [apply modelledM_save |].
  intros _. apply modelledM_ret.
Qed.

Lemma modelledM_entry_of_request (data : pyval) :
  typed_entry_doc data = true -> modelledM (entry_of_request data).
Proof.
  intros Ht st. unfold entry_of_request.
  destruct (FeedEntry_from_dict_typed data st Ht) as (r & st' & -> & Hm & _).
  exact Hm.
Qed.

Lemma modelledM_add_initial_entries (todo : list pyval) (feed : RssFeed) :
  forallb typed_entry_doc todo = true ->
  modelledM (add_initial_entries todo feed).
Proof.
  revert feed. induction todo as [| v todo IH]; intros feed Ht;
    cbn [add_initial_entries].
  - apply modelledM_ret.
  - cbn [forallb] in Ht. apply andb_prop in Ht as [Hv Hl].
    apply modelledM_bind; [apply modelledM_lift, modelled_first_missing |].
    intros [field |]; [now apply IH |].
    apply modelledM_bind; [now apply modelledM_entry_of_request |].
    intros e. now apply IH.
Qed.

Lemma modelledM_add_feed_entry (fid : string) (data : pyval) :
  typed_entry_doc data = true -> modelledM (add_feed_entry fid data).
Proof.
  intros Ht. unfold add_feed_entry.
  apply modelledM_try_except; [| intros e; apply modelledM_ret].
  apply modelledM_bind; [apply modelledM_get_feed |].
  intros [feed |]; [| apply modelledM_ret].
  apply modelledM_bind; [apply modelledM_lift, modelled_first_missing |].
  intros [field |]; [apply modelledM_ret |].
  apply modelledM_bind; [now apply modelledM_entry_of_request |].
  intros e. apply modelledM_bind; [apply modelledM_add_entry_to_feed |].
  intros _. apply modelledM_ret.
Qed.

Lemma modelledM_create_feed (data : pyval) :
  typed_feed_request data = true -> modelledM (create_feed data).
Proof.
  intros Ht. unfold create_feed.
  apply modelledM_try_except; [| intros e; apply modelledM_ret].
  apply modelledM_bind_lift; [apply modelled_first_missing |].
  intros [field |] _; [apply modelledM_ret |].
  apply modelledM_bind_lift; [apply modelled_subscript |]. intros t Et.
  apply modelledM_bind_lift; [apply modelled_subscript |]. intros l El.
  apply modelledM_bind_lift; [apply modelled_subscript |]. intros ds Ed.
  apply modelledM_bind_lift; [apply modelled_py_get |]. intros g Eg.
  apply modelledM_bind_lift; [apply modelled_py_get |]. intros i Ei.
  destruct data as [| s | l0 | d]; try discriminate Et.
  unfold typed_feed_request in Ht.
  apply andb_prop in Ht as [Ht Hentries].
  apply andb_prop in Ht as [Ht Himage].
  apply andb_prop in Ht as [Ht Hlanguage].
  apply andb_prop in Ht as [Ht Hdescription].
  apply andb_prop in Ht as [Htitle Hlink].
  apply modelledM_bind_lift;
    [apply modelled_as_str;
     eapply subscript_field; [exact Htitle | exact Et] |].
  intros t' _.
  apply modelledM_bind_lift;
    [apply modelled_as_str;
     eapply subscript_field; [exact Hlink | exact El] |].
  intros l' _.
  apply modelledM_bind_lift;
    [apply modelled_as_str;
     eapply subscript_field; [exact Hdescription | exact Ed] |].
  intros ds' _.
  apply modelledM_bind_lift;
    [apply modelled_as_str;
     apply py_get_field
       with (d := d) (key := "language") (default := PStr "en-US");
     [exact Hlanguage | reflexivity | exact Eg] |].
  intros g' _.
  apply modelledM_bind_lift;
    [apply modelled_as_opt_str;
     apply py_get_field with (d := d) (key := "imageUrl") (default := PNone);
     [exact Himage | reflexivity | exact Ei] |].
  intros i' _.
  apply modelledM_bind; [apply modelledM_RssFeed_init |]. intros feed.
  apply modelledM_bind_lift; [apply modelled_py_get |]. intros es Ees.
  apply modelledM_bind_lift; [apply modelled_py_iter |]. intros es' Eiter.
  apply modelledM_bind.
  - apply modelledM_add_initial_entries.
    assert (Hes : match es with
                  | PList l => forallb typed_entry_doc l
                  | _ => true
                  end = true).
    { apply (py_get_field
               (fun es => match es with
                          | PList l => forallb typed_entry_doc l
                          | _ => true
                          end))
        with (d := d) (key := "entries") (default := PList []);
        [exact Hentries | reflexivity | exact Ees]. }
    apply (py_iter_typed es Hes Eiter).
  - intros f. apply modelledM_bind; [apply modelledM_add_feed |].
    intros fid. apply modelledM_ret.
Qed.

Lemma modelled_load (st : State) :
  typed_file (storage_file st) -> modelled (fst (load st)).
Proof.
  intros Hfile. unfold load, try_except, bind at 1, get_state.
  destruct (storage_file st) as [| | data]; try (cbn; discriminate).
  unfold bind at 1, lift.
  destruct data as [| s | l | items]; try (cbn; discriminate).
  cbn [py_items]. unfold bind.
  destruct (load_items_typed items [] st Hfile) as (r & st1 & -> & Hm & _).
  destruct r as [fs | e |]; [discriminate | discriminate |].
  exfalso. now apply Hm.
Qed.

End InModel.

Section Operations.
Context {cfg : Config} {lib : PyLib}.

Lemma keeps_load_items (items : list (string * pyval)) (acc : dict RssFeed) :
  store_ok acc = true ->
  keeps (load_items items acc) (fun d => store_ok d = true).
Proof.
  revert acc. induction items as [| [fid v] items IH]; intros acc Hacc;
    cbn [load_items].
  - now apply keeps_ret.
  - eapply keeps_bind; [apply keeps_RssFeed_from_dict |].
    intros f Hf. apply IH. now apply store_ok_set.
Qed.

Lemma keeps_set_feeds (d : dict RssFeed) :
  store_ok d = true -> keeps (modify (set_feeds d)) (fun _ => True).
Proof.
  intros Hd. apply keeps_modify. intros st Hinv.
  now apply store_invariant_set_feeds.
Qed.

Lemma keeps_load : keeps load (fun _ => True).
Proof.
  unfold load. apply keeps_try_except.
  - eapply keeps_bind; [apply keeps_get_state |]. intros st0 _.
    destruct (storage_file st0) as [| | data].
    + now apply keeps_set_feeds.
    + apply keeps_lift. discriminate.
    + keeps_lifts. eapply keeps_bind; [now apply keeps_load_items |].
      intros fs Hfs. now apply keeps_set_feeds.
  - intros e. now apply keeps_set_feeds.
Qed.

Lemma keeps_save : keeps save (fun _ => True).
Proof.
  apply keeps_modify. intros st [Hok Hfile]. split; [exact Hok |].
  cbn [storage_file]. now apply typed_file_after_write.
Qed.

Lemma keeps_add_feed (feed : RssFeed) :
  feed_ok feed = true -> keeps (add_feed feed) (fun _ => True).
Proof.
  intros Hfeed. unfold add_feed.
  eapply keeps_bind.
  - apply keeps_modify. intros st Hinv.
    apply store_invariant_set_feeds; [| exact Hinv].
    apply store_ok_set; [assumption | apply Hinv].
  - intros _ _. eapply keeps_bind; [apply keeps_save |].
    intros _ _. now apply keeps_ret.
Qed.

Lemma keeps_get_feed (fid : string) :
  keeps (get_feed fid) (fun o => forall f, o = Some f -> feed_ok f = true).
Proof.
  unfold get_feed. eapply keeps_bind; [apply keeps_get_state |].
  intros st0 [Hinv _]. apply keeps_ret. intros f Hget.
  eapply store_ok_get; eassumption.
Qed.

Lemma keeps_add_entry_to_feed (fid : string) (entry : FeedEntry) :
  entry_ok entry = true -> keeps (add_entry_to_feed fid entry) (fun _ => True).
Proof.
  intros He. unfold add_entry_to_feed.
  eapply keeps_bind; [apply keeps_get_feed |]. intros [feed |] Hfeed.
  - eapply keeps_bind.
    + apply keeps_modify. intros st Hinv.
      apply store_invariant_set_feeds; [| exact Hinv].
      apply store_ok_set; [| apply Hinv].
      apply feed_ok_add_entry; [now apply Hfeed | assumption].
    + intros _ _. eapply keeps_bind; [apply keeps_save |].
      intros _ _. now apply keeps_ret.
  - now apply keeps_ret.
Qed.

Lemma keeps_delete_feed (fid : string) : keeps (delete_feed fid) (fun _ => True).
Proof.
  unfold delete_feed. eapply keeps_bind; [apply keeps_get_state |].
  intros st0 _. destruct (dict_mem fid (feeds st0)); [| now apply keeps_ret].
  eapply keeps_bind.
  - apply keeps_modify. intros st Hinv.
    apply store_invariant_set_feeds; [| exact Hinv].
    apply store_ok_del, Hinv.
  - intros _ _. eapply keeps_bind; [apply keeps_save |].
    intros _ _. now apply keeps_ret.
Qed.

Lemma keeps_add_initial_entries (todo : list pyval) (feed : RssFeed) :
  feed_ok feed = true ->
  keeps (add_initial_entries todo feed) (fun f => feed_ok f = true).
Proof.
  revert feed. induction todo as [| v todo IH]; intros feed Hfeed;
    cbn [add_initial_entries].
  - now apply keeps_ret.
  - keeps_lift_as missing. destruct missing as [field |]; [now apply IH |].
    eapply keeps_bind; [apply keeps_FeedEntry_from_dict |].
    intros e He. apply IH. now apply feed_ok_add_entry.
Qed.

Lemma keeps_create_feed (data : pyval) : keeps (create_feed data) (fun _ => True).
Proof.
  unfold create_feed. apply keeps_try_except; [| intros e; now apply keeps_ret].
  keeps_lift_as missing. destruct missing as [field |]; [now apply keeps_ret |].
  keeps_lifts.
  eapply keeps_bind; [apply keeps_RssFeed_init |]. intros feed [Hfeed _].
  keeps_lifts.
  eapply keeps_bind; [now apply keeps_add_initial_entries |].
  intros feed' Hfeed'.
  eapply keeps_bind; [now apply keeps_add_feed |].
  intros fid _. now apply keeps_ret.
Qed.

Lemma keeps_add_feed_entry (fid : string) (data : pyval) :
  keeps (add_feed_entry fid data) (fun _ => True).
Proof.
  unfold add_feed_entry. apply keeps_try_except;
    [| intros e; now apply keeps_ret].
  eapply keeps_bind; [apply keeps_get_feed |]. intros [feed |] _;
    [| now apply keeps_ret].
  keeps_lift_as missing. destruct missing as [field |]; [now apply keeps_ret |].
  eapply keeps_bind; [apply keeps_FeedEntry_from_dict |]. intros e He.
  eapply keeps_bind; [now apply keeps_add_entry_to_feed |].
  intros _ _. now apply keeps_ret.
Qed.

Lemma keeps_cleanup_iteration : keeps cleanup_iteration (fun _ => True).
Proof.
  intros st [Hinv Hfile]. split; [| auto]. unfold store_invariant in *.
  pose proof Hinv as [Hnd _]%store_ok_iff.
  destruct (cleanup_iteration_outcome st Hnd) as (st' & -> & Hsh & Hsv & _).
  cbn [snd]. split; [eapply store_ok_shrunk; eassumption |].
  destruct Hsv as [[_ ->] | Hsv]; [exact Hfile |].
  eapply typed_file_saved_once; eassumption.
Qed.

(** Whatever the endpoints and the sweep are asked, in whatever order
    and whether they return or raise, as long as the request bodies are
    within the annotations (strings in the fields annotated [str],
    strings or null in those annotated [Optional[str]]) and the storage
    file the process started on is too: the store they leave is one the
    program can hold (one feed per id, every feed with a feed_id that
    is not empty, every entry with a guid that is not empty), the file
    is again within the annotations, and every call ended with a value
    or a Python exception, never on a value the typed records do not
    account for. *)
Theorem store_invariant_after_calls (calls : list call) (st : State) :
  Forall typed_call calls ->
  store_invariant st ->
  store_invariant (fold_left after calls st)
  /\ all_in_model calls st.
Proof.
  intros Htyped. revert st.
  induction Htyped as [| c calls Hc Htyped IH]; intros st Hinv;
    cbn [fold_left all_in_model].
  - split; [exact Hinv | exact I].
  - assert (Hstep : store_invariant (after st c) /\ in_model st c).
    { destruct c; cbn [after in_model typed_call] in *.
      - split; [now apply keeps_load | apply modelled_load, Hinv].
      - split; [now apply keeps_create_feed |
                now apply modelledM_create_feed].
      - split; [now apply keeps_add_feed_entry |
                now apply modelledM_add_feed_entry].
      - split; [now apply keeps_delete_feed | apply modelledM_delete_feed].
      - split; [now apply keeps_cleanup_iteration |].
        destruct Hinv as [[Hnd _]%store_ok_iff _].
        destruct (cleanup_iteration_outcome st Hnd) as (st' & -> & _).
        discriminate.
      - split; [| apply modelledM_search_feeds].
        apply (keeps_preserves (preserves_search_feeds query_params url)).
        exact Hinv.
      - split; [| apply modelledM_get_all_feeds_xml].
        apply (keeps_preserves (preserves_get_all_feeds_xml host_url)).
        exact Hinv. }
    destruct Hstep as [Hinv' Hmodel].
    destruct (IH _ Hinv') as [Hend Hall]. auto.
Qed.

End Operations.

(** A sequence for the examples: start-up, a feed, two entries (one
    with a guid of the caller's, one without), a turn of the sweep, a
    search, a deletion that finds nothing. *)
Lemma store_invariant_after_calls_witness :
  store_invariant
    (fold_left (@after (config 30 2) cpython)
       [Load;
        CreateFeed (feed_request "Feed A");
        AddFeedEntry first_id
          (entry_request "one" "Mon, 01 Jan 2024 00:00:00 GMT" (Some "dup"));
        AddFeedEntry first_id
          (entry_request "two" "2024-01-02T00:00:00Z" None);
        Sweep;
        Search [("from_date", "2024-01-01")] "http://host/feeds/search";
        DeleteFeed "nowhere"]
       (sample_state [] noon_2024_03_01)).
Proof.
  apply (@store_invariant_after_calls (config 30 2) cpython).
  - repeat constructor.
  - split; [reflexivity | exact I].
Defined.

(* ================================================================== *)
(** * [RssFeed.from_dict]: the defaults *)
(* ================================================================== *)

(** A feed record with [title], [link] and [description] and nothing
    else loads as a feed in language [en-US], without image, without
    entries, under a newly generated id; the same id is generated when
    [feedId] is null or the empty string.  Nothing but the random source
    moves: the clock is not read. *)
Theorem RssFeed_from_dict_defaults (d : list (string * pyval))
    (t l ds : string) (st : State) :
  dict_get "title" d = Some (PStr t) ->
  dict_get "link" d = Some (PStr l) ->
  dict_get "description" d = Some (PStr ds) ->
  dict_get "language" d = None ->
  dict_get "feedId" d = None \/ dict_get "feedId" d = Some PNone
  \/ dict_get "feedId" d = Some (PStr "") ->
  dict_get "imageUrl" d = None ->
  dict_get "entries" d = None ->
  exists st',
    RssFeed_from_dict (PDict d) st
    = (Ok (mkRssFeed t l ds "en-US" (next_uuid st) [] None), st')
    /\ truthy (next_uuid st) = true
    /\ uuid_draws st' = S (uuid_draws st)
    /\ same_store st st'
    /\ clock_reads st' = clock_reads st.
Proof.
  intros Ht Hl Hd Hlang Hid Himg Hes.
  unfold RssFeed_from_dict, RssFeed_init, bind, lift, subscript, py_get.
  rewrite Ht, Hl, Hd, Hlang, Himg, Hes.
  assert (Hgen : forall o,
             o = None \/ o = Some PNone \/ o = Some (PStr "") ->
             exists x, match o with Some v => Ok v | None => Ok PNone end
                       = Ok x
                       /\ (as_opt_str x = Ok None \/ as_opt_str x = Ok (Some ""))).
  { intros o [-> | [-> | ->]]; eexists; split; try reflexivity; auto. }
  destruct (Hgen _ Hid) as (x & -> & Hx). cbn -[or_uuid4].
  unfold next_uuid, same_store.
  destruct Hx as [-> | ->]; cbn; eexists; repeat split;
    apply uuid_str_truthy.
Qed.

Lemma RssFeed_from_dict_defaults_witness :
  exists st',
    RssFeed_from_dict (feed_request "Feed A") (sample_state [] noon_2024_03_01)
    = (Ok (mkRssFeed "Feed A" "http://example.org/" "a feed" "en-US"
             first_id [] None), st').
Proof.
  destruct (@RssFeed_from_dict_defaults
              [("title", PStr "Feed A"); ("link", PStr "http://example.org/");
               ("description", PStr "a feed")]
              "Feed A" "http://example.org/" "a feed"
              (sample_state [] noon_2024_03_01)
              eq_refl eq_refl eq_refl eq_refl (or_introl eq_refl)
              eq_refl eq_refl)
    as (st' & Hrun & _).
  exists st'. exact Hrun.
Defined.

(* ================================================================== *)
(** * [POST /feeds]: the initial entries *)
(* ================================================================== *)

Lemma FeedEntry_from_dict_complete (d : list (string * pyval))
    (t l ds p : string) (st : State) :
  dict_get "title" d = Some (PStr t) ->
  dict_get "link" d = Some (PStr l) ->
  dict_get "description" d = Some (PStr ds) ->
  dict_get "pubDate" d = Some (PStr p) ->
  field_has is_opt_str "guid" d = true ->
  field_has is_opt_str "imageUrl" d = true ->
  exists e st',
    FeedEntry_from_dict (PDict d) st = (Ok e, st')
    /\ fields_of_entry e = (t, l, ds, p)
    /\ same_store st st'.
Proof.
  intros Ht Hl Hd Hp Hg Hi.
  unfold FeedEntry_from_dict, FeedEntry_init, subscript, py_get, field_has in *.
  unfold bind, lift. rewrite Ht, Hl, Hd, Hp. cbn -[or_uuid4].
  destruct (dict_get "guid" d) as [[| g | |] |] eqn:Eg; try discriminate;
    destruct (dict_get "imageUrl" d) as [[| i | |] |] eqn:Ei; try discriminate;
    cbn -[or_uuid4];
    match goal with
    | |- context [or_uuid4 ?o ?s] =>
        destruct (or_uuid4_spec o s) as (g1 & st1 & -> & _ & Hsame & _)
    end;
    unfold ret; do 2 eexists; (split; [reflexivity |]);
    (split; [reflexivity | exact Hsame]).
Qed.

Section CreateFeed.
Context {cfg : Config}.

Lemma fields_of_request_some (d : list (string * pyval))
    (t l ds p : string) :
  fields_of_request (PDict d) = Some (t, l, ds, p) ->
  dict_get "title" d = Some (PStr t)
  /\ dict_get "link" d = Some (PStr l)
  /\ dict_get "description" d = Some (PStr ds)
  /\ dict_get "pubDate" d = Some (PStr p).
Proof.
  unfold fields_of_request.
  destruct (dict_get "title" d) as [[| ? | |] |]; try discriminate;
    destruct (dict_get "link" d) as [[| ? | |] |]; try discriminate;
    destruct (dict_get "description" d) as [[| ? | |] |]; try discriminate;
    destruct (dict_get "pubDate" d) as [[| ? | |] |]; try discriminate.
  intros [= -> -> -> ->]. auto.
Qed.

Lemma fields_of_request_none (d : list (string * pyval)) :
  typed_entry_doc (PDict d) = true ->
  fields_of_request (PDict d) = None ->
  exists field, first_absent entry_fields d = Some field.
Proof.
  unfold typed_entry_doc, field_has, fields_of_request, first_absent,
    entry_fields, dict_mem. cbn [find].
  destruct (dict_get "title" d) as [[| ? | |] |]; cbn; try discriminate;
    eauto;
    destruct (dict_get "link" d) as [[| ? | |] |]; cbn; try discriminate;
    eauto;
    destruct (dict_get "description" d) as [[| ? | |] |]; cbn;
    try discriminate; eauto;
    destruct (dict_get "pubDate" d) as [[| ? | |] |]; cbn; try discriminate;
    eauto.
Qed.

Lemma add_initial_entries_requested (reqs : list pyval) (feed : RssFeed)
    (st : State) :
  Forall typed_entry_object reqs ->
  exists es st',
    add_initial_entries reqs feed st = (Ok (append_all feed es), st')
    /\ map fields_of_entry es = requested reqs
    /\ same_store st st'.
Proof.
  intros Hall. revert feed st.
  induction Hall as [| v reqs [(d & ->) Htyped] Hall IH]; intros feed st.
  - exists [], st. cbn. auto using same_store_refl.
  - cbn [add_initial_entries]. unfold bind at 1, lift at 1.
    fold entry_fields. rewrite first_missing_dict.
    unfold requested. cbn [flat_map]. fold (requested reqs).
    destruct (fields_of_request (PDict d)) as [[[[t l] ds] p] |] eqn:Ef.
    + destruct (fields_of_request_some _ Ef) as (Et & El & Ed & Ep).
      assert (Habs : first_absent entry_fields d = None).
      { unfold first_absent, entry_fields, dict_mem. cbn [find].
        now rewrite Et, El, Ed, Ep. }
      rewrite Habs.
      unfold typed_entry_doc in Htyped.
      apply andb_prop in Htyped as [Htyped Hi].
      apply andb_prop in Htyped as [_ Hg].
      destruct (FeedEntry_from_dict_complete d st Et El Ed Ep Hg Hi)
        as (e & st1 & He & Hfields & Hsame1).
      unfold entry_of_request, bind. rewrite He.
      destruct (IH (add_entry feed e) st1) as (es & st' & -> & Hes & Hsame).
      exists (e :: es), st'. split; [reflexivity |]. split.
      * cbn [map app]. now rewrite Hfields, Hes.
      * eapply same_store_trans; eassumption.
    + destruct (fields_of_request_none _ Htyped Ef) as (field & ->).
      destruct (IH feed st) as (es & st' & -> & Hes & Hsame).
      exists es, st'. auto.
Qed.

Lemma append_all_metadata (feed : RssFeed) (es : list FeedEntry) :
  append_all feed es = set_entries feed (entries (append_all feed es)).
Proof.
  unfold append_all. revert feed. induction es as [| e es IH]; intros feed.
  - now destruct feed.
  - cbn [fold_left]. rewrite IH at 1.
    rewrite (add_entry_metadata feed e) at 1. now destruct feed.
Qed.

Lemma RssFeed_init_generated (t l d g : string) (i : option string)
    (st : State) :
  RssFeed_init t l d g None i st
  = (Ok (mkRssFeed t l d g (next_uuid st) [] i), drawn st).
Proof. reflexivity. Qed.

(** [POST /feeds] with a complete body: the feed is created under a
    newly generated id with the title, link and description of the
    body, the language defaulting to [en-US]; of the records under
    [entries], those that have [title], [link], [description] and
    [pubDate] are added one by one with [add_entry], the others are
    skipped, so the feed holds them in the reverse of the order of the
    request, cut to [MAX_ENTRIES_PER_FEED]; the other feeds are left
    alone; [save] is called once, and the answer is the same whether
    the write succeeds or not: the file holds what memory holds if it
    went through, and otherwise is what it was or no JSON. *)
Theorem create_feed_stores_entries (d : list (string * pyval))
    (t l ds : string) (reqs : list pyval) (st : State) :
  0 <= MAX_ENTRIES_PER_FEED ->
  dict_get "title" d = Some (PStr t) ->
  dict_get "link" d = Some (PStr l) ->
  dict_get "description" d = Some (PStr ds) ->
  field_has is_str "language" d = true ->
  field_has is_opt_str "imageUrl" d = true ->
  dict_get "entries" d = Some (PList reqs) ->
  Forall typed_entry_object reqs ->
  exists feed st',
    create_feed (PDict d) st = (Ok (Created (next_uuid st)), st')
    /\ dict_get (next_uuid st) (feeds st') = Some feed
    /\ (feed_title feed, feed_link feed, feed_description feed) = (t, l, ds)
    /\ feed_id feed = next_uuid st
    /\ (dict_get "language" d = None -> language feed = "en-US")
    /\ map fields_of_entry (entries feed)
       = firstn (Z.to_nat MAX_ENTRIES_PER_FEED) (rev (requested reqs))
    /\ (forall fid, fid <> next_uuid st ->
          dict_get fid (feeds st') = dict_get fid (feeds st))
    /\ saved_once st st'.
Proof.
  intros Hmax Ht Hl Hd Hlang Himg Hes Hreqs.
  unfold create_feed, try_except, bind at 1, lift at 1.
  rewrite first_missing_dict.
  assert (Habs : first_absent ["title"; "link"; "description"] d = None).
  { unfold first_absent, dict_mem. cbn [find]. now rewrite Ht, Hl, Hd. }
  rewrite Habs. cbn beta iota.
  unfold subscript, py_get, field_has in *.
  unfold bind at 1 2 3 4 5 6 7 8 9 10, lift at 1 2 3 4 5 6 7 8 9 10.
  rewrite Ht, Hl, Hd. cbn [as_str].
  assert (Hlang' : exists g,
             match dict_get "language" d with
             | Some v => Ok v
             | None => Ok (PStr "en-US")
             end = Ok (PStr g)
             /\ (dict_get "language" d = None -> g = "en-US")).
  { destruct (dict_get "language" d) as [[| g | |] |]; try discriminate;
      eexists; split; try reflexivity; congruence. }
  destruct Hlang' as (g & -> & Hg).
  assert (Himg' : exists i,
             match dict_get "imageUrl" d with
             | Some v => Ok v
             | None => Ok PNone
             end = Ok (of_opt_str i)).
  { destruct (dict_get "imageUrl" d) as [[| i | |] |]; try discriminate.
    - now exists None.
    - now exists (Some i).
    - now exists None. }
  destruct Himg' as (i & ->).
  assert (Hi : as_opt_str (of_opt_str i) = Ok i) by now destruct i.
  cbn [as_str]. rewrite Hi.
  unfold bind at 1. rewrite RssFeed_init_generated.
  unfold bind at 1, lift at 1. rewrite Hes.
  unfold bind at 1, lift at 1. cbn [py_iter]. unfold bind at 1.
  match goal with
  | |- context [add_initial_entries reqs ?f ?s] =>
      destruct (add_initial_entries_requested f s Hreqs)
        as (es & st1 & -> & Hfields & (Hf1 & Hfile1 & Hsv1 & Hdk1))
  end.
  unfold bind, add_feed, modify, ret.
  do 2 eexists. split.
  - rewrite (append_all_metadata _ es). unfold save, modify. reflexivity.
  - unfold set_feeds. cbn [feeds set_entries feed_id].
    rewrite dict_get_set_same.
    repeat match goal with |- _ /\ _ => split end; try reflexivity.
    + intros Hnone. cbn. now apply Hg.
    + cbn [entries set_entries]. destruct es as [| e es'].
      * cbn in Hfields. rewrite <- Hfields. cbn. now rewrite firstn_nil.
      * rewrite append_all_entries by (assumption || discriminate).
        cbn [entries]. rewrite app_nil_r, <- Hfields, <- map_rev.
        now rewrite firstn_map.
    + intros fid Hne. rewrite dict_get_set_other by assumption.
      now rewrite Hf1.
    + apply save_saved_once with (st0 := st); cbn [saves disk storage_file];
        assumption.
Qed.

End CreateFeed.

Lemma create_feed_stores_entries_witness :
  exists feed st',
    @create_feed (config 30 100) (PDict feed_request_with_entries)
      (sample_state [] noon_2024_03_01)
    = (Ok (Created first_id), st')
    /\ dict_get first_id (feeds st') = Some feed
    /\ map title (entries feed) = ["three"; "one"].
Proof.
  destruct (@create_feed_stores_entries (config 30 100)
              feed_request_with_entries
              "Feed A" "http://example.org/" "a feed"
              [entry_request "one" "Mon, 01 Jan 2024 00:00:00 GMT" None;
               PDict [("title", PStr "two"); ("link", PStr "http://example.org/2");
                      ("description", PStr "text")];
               entry_request "three" "Wed, 03 Jan 2024 00:00:00 GMT" (Some "g3")]
              (sample_state [] noon_2024_03_01))
    as (feed & st' & Hrun & Hget & _ & _ & _ & Hentries & _).
  - cbn. lia.
  - reflexivity.
  - reflexivity.
  - reflexivity.
  - reflexivity.
  - reflexivity.
  - reflexivity.
  - repeat constructor; eexists; reflexivity.
  - exists feed, st'. split; [exact Hrun |]. split; [exact Hget |].
    assert (H : map title (entries feed)
                = map (fun x => fst (fst (fst x)))
                      (map fields_of_entry (entries feed))).
    { rewrite map_map. reflexivity. }
    rewrite H, Hentries. reflexivity.
Defined.

(* ================================================================== *)
(** * Criteria that do not parse *)
(* ================================================================== *)

Section Unparsable.
Context {lib : PyLib}.

Lemma date_stage_unparsable (criterion : option string)
    (test : comparison -> bool) (l : list FeedEntry) (st : State) :
  (forall q, criterion = Some q -> fromisoformat q = None) ->
  date_stage criterion test l st = (Ok l, st).
Proof.
  intros H. unfold date_stage. destruct criterion as [q |]; [| reflexivity].
  rewrite (H q eq_refl). reflexivity.
Qed.

(** A [from_date] or [to_date] that [fromisoformat] refuses and a
    [limit] that [int] refuses are ignored, they are no errors: the
    filter returns what the title and description criteria leave, and
    reads no clock. *)
Theorem filter_entries_ignores_unparsable (query_params : dict string)
    (es : list FeedEntry) (st : State) :
  (forall q, dict_get "from_date" query_params = Some q ->
             fromisoformat q = None) ->
  (forall q, dict_get "to_date" query_params = Some q ->
             fromisoformat q = None) ->
  (forall q, dict_get "limit" query_params = Some q -> int_of_str q = None) ->
  filter_entries query_params es st
  = (Ok (description_stage query_params (title_stage query_params es)), st).
Proof.
  intros Hfrom Hto Hlimit. rewrite filter_entries_stages. unfold bind.
  rewrite date_stage_unparsable by assumption.
  rewrite date_stage_unparsable by assumption.
  unfold ret, limit_stage.
  destruct (dict_get "limit" query_params) as [q |]; [| reflexivity].
  now rewrite (Hlimit q eq_refl).
Qed.

End Unparsable.

Lemma filter_entries_ignores_unparsable_witness :
  fst (filter_entries
         [("title", "JUN"); ("from_date", "last week"); ("limit", "a few")]
         [sample_entry "Jun" "Sat, 01 Jun 2024 00:00:00 GMT" "g2";
          sample_entry "May" "Wed, 01 May 2024 00:00:00 GMT" "g3"]
         (sample_state [] noon_2024_03_01))
  = Ok [sample_entry "Jun" "Sat, 01 Jun 2024 00:00:00 GMT" "g2"].
Proof.
  rewrite (@filter_entries_ignores_unparsable cpython).
  - reflexivity.
  - intros q [= <-]. reflexivity.
  - intros q [=].
  - intros q [= <-]. reflexivity.
Defined.

(* ================================================================== *)
(** * [add_entry] under a bound that is not positive *)
(* ================================================================== *)

Section NonPositiveBound.
Context {cfg : Config}.

(** With [MAX_ENTRIES_PER_FEED] at 0 or below a feed never grows: an
    append leaves at most as many entries as there were; none at all
    when the bound is 0; and with a negative bound, the new entry and
    the former ones less the last [-MAX_ENTRIES_PER_FEED] of that
    list. *)
Theorem add_entry_nonpositive_bound (feed : RssFeed) (entry : FeedEntry) :
  MAX_ENTRIES_PER_FEED <= 0 ->
  (MAX_ENTRIES_PER_FEED < 0 ->
   entries (add_entry feed entry)
   = firstn (Z.to_nat (Z.of_nat (S (List.length (entries feed)))
                       + MAX_ENTRIES_PER_FEED))
            (entry :: entries feed))
  /\ (MAX_ENTRIES_PER_FEED = 0 -> entries (add_entry feed entry) = [])
  /\ (List.length (entries (add_entry feed entry))
      <= List.length (entries feed))%nat.
Proof.
  intros Hmax.
  assert (Hcut : entries (add_entry feed entry)
                 = slice_to (entry :: entries feed) MAX_ENTRIES_PER_FEED).
  { unfold add_entry.
    destruct (Z.gtb_spec (Z.of_nat (List.length (entry :: entries feed)))
                         MAX_ENTRIES_PER_FEED) as [Hgt | Hle];
      cbn [List.length] in *; [| lia].
    now destruct feed. }
  rewrite Hcut. unfold slice_to. cbn [List.length].
  destruct (Z.ltb_spec MAX_ENTRIES_PER_FEED 0) as [Hneg | Hzero].
  - split; [reflexivity | split; [lia |]]. rewrite length_firstn.
    cbn [List.length]. lia.
  - assert (Hz : MAX_ENTRIES_PER_FEED = 0) by lia. rewrite Hz.
    cbn [Z.to_nat firstn List.length]. split; [lia | split; [reflexivity | lia]].
Qed.

End NonPositiveBound.

Lemma add_entry_nonpositive_bound_witness :
  entries (@add_entry (config 30 (-1))
             (sample_feed "a" "Feed A"
                [sample_entry "two" "d" "2"; sample_entry "one" "d" "1"])
             (sample_entry "three" "d" "3"))
  = [sample_entry "three" "d" "3"; sample_entry "two" "d" "2"].
Proof.
  destruct (@add_entry_nonpositive_bound (config 30 (-1))
              (sample_feed "a" "Feed A"
                 [sample_entry "two" "d" "2"; sample_entry "one" "d" "1"])
              (sample_entry "three" "d" "3")) as (H & _).
  - cbn. lia.
  - rewrite H; [reflexivity | cbn; lia].
Defined.

(* ================================================================== *)
(** * Entries without a date are never swept *)
(* ================================================================== *)

Lemma store_retains_refl (P : FeedEntry -> Prop) (d : dict RssFeed) :
  store_retains P d d.
Proof. unfold store_retains. induction d; constructor; auto. Qed.

Lemma store_retains_set (P : FeedEntry -> Prop) (orig cur : dict RssFeed)
    (fid : string) (feed feed' : RssFeed) :
  NoDup (dict_keys orig) ->
  store_retains P orig cur ->
  In (fid, feed) orig ->
  (forall e, In e (entries feed) -> P e -> In e (entries feed')) ->
  store_retains P orig (dict_set fid feed' cur).
Proof.
  unfold store_retains. intros Hnd H. revert Hnd.
  induction H as [| [k v] [k' v'] orig cur [Hk Hs] H IH]; intros Hnd Hin Hkeep.
  - destruct Hin.
  - cbn [fst snd] in *. subst k'. cbn [dict_keys map fst] in Hnd.
    inversion Hnd as [| ? ? Hk Hnd']; subst. cbn [dict_set].
    destruct (String.eqb_spec fid k) as [-> | Hne].
    + destruct Hin as [[= ->] | Hin].
      * constructor; [split; [reflexivity | assumption] | assumption].
      * exfalso. apply Hk. unfold dict_keys.
        change k with (fst (k, feed)). now apply in_map.
    + destruct Hin as [[= -> ->] | Hin]; [congruence |].
      constructor; [split; [reflexivity | assumption] |].
      now apply IH.
Qed.

Lemma store_retains_get (P : FeedEntry -> Prop) (orig cur : dict RssFeed)
    (fid : string) (feed : RssFeed) :
  store_retains P orig cur ->
  dict_get fid orig = Some feed ->
  exists feed',
    dict_get fid cur = Some feed'
    /\ forall e, In e (entries feed) -> P e -> In e (entries feed').
Proof.
  unfold store_retains.
  induction 1 as [| [k v] [k' v'] orig cur [Hk Hs] H IH]; cbn [dict_get].
  - discriminate.
  - cbn [fst snd] in *. subst k'. destruct (String.eqb fid k).
    + intros [= <-]. eauto.
    + exact IH.
Qed.

Section SweepUndated.
Context {cfg : Config} {lib : PyLib}.

Lemma later_refl (st : State) : later st st.
Proof. split; [reflexivity | lia]. Qed.

Lemma still_recent_later (cutoff_date : datetime) (e : FeedEntry)
    (st s : State) :
  later st s -> later st (snd (still_recent cutoff_date e s)).
Proof.
  intros [Hw Hr].
  unfold later, still_recent, bind, lift, _parse_date, try_except, ret,
    datetime_now.
  destruct (try_formats (pub_date e) formats) as [d |]; cbn [fst snd].
  - split; assumption.
  - cbn [wall_clock clock_reads]. split; [assumption | lia].
Qed.

Lemma still_recent_undated (cutoff_date : datetime) (e : FeedEntry)
    (s : State) :
  utcoffset cutoff_date = None ->
  undated e ->
  wall cutoff_date < wall_clock s (clock_reads s) ->
  fst (still_recent cutoff_date e s) = Ok true.
Proof.
  intros Hc He Hlt. unfold undated, parsed_date in He.
  unfold still_recent, bind, lift, _parse_date, try_except.
  rewrite He. cbn. unfold dt_gt, dt_cmp. cbn [utcoffset wall].
  rewrite Hc. cbn [res_map is_gt].
  destruct (Z.compare_spec (wall_clock s (clock_reads s)) (wall cutoff_date));
    [lia | lia | reflexivity].
Qed.

Lemma filterM_undated (cutoff_date : datetime) (l : list FeedEntry)
    (st s s' : State) (r : res (list FeedEntry)) :
  utcoffset cutoff_date = None ->
  (forall x, later st x -> wall cutoff_date < wall_clock x (clock_reads x)) ->
  later st s ->
  filterM (still_recent cutoff_date) l s = (r, s') ->
  later st s'
  /\ forall kept, r = Ok kept ->
       forall e, In e l -> undated e -> In e kept.
Proof.
  intros Hc Hclock. revert s r s'.
  induction l as [| x l IH]; intros s r s' Hs; cbn [filterM].
  - unfold ret. intros [= <- <-]. split; [assumption |]. intros kept _ e [].
  - unfold bind.
    pose proof (@still_recent_later cutoff_date x st s Hs) as Hs1.
    pose proof (fun Hx : undated x =>
                  @still_recent_undated cutoff_date x s Hc Hx (Hclock s Hs))
      as Hx.
    destruct (still_recent cutoff_date x s) as [[b | err |] s1] eqn:Ex;
      cbn [fst snd] in *.
    + destruct (filterM (still_recent cutoff_date) l s1)
        as [r1 s2] eqn:El.
      destruct (IH s1 r1 s2 Hs1 El) as [Hs2 Hkept].
      destruct r1 as [kept1 | err |]; unfold ret; intros [= <- <-];
        (split; [assumption |]); try discriminate.
      intros kept [= <-] e [<- | Hin] He.
      * specialize (Hx He). injection Hx as ->. now left.
      * specialize (Hkept kept1 eq_refl e Hin He).
        destruct b; [now right | assumption].
    + intros [= <- <-]. split; [assumption | discriminate].
    + intros [= <- <-]. split; [assumption | discriminate].
Qed.

Lemma cleanup_feeds_retains (cutoff_date : datetime) (orig todo : dict RssFeed)
    (feeds_modified : bool) (st0 st st' : State) (r : res bool) :
  utcoffset cutoff_date = None ->
  (forall x, later st0 x -> wall cutoff_date < wall_clock x (clock_reads x)) ->
  NoDup (dict_keys orig) ->
  incl todo orig ->
  later st0 st ->
  store_retains undated orig (feeds st) ->
  cleanup_feeds cutoff_date todo feeds_modified st = (r, st') ->
  store_retains undated orig (feeds st').
Proof.
  intros Hc Hclock Hnd. revert feeds_modified st.
  induction todo as [| [fid feed] todo IH];
    intros feeds_modified st Hincl Hlater Hret Hrun.
  - cbn in Hrun. injection Hrun as <- <-. assumption.
  - cbn [cleanup_feeds] in Hrun. fold (still_recent cutoff_date) in Hrun.
    unfold bind at 1 in Hrun.
    pose proof (preserves_filterM (still_recent cutoff_date) (entries feed)
                  (still_recent_preserves cutoff_date) st) as (Hf & _).
    destruct (filterM (still_recent cutoff_date) (entries feed) st)
      as [r1 st1] eqn:Ef. cbn [snd] in Hf.
    destruct (@filterM_undated cutoff_date (entries feed) st0 st st1 r1
                Hc Hclock Hlater Ef) as [Hlater1 Hkept].
    destruct r1 as [kept | err |].
    + unfold bind at 1, modify at 1 in Hrun.
      eapply IH in Hrun; [exact Hrun | | |].
      * intros x Hx. apply Hincl. now right.
      * unfold set_feeds, later in *. cbn. exact Hlater1.
      * unfold set_feeds. cbn [feeds]. rewrite Hf.
        apply store_retains_set with (feed := feed); try assumption.
        -- apply Hincl. now left.
        -- cbn [set_entries entries]. destruct feed; cbn [entries] in *.
           now apply Hkept.
    + injection Hrun as <- <-. now rewrite Hf.
    + injection Hrun as <- <-. now rewrite Hf.
Qed.

(** Retention never removes an entry whose date no format parses: such
    a date counts as the moment it is looked at, which is after the
    cutoff.  With [HISTORY_DAYS] positive and a clock that does not go
    back, after a turn of the sweep, whatever else the store holds and
    whether the turn ends in an error or not, every such entry is still
    in its feed. *)
Theorem cleanup_iteration_keeps_undated (st : State) (fid : string)
    (feed : RssFeed) :
  0 < HISTORY_DAYS ->
  clock_monotone st ->
  NoDup (dict_keys (feeds st)) ->
  dict_get fid (feeds st) = Some feed ->
  exists feed',
    dict_get fid (feeds (snd (cleanup_iteration st))) = Some feed'
    /\ forall e, In e (entries feed) -> undated e -> In e (entries feed').
Proof.
  intros Hdays Hmono Hnd Hget.
  apply store_retains_get with (orig := feeds st); [| exact Hget].
  unfold cleanup_iteration, try_except, bind at 1.
  destruct (datetime_now_ok st) as (st0 & Hnow & Hf0 & _).
  assert (Hlater0 : later st st0).
  { unfold datetime_now in Hnow. injection Hnow as <-. split; cbn; auto. }
  rewrite Hnow. unfold bind at 1, lift at 1.
  destruct (dt_sub_days (clock_now st) HISTORY_DAYS) as [cutoff | e |] eqn:Ec.
  - assert (Hc : utcoffset cutoff = None /\ wall cutoff
                 < wall_clock st (clock_reads st)).
    { unfold dt_sub_days in Ec. destruct (_ && _); [| discriminate].
      injection Ec as <-. cbn. split; [reflexivity |].
      unfold MICROS_PER_DAY. lia. }
    destruct Hc as [Hc Hlt].
    unfold bind at 1, get_state at 1. unfold bind at 1.
    destruct (cleanup_feeds cutoff (feeds st0) false st0) as [r st1] eqn:Erun.
    assert (Hret : store_retains undated (feeds st) (feeds st1)).
    { rewrite <- Hf0 at 1.
      eapply cleanup_feeds_retains with (st0 := st0); try exact Erun;
        try assumption.
      - intros x [Hw Hr]. rewrite Hw.
        destruct Hlater0 as [Hw0 Hr0]. rewrite Hw0.
        eapply Z.lt_le_trans; [exact Hlt |]. apply Hmono. lia.
      - now rewrite Hf0.
      - apply incl_refl.
      - apply later_refl.
      - apply store_retains_refl. }
    destruct r as [[|] | e |]; cbn; assumption.
  - cbn. rewrite Hf0. apply store_retains_refl.
  - cbn. rewrite Hf0. apply store_retains_refl.
Qed.

End SweepUndated.

Lemma cleanup_iteration_keeps_undated_witness :
  exists feed',
    dict_get "a"
      (feeds (snd (@cleanup_iteration (config 30 100) cpython
                     (sample_state undated_feeds noon_2024_03_01))))
    = Some feed'
    /\ In (sample_entry "Someday" "yesterday" "g2") (entries feed').
Proof.
  destruct (@cleanup_iteration_keeps_undated (config 30 100) cpython
              (sample_state undated_feeds noon_2024_03_01) "a"
              (sample_feed "a" "Feed A"
                 [sample_entry "Jan" "Mon, 01 Jan 2024 00:00:00 GMT" "g1";
                  sample_entry "Someday" "yesterday" "g2"]))
    as (feed' & Hget & Hkeep).
  - reflexivity.
  - intros n m Hnm. unfold sample_state. cbn [wall_clock]. lia.
  - cbn. repeat constructor; cbn; intuition discriminate.
  - reflexivity.
  - exists feed'. split; [exact Hget |].
    apply Hkeep; [cbn; auto | vm_compute; reflexivity].
Defined.
